(** * YouTube average-views automation: a shallow embedding

    The development follows the Python sources:

    - [src/youtube_api/client.py]: the duration parser and [YouTubeClient];
    - [scripts/avg_views_last_30d.py]: the 30-day average;
    - [hubspot/hubspot_avg_views_last_30d.py]: the staleness test and the
      per-contact update.

    Modelling conventions.

    - Python [int] is [Z].  Python [float] is an exact rational [Q] kept in
      lowest terms ([Qred]): binary64 rounding and range are outside the
      model, so [62.05] is the rational 1241/20.  Where Python raises on a
      number or a date out of range, the properties carry the range as a
      hypothesis (see "The ranges of Python's numbers and dates").
    - Python [str] is [string]; [len] is [String.length] (strings are read
      as ASCII).
    - A call either returns, raises, or does not terminate: [result].
    - Code that talks to the network runs in the monad [M], which threads
      the log of outbound requests; the remote services are functions from
      a request to an answer.
    - [None] is [None]; a dictionary read [d.get(k)] is an [option] field.
    - What the scripts print is not part of the trace. *)

From Stdlib Require Import ZArith QArith Qround Qabs Lqa.
From Stdlib Require Import String Ascii List Bool DecimalString Lia.
From Stdlib Require DecimalPos DecimalFacts.
Import ListNotations.

Local Open Scope string_scope.
Local Open Scope Z_scope.

(** ** Exceptions and results *)

Inductive exn : Type :=
| ValueError (msg : string)
| TypeError (msg : string)
| KeyError (key : string)
| HTTPError (status : Z) (text : string)
| ConnectionError (msg : string).

Inductive result (A : Type) : Type :=
| Ok (a : A)
| Raise (e : exn)
| Diverge.

Arguments Ok {A} a.
Arguments Raise {A} e.
Arguments Diverge {A}.

Definition rbind {A B : Type} (r : result A) (k : A -> result B) : result B :=
  match r with
  | Ok a => k a
  | Raise e => Raise e
  | Diverge => Diverge
  end.

Declare Scope result_scope.
Delimit Scope result_scope with result.
Notation "x <~ r ;; k" := (rbind r (fun x => k))
  (at level 61, r at next level, right associativity) : result_scope.

(** ** Strings the way Python reads them *)

(** Truthiness of an optional string: [None] and [""] are falsy. *)
Definition truthy (o : option string) : bool :=
  match o with
  | Some (String _ _) => true
  | _ => false
  end.

Definition is_digit (c : ascii) : bool :=
  let n := nat_of_ascii c in ((48 <=? n) && (n <=? 57))%nat.

Definition digit_value (c : ascii) : Z := Z.of_nat (nat_of_ascii c) - 48.

Fixpoint all_digits (s : string) : bool :=
  match s with
  | EmptyString => true
  | String c r => is_digit c && all_digits r
  end.

(** [span_digits s] is the longest run of digits that starts [s], and what
    follows it: the greedy [\d+] of the pattern. *)
Fixpoint span_digits (s : string) : string * string :=
  match s with
  | EmptyString => (EmptyString, EmptyString)
  | String c r =>
      if is_digit c
      then let (d, t) := span_digits r in (String c d, t)
      else (EmptyString, s)
  end.

Fixpoint int_of_digits (acc : Z) (s : string) : option Z :=
  match s with
  | EmptyString => Some acc
  | String c r =>
      if is_digit c then int_of_digits (10 * acc + digit_value c) r else None
  end.

(** [int(h)] for the text of a digit group: the decimal value, and
    [ValueError] on anything that is not a non-empty run of digits. *)
Definition py_int_digits (s : string) : result Z :=
  match s with
  | EmptyString => Raise (ValueError "invalid literal for int()")
  | _ =>
      match int_of_digits 0 s with
      | Some n => Ok n
      | None => Raise (ValueError "invalid literal for int()")
      end
  end.

(** ** Duration parser ([_iso8601_duration_to_minutes])

    The pattern is [P(?:T(?:(\d+)H)?(?:(\d+)M)?(?:(\d+)S)?)], applied with
    [re.match]: anchored at the start of the string, not at its end.  Each
    optional group is a greedy digit run followed by its unit letter; since
    the letter is not a digit, giving digits back can never make a failed
    group succeed, so a group matches exactly when the longest digit run at
    the current position is non-empty and is followed by the letter. *)

Definition group (unit : ascii) (s : string) : option string * string :=
  let (ds, rest) := span_digits s in
  match ds, rest with
  | String _ _, String c rest' =>
      if Ascii.eqb c unit then (Some ds, rest') else (None, s)
  | _, _ => (None, s)
  end.

Definition drop2 (s : string) : string :=
  match s with
  | String _ (String _ r) => r
  | _ => EmptyString
  end.

(** The three groups of the match and the text left after it. *)
Definition re_match_rest (s : string)
  : option (option string * option string * option string * string) :=
  if prefix "PT" s then
    let (h, r1) := group "H" (drop2 s) in
    let (m, r2) := group "M" r1 in
    let (sec, r3) := group "S" r2 in
    Some (h, m, sec, r3)
  else None.

(** [re.match(...)] followed by [match.groups()]: the rest is dropped. *)
Definition re_match (s : string)
  : option (option string * option string * option string) :=
  match re_match_rest s with
  | Some (h, m, sec, _) => Some (h, m, sec)
  | None => None
  end.

(** [if h: hours = int(h)], with the initial value [0]. *)
Definition int_or_zero (g : option string) : result Z :=
  match g with
  | Some (String c r) => py_int_digits (String c r)
  | _ => Ok 0
  end.

(** An [int] where a [float] is needed, taken exactly.  Python raises
    [OverflowError] on an integer of more than 308 digits, and [int(text)]
    raises [ValueError] past 4300 digits: the properties of the parser
    assume a text of at most 300 characters ([fits_float]). *)
Definition float_of_int (n : Z) : Q := inject_Z n.

(** [iso8601_duration_to_minutes(dur)], in exact arithmetic. *)
Definition iso8601_duration_to_minutes (dur : option string) : result Q :=
  let text := if truthy dur then match dur with Some d => d | None => "" end
              else "" in
  match re_match text with
  | None => Ok 0%Q
  | Some (h, m, s) =>
      (hours <~ int_or_zero h ;;
       minutes <~ int_or_zero m ;;
       seconds <~ int_or_zero s ;;
       Ok (Qred (float_of_int (hours * 60 + minutes)
                 + float_of_int seconds / 60)))%result
  end.

(** The client module carries the same function under a private name. *)
Definition _iso8601_duration_to_minutes := iso8601_duration_to_minutes.

(** What the specification calls a well-formed duration: the two-letter
    marker, then optional hours, minutes and seconds, each an integer with its
    unit letter, and nothing else. *)
Definition well_formed_duration (s : string) : bool :=
  match re_match_rest s with
  | Some (_, _, _, EmptyString) => true
  | _ => false
  end.

(** ** Dates and times

    A [datetime] is its wall-clock reading, in microseconds since
    1970-01-01T00:00:00, with the UTC offset (in seconds) of its [tzinfo],
    or [None] when it is naive. *)

Record pydatetime : Type := {
  wall : Z;
  tzinfo : option Z
}.

Definition MICROS_PER_DAY : Z := 86400000000.

(** [timedelta(days=d)]. *)
Definition timedelta_days (d : Z) : Z := d * MICROS_PER_DAY.

(** [dt - delta]. *)
Definition minus_timedelta (dt : pydatetime) (delta : Z) : pydatetime :=
  {| wall := wall dt - delta; tzinfo := tzinfo dt |}.

(** [datetime.now(timezone.utc)] when the clock shows the instant [now]. *)
Definition datetime_now_utc (now : Z) : pydatetime :=
  {| wall := now; tzinfo := Some 0 |}.

(** [dt.replace(tzinfo=timezone.utc)]. *)
Definition replace_tzinfo_utc (dt : pydatetime) : pydatetime :=
  {| wall := wall dt; tzinfo := Some 0 |}.

(** The UTC instant of a reading taken at offset [off]. *)
Definition utc_of (w off : Z) : Z := w - off * 1000000.

(** [a < b] on datetimes: aware values compare by instant, naive ones by
    reading, and a mixed pair raises. *)
Definition datetime_lt (a b : pydatetime) : result bool :=
  match tzinfo a, tzinfo b with
  | Some oa, Some ob => Ok (utc_of (wall a) oa <? utc_of (wall b) ob)
  | None, None => Ok (wall a <? wall b)
  | _, _ =>
      Raise (TypeError "can't compare offset-naive and offset-aware datetimes")
  end.

(** The instant a datetime denotes, a naive one being read as UTC. *)
Definition instant (dt : pydatetime) : Z :=
  match tzinfo dt with
  | Some off => utc_of (wall dt) off
  | None => wall dt
  end.

Definition is_aware (dt : pydatetime) : bool :=
  match tzinfo dt with Some _ => true | None => false end.

(** The civil date of a day number (days since 1970-01-01), proleptic
    Gregorian, as [strftime] needs it. *)
Definition civil_from_days (z0 : Z) : Z * Z * Z :=
  let z := z0 + 719468 in
  let era := z / 146097 in
  let doe := z - era * 146097 in
  let yoe := (doe - doe / 1460 + doe / 36524 - doe / 146096) / 365 in
  let y := yoe + era * 400 in
  let doy := doe - (365 * yoe + yoe / 4 - yoe / 100) in
  let mp := (5 * doy + 2) / 153 in
  let d := doy - (153 * mp + 2) / 5 + 1 in
  let m := if mp <? 10 then mp + 3 else mp - 9 in
  (if m <=? 2 then y + 1 else y, m, d).

Definition digit_char (n : Z) : ascii := ascii_of_nat (48 + Z.to_nat (n mod 10)).

Definition pad2 (n : Z) : string :=
  String (digit_char (n / 10)) (String (digit_char n) EmptyString).

Definition pad4 (n : Z) : string :=
  String (digit_char (n / 1000)) (String (digit_char (n / 100)) (pad2 n)).

(** [dt.strftime("%Y-%m-%dT00:00:00Z")] for a UTC datetime (years 1000 to
    9999). *)
Definition strftime_midnight (dt : pydatetime) : string :=
  let '(y, m, d) := civil_from_days (wall dt / MICROS_PER_DAY) in
  pad4 y ++ "-" ++ pad2 m ++ "-" ++ pad2 d ++ "T00:00:00Z".

(** *** The calendar, as the specification reads "today's date"

    The proleptic Gregorian calendar, counted the way Python's [date] does:
    the days of the years before, the days of the months before, and the day
    of the month. *)

Definition is_leap_year (y : Z) : bool :=
  (y mod 4 =? 0) && (negb (y mod 100 =? 0) || (y mod 400 =? 0)).

Definition days_in_month (y m : Z) : Z :=
  if m =? 2 then (if is_leap_year y then 29 else 28)
  else if (m =? 4) || (m =? 6) || (m =? 9) || (m =? 11) then 30 else 31.

(** The days from 0001-01-01 to the first of January of year [y]. *)
Definition days_before_year (y : Z) : Z :=
  365 * (y - 1) + (y - 1) / 4 - (y - 1) / 100 + (y - 1) / 400.

(** The days of the first [n] months of year [y]. *)
Fixpoint days_before_month (y : Z) (n : nat) : Z :=
  match n with
  | O => 0
  | S k => days_before_month y k + days_in_month y (Z.of_nat (S k))
  end.

(** The day number of the date [y]-[m]-[d]: days since 1970-01-01. *)
Definition days_from_civil (y m d : Z) : Z :=
  days_before_year y + days_before_month y (Z.to_nat (m - 1)) + (d - 1)
  - days_before_year 1970.

Definition valid_date (y m d : Z) : bool :=
  (1 <=? m) && (m <=? 12) && (1 <=? d) && (d <=? days_in_month y m).

(** 1 in a leap year, 0 otherwise. *)
Definition leap_day (y : Z) : Z := if is_leap_year y then 1 else 0.

(** The year of the 400-year era that [civil_from_days] gives day [doe] of
    the era, and the test that it is right on the first and on the last day
    of year [k]. *)
Definition year_of_era (doe : Z) : Z :=
  (doe - doe / 1460 + doe / 36524 - doe / 146096) / 365.

Definition year_ends_ok (k : Z) : bool :=
  (year_of_era (days_before_year (k + 1)) =? k)
  && (year_of_era (days_before_year (k + 2) - 1) =? k).

(** ** The staleness test ([hubspot_avg_views_last_30d.py]) *)

Section Staleness.

(** [dateutil.parser.parse]: [None] when it raises. *)
Variable date_parse : string -> option pydatetime.
(** The module constant, read from the environment (default 30). *)
Variable STALE_DAYS : Z.
(** The instant the clock shows when the function reads it. *)
Variable now : Z.

Definition stale_cutoff : pydatetime :=
  minus_timedelta (datetime_now_utc now) (timedelta_days STALE_DAYS).

Definition is_stale_or_missing (iso_value : option string) : result bool :=
  if negb (truthy iso_value) then Ok true
  else
    match iso_value with
    | None => Ok true
    | Some s =>
        match date_parse s with
        | None => Ok true
        | Some parsed =>
            let dt := if is_aware parsed then parsed
                      else replace_tzinfo_utc parsed in
            datetime_lt dt stale_cutoff
        end
    end.

End Staleness.

(** ** Video records and the 30-day average ([scripts/avg_views_last_30d.py]) *)

(** A scalar as JSON statistics carry it. *)
Inductive jsonval : Type :=
| JStr (s : string)
| JInt (n : Z)
| JFloat (q : Q).

(** The keys [fetch_videos] adds when it merges the statistics. *)
Record details : Type := {
  duration : option string;
  viewCount : option jsonval;
  likeCount : option jsonval;
  commentCount : option jsonval;
  thumbnails : option string
}.

(** A video dictionary: the basic keys, and the merged ones when present. *)
Record video : Type := {
  id : string;
  title : string;
  publishedAt : option string;
  merged : option details
}.

(** [v.get("duration", "PT0S")]. *)
Definition get_duration (v : video) : option string :=
  match merged v with
  | Some d => duration d
  | None => Some "PT0S"
  end.

(** [v.get("viewCount")]. *)
Definition get_viewCount (v : video) : option jsonval :=
  match merged v with
  | Some d => viewCount d
  | None => None
  end.

Definition Qlt_bool (a b : Q) : bool := negb (Qle_bool b a).

Fixpoint sum (l : list Z) : Z :=
  match l with
  | [] => 0
  | x :: r => x + sum r
  end.

(** [int(x)] on a float: truncation toward zero. *)
Definition int_of_float (q : Q) : Z := Z.quot (Qnum q) (Zpos (Qden q)).

Section Average.

Variable date_parse : string -> option pydatetime.
(** [int(s)] on a string: [None] when it raises. *)
Variable py_int_str : string -> option Z.
(** [int(float(s))] on a string: [None] when either call raises. *)
Variable py_int_float_str : string -> option Z.

(** [view = v.get("viewCount") or 0] and the nested [try]: never raises. *)
Definition view_int (v : video) : Z :=
  match get_viewCount v with
  | None => 0
  | Some (JInt n) => n
  | Some (JFloat q) => int_of_float q
  | Some (JStr EmptyString) => 0
  | Some (JStr s) =>
      match py_int_str s with
      | Some n => n
      | None =>
          match py_int_float_str s with
          | Some n => n
          | None => 0
          end
      end
  end.

(** The body of the [for] loop, [matching_views] being [acc]. *)
Fixpoint matching_views (cutoff : pydatetime) (min_minutes : Z)
         (videos : list video) (acc : list Z) : result (list Z) :=
  match videos with
  | [] => Ok acc
  | v :: rest =>
      if negb (truthy (publishedAt v)) then
        matching_views cutoff min_minutes rest acc
      else
        match publishedAt v with
        | None => matching_views cutoff min_minutes rest acc
        | Some pub =>
            match date_parse pub with
            | None => matching_views cutoff min_minutes rest acc
            | Some pub_dt =>
                (too_old <~ datetime_lt pub_dt cutoff ;;
                 if too_old : bool then
                   matching_views cutoff min_minutes rest acc
                 else
                   dur_min <~ iso8601_duration_to_minutes (get_duration v) ;;
                   if Qlt_bool dur_min (inject_Z min_minutes) then
                     matching_views cutoff min_minutes rest acc
                   else
                     matching_views cutoff min_minutes rest
                                    (acc ++ [view_int v])%list)%result
            end
        end
  end.

(** [sum(matching_views) / len(matching_views)], or [0.0]: the exact
    quotient.  Python rounds it to a float and raises [OverflowError] when it
    is beyond the float range: the properties of the calculator assume view
    counts of at most 300 digits ([int_fits_float]). *)
Definition mean_or_zero (views : list Z) : Q :=
  match views with
  | [] => 0%Q
  | _ => Qred (inject_Z (sum views) / inject_Z (Z.of_nat (length views)))
  end.

(** [avg_views_last_30d] from the point where [videos] is bound; [now] is
    the instant the clock shows at [datetime.now]. *)
Definition avg_views_of_videos (now : Z) (min_minutes : Z)
           (videos : list video) : result Q :=
  let cutoff := minus_timedelta (datetime_now_utc now) (timedelta_days 30) in
  (views <~ matching_views cutoff min_minutes videos [] ;;
   Ok (mean_or_zero views))%result.

(** *** The specification's reading of the calculator *)

(** The instant a video was published, when it has a timestamp that
    parses. *)
Definition publish_instant (v : video) : option Z :=
  if truthy (publishedAt v) then
    match publishedAt v with
    | Some pub => option_map instant (date_parse pub)
    | None => None
    end
  else None.

(** Published within the last 30 days: not earlier than the cutoff. *)
Definition within_last_30_days (now : Z) (v : video) : bool :=
  match publish_instant v with
  | Some t => now - timedelta_days 30 <=? t
  | None => false
  end.

(** Parsed duration in minutes at least [min_minutes]. *)
Definition long_enough (min_minutes : Z) (v : video) : bool :=
  match iso8601_duration_to_minutes (get_duration v) with
  | Ok q => Qle_bool (inject_Z min_minutes) q
  | _ => false
  end.

Definition qualifies (now min_minutes : Z) (v : video) : bool :=
  within_last_30_days now v && long_enough min_minutes v.

(** The views of the qualifying videos, in list order. *)
Definition kept_views (now min_minutes : Z) (videos : list video) : list Z :=
  map view_int (filter (qualifies now min_minutes) videos).

Definition arithmetic_mean (l : list Z) : Q :=
  (inject_Z (sum l) / inject_Z (Z.of_nat (length l)))%Q.

(** A timestamp that parses carries a UTC offset. *)
Definition offset_aware (v : video) : Prop :=
  forall pub dt,
    publishedAt v = Some pub -> date_parse pub = Some dt ->
    is_aware dt = true.

End Average.

(** ** More string operations *)

(** ASCII white space, as [str.strip()] removes it. *)
Definition is_space (c : ascii) : bool :=
  let n := nat_of_ascii c in
  (((9 <=? n) && (n <=? 13)) || ((28 <=? n) && (n <=? 32)))%nat.

Definition is_slash (c : ascii) : bool := Ascii.eqb c "/".

Fixpoint lstrip_with (p : ascii -> bool) (s : string) : string :=
  match s with
  | EmptyString => EmptyString
  | String c r => if p c then lstrip_with p r else s
  end.

Fixpoint rstrip_with (p : ascii -> bool) (s : string) : string :=
  match s with
  | EmptyString => EmptyString
  | String c r =>
      match rstrip_with p r with
      | EmptyString => if p c then EmptyString else String c EmptyString
      | r' => String c r'
      end
  end.

(** [s.strip()]. *)
Definition strip (s : string) : string :=
  rstrip_with is_space (lstrip_with is_space s).

(** [s.split(sep)] for a one-character separator. *)
Fixpoint split_on (sep : ascii) (s : string) : list string :=
  match s with
  | EmptyString => [EmptyString]
  | String c r =>
      if Ascii.eqb c sep then EmptyString :: split_on sep r
      else
        match split_on sep r with
        | hd :: tl => String c hd :: tl
        | [] => [String c EmptyString]
        end
  end.

(** ** Requests, answers and the network monad *)

Inductive param : Type :=
| PStr (s : string)
| PInt (n : Z).

(** An outbound GET: the path under the API base and the query. *)
Record request : Type := {
  path : string;
  params : list (string * param)
}.

(** The parts of an API resource the client reads.  A field is [None] when
    the key is absent. *)
Record snippet : Type := {
  sn_channelId : option string;
  sn_title : option string;
  sn_description : option string;
  sn_publishedAt : option string;
  sn_thumbnails : option string
}.

Record content_details : Type := {
  cd_videoId : option string;
  cd_duration : option string;
  (** [relatedPlaylists.uploads] *)
  cd_uploads : option string
}.

Record statistics : Type := {
  st_viewCount : option jsonval;
  st_likeCount : option jsonval;
  st_commentCount : option jsonval;
  st_subscriberCount : option jsonval;
  st_videoCount : option jsonval
}.

Record item : Type := {
  it_id : option string;
  it_snippet : option snippet;
  it_contentDetails : option content_details;
  it_statistics : option statistics
}.

(** A decoded response; [items] is [data.get("items", [])]. *)
Record body : Type := {
  items : list item;
  nextPageToken : option string
}.

(** What a request comes back with: a decoded 2xx body, a status that
    [raise_for_status] rejects, or no response at all. *)
Inductive answer (A : Type) : Type :=
| Answer (a : A)
| BadStatus (status : Z) (text : string)
| NoAnswer (msg : string).

Arguments Answer {A} a.
Arguments BadStatus {A} status text.
Arguments NoAnswer {A} msg.

(** A PATCH to the CRM. *)
Record patch_request : Type := {
  patch_url : string;
  patch_properties : list (string * string)
}.

(** The observable trace of a run: requests sent to the video API and
    PATCHes sent to the CRM, oldest first. *)
Record world : Type := {
  yt_requests : list request;
  hs_patches : list patch_request
}.

Definition M (A : Type) : Type := world -> result A * world.

Definition ret {A : Type} (a : A) : M A := fun w => (Ok a, w).

Definition raise {A : Type} (e : exn) : M A := fun w => (Raise e, w).

Definition diverge {A : Type} : M A := fun w => (Diverge, w).

Definition bind {A B : Type} (m : M A) (k : A -> M B) : M B :=
  fun w =>
    match m w with
    | (Ok a, w') => k a w'
    | (Raise e, w') => (Raise e, w')
    | (Diverge, w') => (Diverge, w')
    end.

Definition lift {A : Type} (r : result A) : M A := fun w => (r, w).

(** [try: body except Exception as e: handler]. *)
Definition try_except {A : Type} (m : M A) (handler : exn -> M A) : M A :=
  fun w =>
    match m w with
    | (Raise e, w') => handler e w'
    | other => other
    end.

Declare Scope monad_scope.
Delimit Scope monad_scope with monad.
Notation "x <- m ;; k" := (bind m (fun x => k))
  (at level 61, m at next level, right associativity) : monad_scope.
Notation "m ;;; k" := (bind m (fun _ => k))
  (at level 61, right associativity) : monad_scope.

(** [d[key]] on a key that must be there. *)
Definition require {A : Type} (key : string) (o : option A) : result A :=
  match o with
  | Some a => Ok a
  | None => Raise (KeyError key)
  end.

(** ** The client ([YouTubeClient]) *)

(** The channel dictionary [fetch_channel_info] returns. *)
Record channel_info : Type := {
  ch_id : option string;
  ch_title : option string;
  ch_description : option string;
  ch_thumbnails : option string;
  ch_subscriberCount : option jsonval;
  ch_viewCount : option jsonval;
  ch_videoCount : option jsonval;
  ch_contentDetails : option content_details
}.

(** The dictionary [fetch_video_details] returns. *)
Record video_details : Type := {
  vd_id : option string;
  vd_title : option string;
  vd_description : option string;
  vd_publishedAt : option string;
  vd_duration : option string;
  vd_viewCount : option jsonval;
  vd_likeCount : option jsonval;
  vd_commentCount : option jsonval;
  vd_thumbnails : option string
}.

(** [x.get(outer, {}).get(inner)]. *)
Definition get2 {A B : Type} (o : option A) (f : A -> option B) : option B :=
  match o with
  | Some a => f a
  | None => None
  end.

(** [stats_map.get(k, {})] on the dictionary a comprehension built from
    [its]: a later item replaces an earlier one with the same id. *)
Definition dict_get (k : string) (its : list (string * item)) : option item :=
  match find (fun p => String.eqb (fst p) k) (rev its) with
  | Some p => Some (snd p)
  | None => None
  end.

Section Client.

(** The video platform: what it answers to a request. *)
Variable youtube : request -> answer body.
(** [self.api_key]. *)
Variable api_key : string.

Definition _get (p : string) (ps : list (string * param)) : M body :=
  fun w =>
    let req := {| path := p; params := (ps ++ [("key", PStr api_key)])%list |} in
    let w' := {| yt_requests := (yt_requests w ++ [req])%list;
                 hs_patches := hs_patches w |} in
    match youtube req with
    | Answer b => (Ok b, w')
    | BadStatus st tx => (Raise (HTTPError st tx), w')
    | NoAnswer msg => (Raise (ConnectionError msg), w')
    end.

(** The search at the end of [resolve_channel_id]. *)
Definition search_channel_id (identifier : string) : M string :=
  (data <- _get "search" [("part", PStr "snippet"); ("q", PStr identifier);
                          ("type", PStr "channel"); ("maxResults", PInt 1)] ;;
   match items data with
   | [] => raise (ValueError ("Channel not found for identifier: " ++ identifier))
   | it :: _ =>
       lift (sn <~ require "snippet" (it_snippet it) ;;
             require "channelId" (sn_channelId sn))%result
   end)%monad.

Definition resolve_channel_id (identifier : string) : M string :=
  if prefix "UC" identifier && (20 <? Z.of_nat (String.length identifier))
  then ret identifier
  else
    let identifier := strip identifier in
    if prefix "http" identifier then
      let parts := split_on "/" (rstrip_with is_slash identifier) in
      let possible := last parts EmptyString in
      if prefix "UC" possible then ret possible
      else search_channel_id possible
    else search_channel_id identifier.

Definition fetch_channel_info (channel_id : string) : M channel_info :=
  (channel_id <- resolve_channel_id channel_id ;;
   data <- _get "channels" [("part", PStr "snippet,statistics,contentDetails");
                            ("id", PStr channel_id)] ;;
   match items data with
   | [] => raise (ValueError "Channel not found")
   | it :: _ =>
       ret {| ch_id := it_id it;
              ch_title := get2 (it_snippet it) sn_title;
              ch_description := get2 (it_snippet it) sn_description;
              ch_thumbnails := get2 (it_snippet it) sn_thumbnails;
              ch_subscriberCount := get2 (it_statistics it) st_subscriberCount;
              ch_viewCount := get2 (it_statistics it) st_viewCount;
              ch_videoCount := get2 (it_statistics it) st_videoCount;
              ch_contentDetails := it_contentDetails it |}
   end)%monad.

Definition fetch_video_details (video_id : string) : M video_details :=
  (data <- _get "videos" [("part", PStr "snippet,contentDetails,statistics");
                          ("id", PStr video_id)] ;;
   match items data with
   | [] => raise (ValueError "Video not found")
   | it :: _ =>
       ret {| vd_id := it_id it;
              vd_title := get2 (it_snippet it) sn_title;
              vd_description := get2 (it_snippet it) sn_description;
              vd_publishedAt := get2 (it_snippet it) sn_publishedAt;
              vd_duration := get2 (it_contentDetails it) cd_duration;
              vd_viewCount := get2 (it_statistics it) st_viewCount;
              vd_likeCount := get2 (it_statistics it) st_likeCount;
              vd_commentCount := get2 (it_statistics it) st_commentCount;
              vd_thumbnails := get2 (it_snippet it) sn_thumbnails |}
   end)%monad.

(** The inner [for] of the pagination loop: one basic record per item. *)
Fixpoint append_basic (its : list item) (videos : list video)
  : result (list video) :=
  match its with
  | [] => Ok videos
  | it :: rest =>
      (cd <~ require "contentDetails" (it_contentDetails it) ;;
       vid <~ require "videoId" (cd_videoId cd) ;;
       sn <~ require "snippet" (it_snippet it) ;;
       t <~ require "title" (sn_title sn) ;;
       p <~ require "publishedAt" (sn_publishedAt sn) ;;
       append_basic rest
         (videos ++ [{| id := vid; title := t; publishedAt := Some p;
                        merged := None |}])%list)%result
  end.

Definition page_params (uploads_playlist : string) (max_results : Z)
           (videos : list video) (next_page_token : option string)
  : list (string * param) :=
  ([("part", PStr "snippet,contentDetails");
    ("playlistId", PStr uploads_playlist);
    ("maxResults",
      PInt (Z.min 50 (max_results - Z.of_nat (length videos))))]
   ++ match next_page_token with
      | Some (String c r) => [("pageToken", PStr (String c r))]
      | _ => []
      end)%list.

(** The [while] loop of [fetch_videos].  [fuel] bounds the number of
    iterations; running out of it is [Diverge]. *)
Fixpoint fetch_pages (fuel : nat) (uploads_playlist : string)
         (max_results : Z) (videos : list video)
         (next_page_token : option string) : M (list video) :=
  if Z.of_nat (length videos) <? max_results then
    match fuel with
    | O => diverge
    | S fuel' =>
        (data <- _get "playlistItems"
                   (page_params uploads_playlist max_results videos
                                next_page_token) ;;
         videos' <- lift (append_basic (items data) videos) ;;
         if truthy (nextPageToken data)
         then fetch_pages fuel' uploads_playlist max_results videos'
                          (nextPageToken data)
         else ret videos')%monad
    end
  else ret videos.

(** [{it["id"]: it for it in details.get("items", [])}], in item order. *)
Fixpoint build_stats_map (its : list item) : result (list (string * item)) :=
  match its with
  | [] => Ok []
  | it :: rest =>
      (k <~ require "id" (it_id it) ;;
       m <~ build_stats_map rest ;;
       Ok ((k, it) :: m))%result
  end.

Definition merge_details (stats_map : list (string * item)) (v : video)
  : video :=
  let d := dict_get (id v) stats_map in
  {| id := id v; title := title v; publishedAt := publishedAt v;
     merged := Some
       {| duration := get2 (get2 d it_contentDetails) cd_duration;
          viewCount := get2 (get2 d it_statistics) st_viewCount;
          likeCount := get2 (get2 d it_statistics) st_likeCount;
          commentCount := get2 (get2 d it_statistics) st_commentCount;
          thumbnails := get2 (get2 d it_snippet) sn_thumbnails |} |}.

Definition fetch_videos (fuel : nat) (channel_id : string) (max_results : Z)
  : M (list video) :=
  (channel_id <- resolve_channel_id channel_id ;;
   ch <- _get "channels" [("part", PStr "contentDetails");
                          ("id", PStr channel_id)] ;;
   match items ch with
   | [] => ret []
   | it :: _ =>
       uploads_playlist <-
         lift (cd <~ require "contentDetails" (it_contentDetails it) ;;
               require "uploads" (cd_uploads cd))%result ;;
       videos <- fetch_pages fuel uploads_playlist max_results [] None ;;
       let ids := String.concat "," (map id videos) in
       if truthy (Some ids) then
         details <- _get "videos"
                      [("part", PStr "snippet,contentDetails,statistics");
                       ("id", PStr ids)] ;;
         stats_map <- lift (build_stats_map (items details)) ;;
         ret (map (merge_details stats_map) videos)
       else ret videos
   end)%monad.

End Client.

(** ** The calculator and the CRM job *)

Definition BASE_URL : string := "https://api.hubapi.com".
Definition PROP_AVG_VIEWS : string := "youtube_video_average_views".
Definition PROP_LAST_UPDATED : string :=
  "last_updated_youtube_video_average_views".
Definition PROP_CHANNEL_IDENTIFIER : string := "youtube_handle".

(** A CRM contact: its id and its [properties] dictionary, whose values are
    strings or null. *)
Record contact : Type := {
  contact_id : string;
  properties : option (list (string * option string))
}.

(** [(contact.get("properties", {}) or {}).get(name)]. *)
Definition prop_get (name : string) (c : contact) : option string :=
  match properties c with
  | None => None
  | Some ps =>
      match find (fun p => String.eqb (fst p) name) ps with
      | Some (_, v) => v
      | None => None
      end
  end.

(** [round(x)] on a float: to the nearest integer, ties to the even one. *)
Definition py_round (q : Q) : Z :=
  let f := Qfloor q in
  match Qcompare (q - inject_Z f) (1 # 2) with
  | Lt => f
  | Gt => f + 1
  | Eq => if Z.even f then f else f + 1
  end.

(** [f"{n:.0f}"] on an integer: its decimal digits.  Python formats the
    float of [n], which is [n] itself up to 2^53: the properties of the
    PATCH assume an average below 10^15 ([average_in_range]). *)
Definition format_0f (n : Z) : string := NilZero.string_of_int (Z.to_int n).

(** [iso_today_midnight_utc()] when the clock shows [now]. *)
Definition iso_today_midnight_utc (now : Z) : string :=
  strftime_midnight (datetime_now_utc now).

(** The instants the clock shows while one contact is handled: in the
    staleness test, in the calculator and when the update is prepared. *)
Record readings : Type := {
  at_staleness : Z;
  at_cutoff : Z;
  at_patch : Z
}.

Section Job.

Variable youtube : request -> answer body.
Variable api_key : string.
(** The CRM: what it answers to a PATCH. *)
Variable hubspot : patch_request -> answer unit.
Variable date_parse : string -> option pydatetime.
Variable py_int_str : string -> option Z.
Variable py_int_float_str : string -> option Z.
(** Module constants read from the environment. *)
Variable STALE_DAYS : Z.
Variable MIN_DURATION_MINUTES : Z.
Variable FETCH_COUNT : Z.

(** [avg_views_last_30d(client, channel_identifier, min_minutes,
    fetch_count)]; [fuel] bounds the pagination loop. *)
Definition avg_views_last_30d (fuel : nat) (now : Z)
           (channel_identifier : string) (min_minutes fetch_count : Z)
  : M Q :=
  (videos <- fetch_videos youtube api_key fuel channel_identifier
                          fetch_count ;;
   lift (avg_views_of_videos date_parse py_int_str py_int_float_str
                             now min_minutes videos))%monad.

Definition update_contact_properties (cid : string)
           (props : list (string * string)) : M unit :=
  fun w =>
    let req := {| patch_url := BASE_URL ++ "/crm/v3/objects/contacts/" ++ cid;
                  patch_properties := props |} in
    let w' := {| yt_requests := yt_requests w;
                 hs_patches := (hs_patches w ++ [req])%list |} in
    match hubspot req with
    | Answer _ => (Ok tt, w')
    | BadStatus st tx => (Raise (HTTPError st tx), w')
    | NoAnswer msg => (Raise (ConnectionError msg), w')
    end.

(** The properties [process_contact] writes for an average [avg]. *)
Definition update_props (avg : Q) (now : Z) : list (string * string) :=
  let avg_rounded := py_round (avg / 100) * 100 in
  [(PROP_AVG_VIEWS, format_0f avg_rounded);
   (PROP_LAST_UPDATED, iso_today_midnight_utc now)].

(** Both [except Exception] handlers only build and print a message. *)
Definition process_contact (fuel : nat) (clock : readings) (c : contact)
  : M unit :=
  let cid := contact_id c in
  let channel_identifier := prop_get PROP_CHANNEL_IDENTIFIER c in
  match channel_identifier with
  | Some (String ch r) =>
      (computed <-
         try_except
           (avg <- avg_views_last_30d fuel (at_cutoff clock) (String ch r)
                                      MIN_DURATION_MINUTES FETCH_COUNT ;;
            ret (Some avg))
           (fun _ => ret None) ;;
       match computed with
       | None => ret tt
       | Some avg =>
           try_except
             (update_contact_properties cid
                (update_props avg (at_patch clock)))
             (fun _ => ret tt)
       end)%monad
  | _ => ret tt
  end.

(** The loop of [main] over the contacts the search returned. *)
Fixpoint main_loop (fuel : nat) (work : list (contact * readings)) : M unit :=
  match work with
  | [] => ret tt
  | (c, clock) :: rest =>
      (stale <- lift (is_stale_or_missing date_parse STALE_DAYS
                        (at_staleness clock)
                        (prop_get PROP_LAST_UPDATED c)) ;;
       if stale : bool
       then process_contact fuel clock c ;;; main_loop fuel rest
       else main_loop fuel rest)%monad
  end.

End Job.

(** ** The requests the client sends

    Each is the request [_get] builds at one call site. *)

Definition with_key (api_key p : string) (ps : list (string * param))
  : request :=
  {| path := p; params := (ps ++ [("key", PStr api_key)])%list |}.

Definition search_request (api_key q : string) : request :=
  with_key api_key "search"
    [("part", PStr "snippet"); ("q", PStr q);
     ("type", PStr "channel"); ("maxResults", PInt 1)].

Definition channel_info_request (api_key cid : string) : request :=
  with_key api_key "channels"
    [("part", PStr "snippet,statistics,contentDetails"); ("id", PStr cid)].

Definition channel_uploads_request (api_key cid : string) : request :=
  with_key api_key "channels"
    [("part", PStr "contentDetails"); ("id", PStr cid)].

Definition video_details_request (api_key ids : string) : request :=
  with_key api_key "videos"
    [("part", PStr "snippet,contentDetails,statistics"); ("id", PStr ids)].

(** A page of the uploads playlist: [k] results, after the token [tok]. *)
Definition page_request (api_key uploads_playlist : string) (k : Z)
           (tok : option string) : request :=
  with_key api_key "playlistItems"
    ([("part", PStr "snippet,contentDetails");
      ("playlistId", PStr uploads_playlist);
      ("maxResults", PInt k)]
     ++ match tok with
        | Some (String c r) => [("pageToken", PStr (String c r))]
        | _ => []
        end)%list.

Definition is_page_request (r : request) : bool :=
  String.eqb (path r) "playlistItems".

(** The trace after one more request to the video API. *)
Definition log_request (r : request) (w : world) : world :=
  {| yt_requests := (yt_requests w ++ [r])%list; hs_patches := hs_patches w |}.

(** What [_get] returns for an answer. *)
Definition get_outcome (a : answer body) : result body :=
  match a with
  | Answer b => Ok b
  | BadStatus st tx => Raise (HTTPError st tx)
  | NoAnswer msg => Raise (ConnectionError msg)
  end.

(** The instant of the staleness cutoff: now minus the threshold. *)
Definition stale_cutoff_instant (STALE_DAYS now : Z) : Z :=
  now - STALE_DAYS * MICROS_PER_DAY.

(** ** Sample data *)

Definition DAY_2024_01_01 : Z := 19723.

(** A date parser that knows three timestamps: one in UTC, one without an
    offset (which [dateutil] returns as a naive datetime), and one recent one
    in UTC. *)
Definition sample_parse (s : string) : option pydatetime :=
  if String.eqb s "2024-01-01T00:00:00Z" then
    Some {| wall := DAY_2024_01_01 * MICROS_PER_DAY; tzinfo := Some 0 |}
  else if String.eqb s "2024-01-01T00:00:00" then
    Some {| wall := DAY_2024_01_01 * MICROS_PER_DAY; tzinfo := None |}
  else if String.eqb s "2024-01-20T00:00:00Z" then
    Some {| wall := (DAY_2024_01_01 + 19) * MICROS_PER_DAY; tzinfo := Some 0 |}
  else None.

(** 2024-01-31T00:00:00Z: thirty days after the first sample timestamp. *)
Definition sample_now : Z := (DAY_2024_01_01 + 30) * MICROS_PER_DAY.

Definition empty_world : world := {| yt_requests := []; hs_patches := [] |}.

(** ** A paged uploads playlist

    The upstream the pagination property is about: a playlist of [uploads], served
    in pages that start where the previous one ended and hold as many items as
    were asked for, with a continuation token exactly when more remain. *)

Record upload : Type := {
  up_id : string;
  up_title : string;
  up_publishedAt : string
}.

(** The playlist item the API sends for an upload. *)
Definition upload_item (u : upload) : item :=
  {| it_id := None;
     it_snippet := Some {| sn_channelId := None; sn_title := Some (up_title u);
                           sn_description := None;
                           sn_publishedAt := Some (up_publishedAt u);
                           sn_thumbnails := None |};
     it_contentDetails := Some {| cd_videoId := Some (up_id u);
                                  cd_duration := None; cd_uploads := None |};
     it_statistics := None |}.

(** The basic record [fetch_videos] makes of it. *)
Definition basic_video (u : upload) : video :=
  {| id := up_id u; title := up_title u;
     publishedAt := Some (up_publishedAt u); merged := None |}.

(** The token that continues at offset [o]; the first page has none. *)
Definition page_token (token : nat -> string) (o : nat) : option string :=
  match o with
  | O => None
  | S _ => Some (token o)
  end.

(** The page of [k] items at offset [o]. *)
Definition playlist_page (token : nat -> string) (uploads : list upload)
           (o : nat) (k : Z) : body :=
  {| items := map upload_item (firstn (Z.to_nat k) (skipn o uploads));
     nextPageToken :=
       if Z.of_nat o + k <? Z.of_nat (length uploads)
       then Some (token (o + Z.to_nat k)%nat)
       else None |}.

(** The offsets and sizes of the pages a fetch of [max_results] items asks
    for, from offset [o], when the playlist holds [n] items. *)
Fixpoint pages_asked (fuel : nat) (max_results n : Z) (o : nat)
  : list (nat * Z) :=
  match fuel with
  | O => []
  | S fuel' =>
      if Z.of_nat o <? max_results then
        let k := Z.min 50 (max_results - Z.of_nat o) in
        (o, k) ::
          (if Z.of_nat o + k <? n
           then pages_asked fuel' max_results n (o + Z.to_nat k)%nat
           else [])
      else []
  end.

(** *** A concrete server of that kind *)

Fixpoint sample_token (o : nat) : string :=
  match o with
  | O => "t"
  | S n => String "x" (sample_token n)
  end.

Definition sample_token_offset (t : string) : nat := (String.length t - 1)%nat.

Definition param_int (k : string) (ps : list (string * param)) : option Z :=
  match find (fun p => String.eqb (fst p) k) ps with
  | Some (_, PInt n) => Some n
  | _ => None
  end.

Definition param_str (k : string) (ps : list (string * param))
  : option string :=
  match find (fun p => String.eqb (fst p) k) ps with
  | Some (_, PStr v) => Some v
  | _ => None
  end.

Definition channel_item (uploads_playlist : string) : item :=
  {| it_id := None; it_snippet := None;
     it_contentDetails := Some {| cd_videoId := None; cd_duration := None;
                                  cd_uploads := Some uploads_playlist |};
     it_statistics := None |}.

(** A server with one channel, whose playlist [uploads_playlist] holds
    [uploads], and which answers a details request with [stats]. *)
Definition sample_youtube (uploads_playlist : string) (uploads : list upload)
           (stats : list item) (r : request) : answer body :=
  if String.eqb (path r) "channels" then
    Answer {| items := [channel_item uploads_playlist];
              nextPageToken := None |}
  else if String.eqb (path r) "playlistItems" then
    match param_int "maxResults" (params r) with
    | Some k =>
        let o := match param_str "pageToken" (params r) with
                 | Some t => sample_token_offset t
                 | None => O
                 end in
        Answer (playlist_page sample_token uploads o k)
    | None => BadStatus 400 "maxResults"
    end
  else if String.eqb (path r) "videos" then
    Answer {| items := stats; nextPageToken := None |}
  else Answer {| items := []; nextPageToken := None |}.

(** The details the API sends for a video. *)
Definition stats_item (vid dur views : string) : item :=
  {| it_id := Some vid; it_snippet := None;
     it_contentDetails := Some {| cd_videoId := None; cd_duration := Some dur;
                                  cd_uploads := None |};
     it_statistics := Some {| st_viewCount := Some (JStr views);
                              st_likeCount := None; st_commentCount := None;
                              st_subscriberCount := None;
                              st_videoCount := None |} |}.

Definition SAMPLE_CHANNEL : string := "UCHnyfMqiRRG1u-2MsSQLbXA".

(** One upload whose timestamp has no offset. *)
Definition naive_youtube : request -> answer body :=
  sample_youtube "UUHnyfMqiRRG1u-2MsSQLbXA"
    [{| up_id := "v1"; up_title := "one";
        up_publishedAt := "2024-01-01T00:00:00" |}]
    [stats_item "v1" "PT10M" "100"].

(** [int(s)] on the few strings the samples use. *)
Definition sample_int (s : string) : option Z :=
  match int_of_digits 0 s with
  | Some n => if String.eqb s "" then None else Some n
  | None => None
  end.

(** Five recent uploads, ten minutes each, with the views of the
    specification's scenario. *)
Definition five_uploads : list upload :=
  map (fun i => {| up_id := i; up_title := "video";
                   up_publishedAt := "2024-01-20T00:00:00Z" |})
      ["a"; "b"; "c"; "d"; "e"].

Definition five_youtube : request -> answer body :=
  sample_youtube "UUHnyfMqiRRG1u-2MsSQLbXA" five_uploads
    [stats_item "a" "PT10M" "100"; stats_item "b" "PT10M" "150";
     stats_item "c" "PT10M" "200"; stats_item "d" "PT10M" "50";
     stats_item "e" "PT10M" "500"].

(** A computation that sends nothing to the CRM. *)
Definition keeps_patches {A : Type} (m : M A) : Prop :=
  forall w, hs_patches (snd (m w)) = hs_patches w.

(** The PATCH [process_contact] sends for contact [c] and average [avg]
    when the clock shows [now]. *)
Definition contact_patch (c : contact) (avg : Q) (now : Z) : patch_request :=
  {| patch_url := BASE_URL ++ "/crm/v3/objects/contacts/" ++ contact_id c;
     patch_properties :=
       [(PROP_AVG_VIEWS, format_0f (py_round (avg / 100) * 100));
        (PROP_LAST_UPDATED, iso_today_midnight_utc now)] |}.

(** A contact with a channel and no last-updated value. *)
Definition sample_contact : contact :=
  {| contact_id := "501";
     properties := Some [("youtube_handle", Some SAMPLE_CHANNEL);
                         ("email", Some "a@example.org")] |}.

(** 2024-01-31, at 09:30 and at 09:31 UTC. *)
Definition sample_clock : readings :=
  {| at_staleness := sample_now + 34200000000;
     at_cutoff := sample_now + 34200000000;
     at_patch := sample_now + 34260000000 |}.

(** The page request for offset [o] and size [k]. *)
Definition page_request_at (api_key uploads_playlist : string)
           (token : nat -> string) (ok : nat * Z) : request :=
  page_request api_key uploads_playlist (snd ok) (page_token token (fst ok)).

(** The trace after a list of requests, sent in order. *)
Definition log_requests (rs : list request) (w : world) : world :=
  {| yt_requests := (yt_requests w ++ rs)%list; hs_patches := hs_patches w |}.

(** How many records a fetch of [max_results] ends with when it starts with
    [o] of a playlist of [n]. *)
Definition final_count (max_results n : Z) (o : nat) : nat :=
  Z.to_nat (Z.max (Z.of_nat o) (Z.min max_results n)).

(** One upload, for a fetch that asks for more than a page. *)
Definition one_upload_youtube : request -> answer body :=
  sample_youtube "UUHnyfMqiRRG1u-2MsSQLbXA"
    [{| up_id := "v1"; up_title := "one";
        up_publishedAt := "2024-01-20T00:00:00Z" |}]
    [stats_item "v1" "PT10M" "100"].

(** What the client returns for the five sample uploads, and the trace it
    leaves. *)
Definition five_videos : list video :=
  Eval vm_compute in
    match fst (fetch_videos five_youtube "k" 6 SAMPLE_CHANNEL 50 empty_world)
    with
    | Ok l => l
    | _ => []
    end.

Definition five_world : world :=
  Eval vm_compute in
    snd (fetch_videos five_youtube "k" 6 SAMPLE_CHANNEL 50 empty_world).

(** A video platform that rejects every request. *)
Definition quota_youtube (r : request) : answer body :=
  BadStatus 403 "quotaExceeded".

(** * The rest of the client and of the job *)

(** ** Construction of the client

    [YouTubeClient(api_key)] when the environment holds [env_key] under
    [YT_API_KEY]: the value bound to [self.api_key], or the [ValueError]. *)
Definition YouTubeClient_init (api_key env_key : option string)
  : result string :=
  let chosen := if truthy api_key then api_key else env_key in
  match chosen with
  | Some (String c r) => Ok (String c r)
  | _ => Raise (ValueError
           "You must provide a YouTube API key via parameter or YT_API_KEY env var")
  end.

(** ** Comments ([fetch_comments])

    The comment-thread resources, with the three nested keys the loop
    indexes. *)
Record comment_snippet : Type := {
  cs_authorDisplayName : option string;
  cs_textDisplay : option string;
  cs_likeCount : option jsonval;
  cs_publishedAt : option string
}.

Record top_level_comment : Type := {
  tlc_snippet : option comment_snippet
}.

Record thread_snippet : Type := {
  ts_topLevelComment : option top_level_comment
}.

Record thread_item : Type := {
  th_id : option string;
  th_snippet : option thread_snippet
}.

Record thread_body : Type := {
  th_items : list thread_item;
  th_nextPageToken : option string
}.

(** The dictionary [fetch_comments] makes of a thread. *)
Record comment : Type := {
  cm_id : string;
  cm_author : option string;
  cm_text : option string;
  cm_likeCount : option jsonval;
  cm_publishedAt : option string
}.

(** The channel summaries [search_youtube_channels] returns. *)
Record channel_summary : Type := {
  sm_id : string;
  sm_title : string;
  sm_description : option string;
  sm_thumbnails : option string
}.

(** [{"channel": info, "videos": videos}]. *)
Record introspection : Type := {
  in_channel : channel_info;
  in_videos : list video
}.

(** The records [fetch_video_statistics] returns. *)
Record video_stat : Type := {
  vs_videoId : string;
  vs_publishedAt : option string;
  vs_durationMinutes : Q;
  vs_viewCount : option jsonval;
  vs_likeCount : option jsonval;
  vs_commentCount : option jsonval
}.

(** [a >= b] on datetimes. *)
Definition datetime_ge (a b : pydatetime) : result bool :=
  match tzinfo a, tzinfo b with
  | Some oa, Some ob => Ok (utc_of (wall b) ob <=? utc_of (wall a) oa)
  | None, None => Ok (wall b <=? wall a)
  | _, _ =>
      Raise (TypeError "can't compare offset-naive and offset-aware datetimes")
  end.

(** [v.get(key)] on the merged keys. *)
Definition get_merged {A : Type} (f : details -> option A) (v : video)
  : option A :=
  match merged v with
  | Some d => f d
  | None => None
  end.

Definition comments_params (video_id : string) (max_results : Z)
           (comments : list comment) (next_page : option string)
  : list (string * param) :=
  ([("part", PStr "snippet"); ("videoId", PStr video_id);
    ("maxResults",
      PInt (Z.min 100 (max_results - Z.of_nat (length comments))))]
   ++ match next_page with
      | Some (String c r) => [("pageToken", PStr (String c r))]
      | _ => []
      end)%list.

Section ClientRest.

Variable youtube : request -> answer body.
(** The same platform at the [commentThreads] endpoint. *)
Variable youtube_threads : request -> answer thread_body.
Variable api_key : string.
Variable date_parse : string -> option pydatetime.

(** [_get] at the [commentThreads] endpoint. *)
Definition _get_threads (p : string) (ps : list (string * param))
  : M thread_body :=
  fun w =>
    let req := with_key api_key p ps in
    match youtube_threads req with
    | Answer b => (Ok b, log_request req w)
    | BadStatus st tx => (Raise (HTTPError st tx), log_request req w)
    | NoAnswer msg => (Raise (ConnectionError msg), log_request req w)
    end.

(** The inner [for] of [fetch_comments]. *)
Fixpoint append_comments (its : list thread_item) (comments : list comment)
  : result (list comment) :=
  match its with
  | [] => Ok comments
  | it :: rest =>
      (ts <~ require "snippet" (th_snippet it) ;;
       tlc <~ require "topLevelComment" (ts_topLevelComment ts) ;;
       sn <~ require "snippet" (tlc_snippet tlc) ;;
       i <~ require "id" (th_id it) ;;
       append_comments rest
         (comments ++ [{| cm_id := i;
                          cm_author := cs_authorDisplayName sn;
                          cm_text := cs_textDisplay sn;
                          cm_likeCount := cs_likeCount sn;
                          cm_publishedAt := cs_publishedAt sn |}])%list)%result
  end.

(** The [while] loop of [fetch_comments], bounded by [fuel]. *)
Fixpoint fetch_comments_loop (fuel : nat) (video_id : string)
         (max_results : Z) (comments : list comment)
         (next_page : option string) : M (list comment) :=
  if Z.of_nat (length comments) <? max_results then
    match fuel with
    | O => diverge
    | S fuel' =>
        (data <- _get_threads "commentThreads"
                   (comments_params video_id max_results comments next_page) ;;
         comments' <- lift (append_comments (th_items data) comments) ;;
         if truthy (th_nextPageToken data)
         then fetch_comments_loop fuel' video_id max_results comments'
                                  (th_nextPageToken data)
         else ret comments')%monad
    end
  else ret comments.

Definition fetch_comments (fuel : nat) (video_id : string) (max_results : Z)
  : M (list comment) :=
  fetch_comments_loop fuel video_id max_results [] None.

(** The [for] of [search_youtube_channels]. *)
Fixpoint channel_summaries (its : list item) : result (list channel_summary) :=
  match its with
  | [] => Ok []
  | it :: rest =>
      (sn <~ require "snippet" (it_snippet it) ;;
       cid <~ require "channelId" (sn_channelId sn) ;;
       t <~ require "title" (sn_title sn) ;;
       more <~ channel_summaries rest ;;
       Ok ({| sm_id := cid; sm_title := t;
              sm_description := sn_description sn;
              sm_thumbnails := sn_thumbnails sn |} :: more))%result
  end.

Definition search_youtube_channels (query : string) (max_results : Z)
  : M (list channel_summary) :=
  (data <- _get youtube api_key "search"
             [("part", PStr "snippet"); ("type", PStr "channel");
              ("q", PStr query); ("maxResults", PInt max_results)] ;;
   lift (channel_summaries (items data)))%monad.

Definition search_and_introspect_channel (fuel : nat) (query : string)
           (video_count : Z) : M introspection :=
  (channels <- search_youtube_channels query 1 ;;
   match channels with
   | [] => raise (ValueError "No channel found for query")
   | ch :: _ =>
       info <- fetch_channel_info youtube api_key (sm_id ch) ;;
       videos <- fetch_videos youtube api_key fuel (sm_id ch) video_count ;;
       ret {| in_channel := info; in_videos := videos |}
   end)%monad.

Definition introspect_channel (fuel : nat) (identifier : string)
           (max_videos : Z) : M introspection :=
  (ch_id <- resolve_channel_id youtube api_key identifier ;;
   info <- fetch_channel_info youtube api_key ch_id ;;
   videos <- fetch_videos youtube api_key fuel ch_id max_videos ;;
   ret {| in_channel := info; in_videos := videos |})%monad.

(** [date_parser.parse(v.get("publishedAt"))], outside any [try]. *)
Definition parse_published (v : video) : result pydatetime :=
  match publishedAt v with
  | None => Raise (TypeError "Parser must be a string or character stream")
  | Some pub =>
      match date_parse pub with
      | Some dt => Ok dt
      | None => Raise (ValueError "Unknown string format")
      end
  end.

(** [v.get("duration") or "PT0S"]. *)
Definition duration_or_zero (v : video) : option string :=
  if truthy (get_merged duration v) then get_merged duration v
  else Some "PT0S".

Definition stat_record (v : video) (dur_min : Q) : video_stat :=
  {| vs_videoId := id v; vs_publishedAt := publishedAt v;
     vs_durationMinutes := dur_min;
     vs_viewCount := get_merged viewCount v;
     vs_likeCount := get_merged likeCount v;
     vs_commentCount := get_merged commentCount v |}.

(** The [for] loop of [fetch_video_statistics], [filtered] being [acc]. *)
Fixpoint filter_statistics (cutoff : pydatetime)
         (max_results min_duration_minutes : Z)
         (videos : list video) (acc : list video_stat)
  : result (list video_stat) :=
  match videos with
  | [] => Ok acc
  | v :: rest =>
      (pub <~ parse_published v ;;
       dur_min <~ _iso8601_duration_to_minutes (duration_or_zero v) ;;
       recent <~ datetime_ge pub cutoff ;;
       if (recent : bool)
          && Qle_bool (inject_Z min_duration_minutes) dur_min
       then
         let acc' := (acc ++ [stat_record v dur_min])%list in
         if max_results <=? Z.of_nat (length acc') then Ok acc'
         else filter_statistics cutoff max_results min_duration_minutes
                                rest acc'
       else filter_statistics cutoff max_results min_duration_minutes
                              rest acc)%result
  end.

(** [fetch_video_statistics]; [now] is the instant the clock shows. *)
Definition fetch_video_statistics (fuel : nat) (now : Z) (channel_id : string)
           (max_results months min_duration_minutes : Z)
  : M (list video_stat) :=
  (videos <- fetch_videos youtube api_key fuel channel_id (max_results * 2) ;;
   let cutoff := minus_timedelta (datetime_now_utc now)
                                 (timedelta_days (30 * months)) in
   lift (filter_statistics cutoff max_results min_duration_minutes
                           videos []))%monad.

End ClientRest.

(** ** Videos of a channel by search term ([search_youtube_channel_videos])

    A result of a video search carries its id as an object with a
    [videoId] key. *)
Record result_id : Type := {
  ri_videoId : option string
}.

Record search_result : Type := {
  sr_id : option result_id;
  sr_snippet : option snippet
}.

Record search_body : Type := {
  sb_items : list search_result
}.

(** The two keys the method adds to a record once the details are in. *)
Record found_details : Type := {
  fd_duration : option string;
  fd_viewCount : option jsonval
}.

(** A record of the list the method returns. *)
Record found_video : Type := {
  fv_id : string;
  fv_title : string;
  fv_publishedAt : string;
  fv_details : option found_details
}.

Section VideoSearch.

Variable youtube : request -> answer body.
(** The same platform at the [search] endpoint, asked for videos. *)
Variable youtube_search : request -> answer search_body.
Variable api_key : string.

(** [_get] at the [search] endpoint, for a video search. *)
Definition _get_search (p : string) (ps : list (string * param))
  : M search_body :=
  fun w =>
    let req := with_key api_key p ps in
    match youtube_search req with
    | Answer b => (Ok b, log_request req w)
    | BadStatus st tx => (Raise (HTTPError st tx), log_request req w)
    | NoAnswer msg => (Raise (ConnectionError msg), log_request req w)
    end.

(** The [for] over the search results, [out] being the list so far. *)
Fixpoint found_videos (its : list search_result) (out : list found_video)
  : result (list found_video) :=
  match its with
  | [] => Ok out
  | it :: rest =>
      (i <~ require "id" (sr_id it) ;;
       vid <~ require "videoId" (ri_videoId i) ;;
       sn <~ require "snippet" (sr_snippet it) ;;
       t <~ require "title" (sn_title sn) ;;
       p <~ require "publishedAt" (sn_publishedAt sn) ;;
       found_videos rest
         (out ++ [{| fv_id := vid; fv_title := t; fv_publishedAt := p;
                     fv_details := None |}])%list)%result
  end.

(** [o.update({...})] with the item [mapd] holds for the record's id. *)
Definition add_details (mapd : list (string * item)) (o : found_video)
  : found_video :=
  let d := dict_get (fv_id o) mapd in
  {| fv_id := fv_id o; fv_title := fv_title o;
     fv_publishedAt := fv_publishedAt o;
     fv_details := Some
       {| fd_duration := get2 (get2 d it_contentDetails) cd_duration;
          fd_viewCount := get2 (get2 d it_statistics) st_viewCount |} |}.

Definition search_youtube_channel_videos (channel_id search_term : string)
           (max_results : Z) : M (list found_video) :=
  (channel_id <- resolve_channel_id youtube api_key channel_id ;;
   data <- _get_search "search"
             [("part", PStr "snippet"); ("channelId", PStr channel_id);
              ("q", PStr search_term); ("type", PStr "video");
              ("maxResults", PInt max_results)] ;;
   out <- lift (found_videos (sb_items data) []) ;;
   match out with
   | [] => ret out
   | _ :: _ =>
       details <- _get youtube api_key "videos"
                    [("part", PStr "contentDetails,statistics,snippet");
                     ("id", PStr (String.concat "," (map fv_id out)))] ;;
       mapd <- lift (build_stats_map (items details)) ;;
       ret (map (add_details mapd) out)
   end)%monad.

End VideoSearch.

(** ** The contact search ([search_contacts_needing_update]) *)

(** The part of the search payload that varies: the page size and the
    cursor.  The filter group and the property list are constants. *)
Record search_payload : Type := {
  sp_limit : Z;
  sp_after : option string
}.

(** A search response: [data.get("results", [])] and
    [data.get("paging", {}).get("next", {}).get("after")]. *)
Record search_page : Type := {
  results : list contact;
  next_after : option string
}.

(** What the search has done so far: the payloads it has posted, oldest
    first, and how many contacts it has put to the staleness test. *)
Record search_state : Type := {
  posted : list search_payload;
  tested : nat
}.

(** [contacts[k] = v] on a dictionary kept as its items, in insertion
    order: an existing key keeps its place. *)
Fixpoint dict_set (k : string) (v : contact) (d : list (string * contact))
  : list (string * contact) :=
  match d with
  | [] => [(k, v)]
  | (k', v') :: r =>
      if String.eqb k' k then (k, v) :: r else (k', v') :: dict_set k v r
  end.

Section ContactSearch.

(** The CRM's search endpoint. *)
Variable hubspot_search : search_payload -> answer search_page.
Variable date_parse : string -> option pydatetime.
Variable STALE_DAYS : Z.
(** [clock n] is the instant the clock shows during the staleness test of
    the [n]-th contact examined. *)
Variable clock : nat -> Z.

(** The [for c in data.get("results", [])] loop. *)
Fixpoint keep_stale (rs : list contact) (contacts : list (string * contact))
         (n : nat) : result (list (string * contact) * nat) :=
  match rs with
  | [] => Ok (contacts, n)
  | c :: rest =>
      (stale <~ is_stale_or_missing date_parse STALE_DAYS (clock n)
                                    (prop_get PROP_LAST_UPDATED c) ;;
       if stale : bool
       then keep_stale rest (dict_set (contact_id c) c contacts) (S n)
       else keep_stale rest contacts (S n))%result
  end.

Definition next_payload (limit : Z) (contacts : list (string * contact))
           (after : option string) : search_payload :=
  {| sp_limit := Z.min 1000 (limit - Z.of_nat (length contacts));
     sp_after := if truthy after then after else None |}.

(** The [while] loop, bounded by [fuel]. *)
Fixpoint search_loop (fuel : nat) (limit : Z)
         (contacts : list (string * contact)) (after : option string)
         (st : search_state)
  : result (list (string * contact)) * search_state :=
  if Z.of_nat (length contacts) <? limit then
    match fuel with
    | O => (Diverge, st)
    | S fuel' =>
        let payload := next_payload limit contacts after in
        let st1 := {| posted := (posted st ++ [payload])%list;
                      tested := tested st |} in
        match hubspot_search payload with
        | BadStatus status tx => (Raise (HTTPError status tx), st1)
        | NoAnswer msg => (Raise (ConnectionError msg), st1)
        | Answer data =>
            match keep_stale (results data) contacts (tested st) with
            | Ok (contacts', n) =>
                let st2 := {| posted := posted st1; tested := n |} in
                if negb (truthy (next_after data))
                   || (limit <=? Z.of_nat (length contacts'))
                then (Ok contacts', st2)
                else search_loop fuel' limit contacts' (next_after data) st2
            | Raise e => (Raise e, st1)
            | Diverge => (Diverge, st1)
            end
        end
    end
  else (Ok contacts, st).

(** [list(contacts.values())]. *)
Definition search_contacts_needing_update (fuel : nat) (limit : Z)
           (st : search_state) : result (list contact) * search_state :=
  match search_loop fuel limit [] None st with
  | (Ok contacts, st') => (Ok (map snd contacts), st')
  | (Raise e, st') => (Raise e, st')
  | (Diverge, st') => (Diverge, st')
  end.

End ContactSearch.

(** The contact a PATCH addresses. *)
Definition contact_url (c : contact) : string :=
  BASE_URL ++ "/crm/v3/objects/contacts/" ++ contact_id c.

(** ** Vocabulary of the further properties *)

(** A non-empty run of decimal digits. *)
Definition is_digit_run (s : string) : bool :=
  match s with
  | EmptyString => false
  | _ => all_digits s
  end.

(** The decimal value of a digit run (0 for anything else). *)
Definition run_value (s : string) : Z :=
  match int_of_digits 0 s with
  | Some n => n
  | None => 0
  end.

(** One component of a duration: the digits and the unit letter, or
    nothing. *)
Definition duration_part (o : option string) (unit : ascii) : string :=
  match o with
  | Some ds => ds ++ String unit EmptyString
  | None => EmptyString
  end.

(** The duration text with the given hours, minutes and seconds. *)
Definition duration_text (h m s : option string) : string :=
  "PT" ++ duration_part h "H" ++ duration_part m "M" ++ duration_part s "S".

Definition part_ok (o : option string) : bool :=
  match o with
  | Some ds => is_digit_run ds
  | None => true
  end.

Definition part_value (o : option string) : Z :=
  match o with
  | Some ds => run_value ds
  | None => 0
  end.

(** A request as the client is meant to send it: it carries the API key,
    and a page request asks for between 1 and the endpoint's maximum. *)
Definition in_range (lo hi : Z) (o : option Z) : bool :=
  match o with
  | Some k => (lo <=? k) && (k <=? hi)
  | None => false
  end.

Definition request_ok (api_key : string) (r : request) : bool :=
  match param_str "key" (params r) with
  | Some k => String.eqb k api_key
  | None => false
  end
  && (if String.eqb (path r) "playlistItems"
      then in_range 1 50 (param_int "maxResults" (params r))
      else if String.eqb (path r) "commentThreads"
           then in_range 1 100 (param_int "maxResults" (params r))
           else true).

(** A computation that only appends well-formed requests to the trace and
    sends nothing to the CRM. *)
Definition read_only (api_key : string) {A : Type} (m : M A) : Prop :=
  forall w,
    hs_patches (snd (m w)) = hs_patches w /\
    exists rs,
      yt_requests (snd (m w)) = (yt_requests w ++ rs)%list /\
      forallb (request_ok api_key) rs = true.

(** A parser that reads the timestamp the job writes on 2024-01-31. *)
Definition written_parse (s : string) : option pydatetime :=
  if String.eqb s "2024-01-31T00:00:00Z"
  then Some {| wall := sample_now; tzinfo := Some 0 |}
  else None.

(** Midnight of the day of [now]. *)
Definition midnight_of (now : Z) : Z := now / MICROS_PER_DAY * MICROS_PER_DAY.

(** A comment server with a single thread and no further page. *)
Definition one_thread : thread_item :=
  {| th_id := Some "c1";
     th_snippet :=
       Some {| ts_topLevelComment :=
                 Some {| tlc_snippet :=
                           Some {| cs_authorDisplayName := Some "ana";
                                   cs_textDisplay := Some "first";
                                   cs_likeCount := Some (JInt 2);
                                   cs_publishedAt :=
                                     Some "2024-01-20T00:00:00Z" |} |} |} |}.

Definition one_thread_server (r : request) : answer thread_body :=
  Answer {| th_items := [one_thread]; th_nextPageToken := None |}.

(** A computation that, on every trace, returns or raises, and whose
    return value satisfies [P]. *)
Definition settles {A : Type} (P : A -> Prop) (m : M A) : Prop :=
  forall w, fst (m w) <> Diverge /\ forall a, fst (m w) = Ok a -> P a.

(** ** The specification's reading of [fetch_video_statistics] *)

Section StatisticsSpec.

Variable date_parse : string -> option pydatetime.

(** The record made of a video, with its parsed duration. *)
Definition stat_of (v : video) : video_stat :=
  stat_record v
    (match _iso8601_duration_to_minutes (duration_or_zero v) with
     | Ok q => q
     | _ => 0%Q
     end).

(** Published within the trailing [30 * months] days and long enough. *)
Definition recent_and_long (now months min_duration_minutes : Z) (v : video)
  : bool :=
  match publishedAt v with
  | Some pub =>
      match date_parse pub with
      | Some dt => now - timedelta_days (30 * months) <=? instant dt
      | None => false
      end
  | None => false
  end
  && match _iso8601_duration_to_minutes (duration_or_zero v) with
     | Ok q => Qle_bool (inject_Z min_duration_minutes) q
     | _ => false
     end.

(** The video has a timestamp that parses to an offset-aware datetime. *)
Definition dated (v : video) : Prop :=
  exists pub dt,
    publishedAt v = Some pub /\ date_parse pub = Some dt /\
    is_aware dt = true.

End StatisticsSpec.

(** [sub] keeps some of the elements of [l], in their order. *)
Inductive subseq {A : Type} : list A -> list A -> Prop :=
| subseq_nil : subseq [] []
| subseq_skip (x : A) (sub l : list A) : subseq sub l -> subseq sub (x :: l)
| subseq_keep (x : A) (sub l : list A) :
    subseq sub l -> subseq (x :: sub) (x :: l).

(** ** The job as a whole ([main]) *)

(** The contacts of a batch, each with the clock readings of its turn:
    [loop_clock i] for the [i]-th contact. *)
Definition with_readings (loop_clock : nat -> readings) (cs : list contact)
  : list (contact * readings) :=
  combine cs (map loop_clock (seq 0 (length cs))).

Section Main.

Variable youtube : request -> answer body.
Variable hubspot : patch_request -> answer unit.
Variable hubspot_search : search_payload -> answer search_page.
Variable date_parse : string -> option pydatetime.
Variable py_int_str : string -> option Z.
Variable py_int_float_str : string -> option Z.
Variable STALE_DAYS : Z.
Variable MIN_DURATION_MINUTES : Z.
Variable FETCH_COUNT : Z.
(** The clock during the search and during the loop. *)
Variable search_clock : nat -> Z.
Variable loop_clock : nat -> readings.

(** [main()] when the environment holds [env_key] under [YT_API_KEY]: the
    outcome, the trace, and what the search did.  The module's constants
    (the CRM token, [STALE_DAYS], [MIN_DURATION_MINUTES], [FETCH_COUNT]) are
    read when the module is loaded, before [main] runs. *)
Definition main (env_key : option string) (fuel : nat) (w : world)
           (st : search_state) : result unit * world * search_state :=
  match YouTubeClient_init None env_key with
  | Ok api_key =>
      match search_contacts_needing_update hubspot_search date_parse
              STALE_DAYS search_clock fuel 200 st with
      | (Ok contacts, st') =>
          let (r, w') :=
            main_loop youtube api_key hubspot date_parse py_int_str
                      py_int_float_str STALE_DAYS MIN_DURATION_MINUTES
                      FETCH_COUNT fuel (with_readings loop_clock contacts) w in
          (r, w', st')
      | (Raise e, st') => (Raise e, w, st')
      | (Diverge, st') => (Diverge, w, st')
      end
  | Raise e => (Raise e, w, st)
  | Diverge => (Diverge, w, st)
  end.

End Main.

(** ** The ranges of Python's numbers and dates

    The embedding computes with unbounded integers and exact rationals.
    Python does not: [int(text)] refuses more than 4300 digits, an [int] of
    more than 308 digits cannot be divided by or added to a [float]
    ([OverflowError]), a [timedelta] holds at most 999999999 days, and a
    [datetime] lies between 0001-01-01 and 9999-12-31, so that
    [datetime.now(timezone.utc) - timedelta(days=n)] raises [OverflowError]
    outside that range.  The properties that say what a function returns
    assume the ranges below; the clock's own readings are datetimes. *)

(** A duration text short enough for every component to fit a float. *)
Definition fits_float (dur : option string) : bool :=
  match dur with
  | Some d => (String.length d <=? 300)%nat
  | None => true
  end.

(** An integer of at most 300 digits: it converts to a float, and so does
    the quotient of a sum of such integers by their number. *)
Definition int_fits_float (n : Z) : bool := Z.abs n <=? 10 ^ 300.

(** An average the CRM value shows exactly: not negative, and small enough
    for the rounded value, an [int], to pass through the float of
    [f"{n:.0f}"] unchanged (a float holds every integer up to 2^53). *)
Definition average_in_range (avg : Q) : bool :=
  Qle_bool 0 avg && Qle_bool avg (inject_Z (10 ^ 15)).

(** A clock reading in the years 1000 to 9999, which [%Y] prints with four
    digits. *)
Definition four_digit_year (now : Z) : bool :=
  (days_from_civil 1000 1 1 * MICROS_PER_DAY <=? now)
  && (now <? days_from_civil 10000 1 1 * MICROS_PER_DAY).

(** The value of a decimal numeral read from its most significant digit,
    [acc] being the value of the digits already read. *)
Fixpoint uint_value (d : Decimal.uint) (acc : Z) : Z :=
  match d with
  | Decimal.Nil => acc
  | Decimal.D0 l => uint_value l (10 * acc)
  | Decimal.D1 l => uint_value l (10 * acc + 1)
  | Decimal.D2 l => uint_value l (10 * acc + 2)
  | Decimal.D3 l => uint_value l (10 * acc + 3)
  | Decimal.D4 l => uint_value l (10 * acc + 4)
  | Decimal.D5 l => uint_value l (10 * acc + 5)
  | Decimal.D6 l => uint_value l (10 * acc + 6)
  | Decimal.D7 l => uint_value l (10 * acc + 7)
  | Decimal.D8 l => uint_value l (10 * acc + 8)
  | Decimal.D9 l => uint_value l (10 * acc + 9)
  end.

(** 0001-01-01T00:00:00 and 9999-12-31T23:59:59.999999, in microseconds
    since 1970-01-01. *)
Definition DATETIME_MIN : Z := -719162 * MICROS_PER_DAY.
Definition DATETIME_MAX : Z := 2932897 * MICROS_PER_DAY - 1.

(** [datetime.now(timezone.utc) - timedelta(days=days)] is a datetime when
    the clock shows [now]. *)
Definition cutoff_in_range (days now : Z) : bool :=
  (-999999999 <=? days) && (days <=? 999999999)
  && (DATETIME_MIN <=? now - days * MICROS_PER_DAY)
  && (now - days * MICROS_PER_DAY <=? DATETIME_MAX).

(** ** Vocabulary of the contact search *)

(** The staleness test answers "stale" for contact [c] at instant [now]. *)
Definition stale_at (date_parse : string -> option pydatetime)
           (STALE_DAYS : Z) (now : Z) (c : contact) : Prop :=
  is_stale_or_missing date_parse STALE_DAYS now
                      (prop_get PROP_LAST_UPDATED c) = Ok true.

(** A search payload the CRM accepts, for a caller that wants [limit]
    contacts: a page size between 1 and 1000 that does not exceed [limit],
    and a cursor that, when sent, is not empty. *)
Definition payload_ok (limit : Z) (p : search_payload) : Prop :=
  1 <= sp_limit p <= 1000 /\ sp_limit p <= limit /\ sp_after p <> Some "".

(** A second contact, and a search endpoint that lists the first contact
    twice; it returns no more contacts than the payload asks for. *)
Definition other_contact : contact :=
  {| contact_id := "502"; properties := properties sample_contact |}.

Definition sample_search (p : search_payload) : answer search_page :=
  Answer {| results := firstn (Z.to_nat (sp_limit p))
                              [sample_contact; sample_contact; other_contact];
            next_after := None |}.

Definition fresh_search : search_state := {| posted := []; tested := 0 |}.

(** ** Vocabulary of the search budget

    A request to the [search] endpoint is the expensive one of the API. *)
Definition is_search (r : request) : bool := String.eqb (path r) "search".

(** How many search requests a trace holds. *)
Definition searches (w : world) : nat :=
  length (filter is_search (yt_requests w)).

(** The shape [resolve_channel_id] returns unchanged. *)
Definition is_channel_id (s : string) : bool :=
  prefix "UC" s && (20 <? Z.of_nat (String.length s)).

(** A computation that sends at most [n] search requests. *)
Definition spends (n : nat) {A : Type} (m : M A) : Prop :=
  forall w, (searches w <= searches (snd (m w)) <= searches w + n)%nat.

(** An upstream whose search finds [SAMPLE_CHANNEL] for every query. *)
Definition finding_youtube (r : request) : answer body :=
  if is_search r
  then Answer {| items :=
                   [{| it_id := None;
                       it_snippet :=
                         Some {| sn_channelId := Some SAMPLE_CHANNEL;
                                 sn_title := Some "Sample";
                                 sn_description := None;
                                 sn_publishedAt := None;
                                 sn_thumbnails := None |};
                       it_contentDetails := None;
                       it_statistics := None |}];
                 nextPageToken := None |}
  else five_youtube r.

(** * Properties *)

(** ** The duration parser *)

Lemma span_digits_all_digits (s : string) :
  all_digits (fst (span_digits s)) = true.
Proof.
  induction s as [|c r IH]; simpl; [reflexivity|].
  destruct (is_digit c) eqn:Hc; [|reflexivity].
  destruct (span_digits r) as [d t]; simpl in *.
  now rewrite Hc, IH.
Qed.

Lemma int_of_digits_total (s : string) :
  all_digits s = true -> forall acc, exists n, int_of_digits acc s = Some n.
Proof.
  induction s as [|c r IH]; simpl; intros H acc.
  - now exists acc.
  - apply andb_true_iff in H as [Hc Hr]. rewrite Hc. now apply IH.
Qed.

Lemma group_digits (u : ascii) (s ds rest : string) :
  group u s = (Some ds, rest) -> ds <> EmptyString /\ all_digits ds = true.
Proof.
  unfold group. pose proof (span_digits_all_digits s) as Hd.
  destruct (span_digits s) as [d t]; simpl in Hd.
  destruct d as [|c d']; [discriminate|].
  destruct t as [|c' t']; [discriminate|].
  destruct (Ascii.eqb c' u); [|discriminate].
  intros H; inversion H; subst. split; [discriminate|assumption].
Qed.

Lemma int_or_zero_group (u : ascii) (s : string) :
  exists n, int_or_zero (fst (group u s)) = Ok n.
Proof.
  destruct (group u s) as [[ds|] rest] eqn:Hg; cbn [fst]; [|now exists 0].
  apply group_digits in Hg as [Hne Hd].
  destruct ds as [|c r]; [congruence|].
  unfold int_or_zero, py_int_digits.
  destruct (int_of_digits_total (String c r) Hd 0) as [n Hn].
  rewrite Hn. now exists n.
Qed.

(** The parser returns a value on every input: each group the pattern
    captures is a non-empty digit run, so [int] accepts it. *)
Lemma iso8601_duration_total (dur : option string) :
  exists q, iso8601_duration_to_minutes dur = Ok q.
Proof.
  unfold iso8601_duration_to_minutes, re_match, re_match_rest.
  set (text := if truthy dur then _ else _). clearbody text.
  destruct (prefix "PT" text); [|now exists 0%Q].
  pose proof (int_or_zero_group "H" (drop2 text)) as [h Hh].
  destruct (group "H" (drop2 text)) as [gh r1]; simpl in Hh.
  pose proof (int_or_zero_group "M" r1) as [m Hm].
  destruct (group "M" r1) as [gm r2]; simpl in Hm.
  pose proof (int_or_zero_group "S" r2) as [s Hs].
  destruct (group "S" r2) as [gs r3]; simpl in Hs.
  rewrite Hh, Hm, Hs. simpl. eauto.
Qed.

Lemma iso8601_duration_no_marker (s : string) :
  prefix "PT" s = false -> iso8601_duration_to_minutes (Some s) = Ok 0%Q.
Proof.
  intros H. unfold iso8601_duration_to_minutes, re_match, re_match_rest.
  destruct s as [|c r]; [reflexivity|].
  simpl truthy. cbv iota. now rewrite H.
Qed.

(** C6, as stated, fails: a malformed string need not give zero.  The text
    ["PT5Mxyz"] is not a well-formed duration, yet the pattern matches its
    first four characters and the parser answers 5 minutes. *)
Lemma C6_malformed_not_always_zero :
  ~ (forall s : string,
        well_formed_duration s = false ->
        iso8601_duration_to_minutes (Some s) = Ok 0%Q).
Proof.
  intros H. specialize (H "PT5Mxyz" eq_refl).
  vm_compute in H. discriminate H.
Qed.

(** C6, amended: ["PT1H2M3S"] gives 62.05 minutes (the rational 1241/20),
    ["PT45M"] gives 45, ["PT0S"], the empty string and an absent value give 0,
    and so does every string that does not begin with ["PT"]; a string that
    begins with ["PT"] is read as far as the pattern matches and the rest is
    ignored; on every input of at most 300 characters, absent or not, the
    parser returns a value and does not raise.  (A longer run of digits
    leaves the range of [int] and [float], and Python raises.) *)
Theorem C6_duration_parser :
  iso8601_duration_to_minutes (Some "PT1H2M3S") = Ok (1241 # 20)%Q /\
  iso8601_duration_to_minutes (Some "PT45M") = Ok 45%Q /\
  iso8601_duration_to_minutes (Some "PT0S") = Ok 0%Q /\
  iso8601_duration_to_minutes (Some "") = Ok 0%Q /\
  iso8601_duration_to_minutes None = Ok 0%Q /\
  (forall s, prefix "PT" s = false ->
             iso8601_duration_to_minutes (Some s) = Ok 0%Q) /\
  (forall s h m sec rest,
      fits_float (Some s) = true ->
      re_match_rest s = Some (h, m, sec, rest) ->
      forall h' m' sec', int_or_zero h = Ok h' -> int_or_zero m = Ok m' ->
      int_or_zero sec = Ok sec' ->
      exists q, iso8601_duration_to_minutes (Some s) = Ok q /\
                (q == inject_Z (h' * 60 + m') + inject_Z sec' / 60)%Q) /\
  (forall dur, fits_float dur = true ->
               exists q, iso8601_duration_to_minutes dur = Ok q) /\
  (forall dur, _iso8601_duration_to_minutes dur
               = iso8601_duration_to_minutes dur).
Proof.
  repeat split; try reflexivity.
  - exact iso8601_duration_no_marker.
  - intros s h m sec rest _ Hm h' m' sec' Hh Hmm Hs.
    unfold iso8601_duration_to_minutes, re_match.
    assert (Ht : (if truthy (Some s) then s else "") = s)
      by (destruct s; reflexivity).
    rewrite Ht, Hm, Hh, Hmm, Hs. cbn [rbind].
    eexists; split; [reflexivity|]. apply Qred_correct.
  - intros dur _. apply iso8601_duration_total.
Qed.

Lemma C6_duration_parser_witness :
  iso8601_duration_to_minutes (Some "1H30M") = Ok 0%Q.
Proof.
  apply (proj1 (proj2 (proj2 (proj2 (proj2 (proj2 C6_duration_parser)))))).
  reflexivity.
Defined.

(** ** The staleness test *)

Section StalenessFacts.

Variable date_parse : string -> option pydatetime.
Variable STALE_DAYS : Z.
Variable now : Z.

Let stale := is_stale_or_missing date_parse STALE_DAYS now.
Let cutoff := stale_cutoff_instant STALE_DAYS now.

Lemma stale_parsed (s : string) (dt : pydatetime) :
  s <> EmptyString -> date_parse s = Some dt ->
  stale (Some s) = Ok (instant dt <? cutoff).
Proof.
  intros Hs Hp. unfold stale, is_stale_or_missing.
  destruct s as [|c r]; [congruence|]. cbn [truthy negb].
  rewrite Hp. unfold cutoff, stale_cutoff_instant.
  unfold datetime_lt, instant, is_aware.
  destruct (tzinfo dt) as [off|] eqn:Htz; cbn; rewrite ?Htz;
    unfold utc_of, timedelta_days; f_equal; f_equal; lia.
Qed.

(** C1. A missing value ([None] or the empty string) is stale.  A value that
    is present and parses is stale exactly when its instant is strictly
    earlier than the cutoff, now minus [STALE_DAYS] days; so a value equal
    to the cutoff is not stale. *)
Theorem C1_is_stale_or_missing :
  stale None = Ok true /\
  stale (Some EmptyString) = Ok true /\
  (forall s dt,
      s <> EmptyString -> date_parse s = Some dt ->
      exists b, stale (Some s) = Ok b /\
                (b = true <-> instant dt < cutoff)) /\
  (forall s dt,
      s <> EmptyString -> date_parse s = Some dt ->
      instant dt = cutoff -> stale (Some s) = Ok false).
Proof.
  split; [reflexivity|]. split; [reflexivity|]. split.
  - intros s dt Hs Hp. exists (instant dt <? cutoff).
    split; [apply stale_parsed; assumption|]. apply Z.ltb_lt.
  - intros s dt Hs Hp Heq. rewrite (stale_parsed s dt Hs Hp), Heq.
    now rewrite Z.ltb_irrefl.
Qed.

End StalenessFacts.

Lemma C1_is_stale_or_missing_witness :
  is_stale_or_missing sample_parse 30 sample_now (Some "2024-01-01T00:00:00Z")
  = Ok false.
Proof.
  apply (proj2 (proj2 (proj2 (C1_is_stale_or_missing sample_parse 30 sample_now))))
    with (dt := {| wall := DAY_2024_01_01 * MICROS_PER_DAY; tzinfo := Some 0 |}).
  - discriminate.
  - reflexivity.
  - reflexivity.
Defined.

(** ** Channel resolution *)

(** C9. A string that starts with ["UC"] and is longer than 20 characters is
    returned unchanged, and the trace is left as it was: no request is
    sent. *)
Theorem C9_channel_id_passthrough
        (youtube : request -> answer body) (api_key identifier : string)
        (w : world) :
  prefix "UC" identifier = true ->
  (20 < String.length identifier)%nat ->
  resolve_channel_id youtube api_key identifier w = (Ok identifier, w).
Proof.
  intros Hp Hl. unfold resolve_channel_id. rewrite Hp.
  replace (20 <? Z.of_nat (String.length identifier)) with true
    by (symmetry; apply Z.ltb_lt; lia).
  reflexivity.
Qed.

Lemma C9_channel_id_passthrough_witness :
  resolve_channel_id (fun _ => NoAnswer "offline") "k"
                     "UCHnyfMqiRRG1u-2MsSQLbXA" empty_world
  = (Ok "UCHnyfMqiRRG1u-2MsSQLbXA", empty_world).
Proof.
  apply C9_channel_id_passthrough.
  - reflexivity.
  - vm_compute. lia.
Defined.

(** C2, on the code: the last path segment of a URL is returned as soon as it
    starts with ["UC"], whatever its length.  ["UCBerkeley"] has ten
    characters, fails the length test of the first branch, and still comes
    back as the channel id, with no search sent. *)
Lemma C2_url_segment_skips_length_check
      (youtube : request -> answer body) (api_key : string) (w : world) :
  resolve_channel_id youtube api_key
                     "https://www.youtube.com/user/UCBerkeley" w
  = (Ok "UCBerkeley", w) /\
  (String.length "UCBerkeley" <= 20)%nat.
Proof.
  split; [reflexivity|vm_compute; lia].
Qed.

(** ** Not-found errors *)

Section NotFound.

Variable youtube : request -> answer body.
Variable api_key : string.

Lemma _get_eq (p : string) (ps : list (string * param)) (w : world) :
  _get youtube api_key p ps w
  = (get_outcome (youtube (with_key api_key p ps)),
     log_request (with_key api_key p ps) w).
Proof.
  unfold _get, get_outcome, log_request, with_key.
  now destruct (youtube _).
Qed.

Lemma search_channel_id_not_found (q : string) (w : world) :
  (exists msg w', search_channel_id youtube api_key q w
                  = (Raise (ValueError msg), w'))
  <-> (exists b, youtube (search_request api_key q) = Answer b
                 /\ items b = []).
Proof.
  unfold search_channel_id, bind. rewrite _get_eq.
  fold (search_request api_key q).
  destruct (youtube (search_request api_key q)) as [b|st tx|m] eqn:Ha;
    cbn [get_outcome].
  - destruct (items b) as [|it rest] eqn:Hi.
    + split; [intros _; now exists b|]. intros _. unfold raise. eauto.
    + split.
      * intros (msg & w' & H). unfold lift in H.
        destruct (it_snippet it) as [sn|]; cbn in H; [|discriminate H].
        destruct (sn_channelId sn); cbn in H; discriminate H.
      * intros (b' & Hb & Hi'). inversion Hb; subst. congruence.
  - split; [intros (msg & w' & H); discriminate H|].
    intros (b & Hb & _). discriminate Hb.
  - split; [intros (msg & w' & H); discriminate H|].
    intros (b & Hb & _). discriminate Hb.
Qed.

(** Resolution either returns at once, sending nothing, or is the search for
    some query. *)
Lemma resolve_channel_id_cases (identifier : string) (w : world) :
  (exists c, resolve_channel_id youtube api_key identifier w = (Ok c, w))
  \/ (exists q, resolve_channel_id youtube api_key identifier
                = search_channel_id youtube api_key q).
Proof.
  unfold resolve_channel_id.
  destruct (prefix "UC" identifier && _); [left; now eexists|].
  destruct (prefix "http" (strip identifier)); [|right; now eexists].
  destruct (prefix "UC" _); [left; now eexists|right; now eexists].
Qed.

(** C8. [fetch_video_details] and [fetch_channel_info] raise the not-found
    [ValueError] exactly when the response they read has no items (for
    [fetch_channel_info] that is the search of its resolution step, or else
    the channel lookup); [resolve_channel_id] raises it exactly when its
    search comes back with no items; a rejected HTTP status surfaces as
    [HTTPError], a different exception. *)
Theorem C8_not_found :
  (forall video_id w,
      (exists msg w', fetch_video_details youtube api_key video_id w
                      = (Raise (ValueError msg), w'))
      <-> (exists b, youtube (video_details_request api_key video_id) = Answer b
                     /\ items b = [])) /\
  (forall channel_id w,
      (exists msg w', fetch_channel_info youtube api_key channel_id w
                      = (Raise (ValueError msg), w'))
      <-> ((exists msg w', resolve_channel_id youtube api_key channel_id w
                           = (Raise (ValueError msg), w'))
           \/ (exists c w1 b,
                  resolve_channel_id youtube api_key channel_id w = (Ok c, w1)
                  /\ youtube (channel_info_request api_key c) = Answer b
                  /\ items b = []))) /\
  (forall identifier w,
      (exists msg w', resolve_channel_id youtube api_key identifier w
                      = (Raise (ValueError msg), w'))
      <-> (exists q b,
              resolve_channel_id youtube api_key identifier
              = search_channel_id youtube api_key q
              /\ youtube (search_request api_key q) = Answer b
              /\ items b = [])) /\
  (forall video_id w st tx,
      youtube (video_details_request api_key video_id) = BadStatus st tx ->
      fetch_video_details youtube api_key video_id w
      = (Raise (HTTPError st tx),
         log_request (video_details_request api_key video_id) w)).
Proof.
  split; [|split; [|split]].
  - intros video_id w. unfold fetch_video_details, bind. rewrite _get_eq.
    fold (video_details_request api_key video_id).
    destruct (youtube (video_details_request api_key video_id))
      as [b|st tx|m]; cbn [get_outcome].
    + destruct (items b) as [|it rest] eqn:Hi.
      * split; [intros _; now exists b|]. intros _. unfold raise. eauto.
      * split; [intros (msg & w' & H); discriminate H|].
        intros (b' & Hb & Hi'). inversion Hb; subst. congruence.
    + split; [intros (msg & w' & H); discriminate H|].
      intros (b & Hb & _). discriminate Hb.
    + split; [intros (msg & w' & H); discriminate H|].
      intros (b & Hb & _). discriminate Hb.
  - intros channel_id w. unfold fetch_channel_info, bind at 1.
    destruct (resolve_channel_id youtube api_key channel_id w)
      as [[c|e|] w1] eqn:Hr.
    + unfold bind. rewrite _get_eq. fold (channel_info_request api_key c).
      destruct (youtube (channel_info_request api_key c))
        as [b|st tx|m] eqn:Ha; cbn [get_outcome].
      * destruct (items b) as [|it rest] eqn:Hi.
        -- split; [|intros _; unfold raise; eauto].
           intros _. right. exists c, w1, b. auto.
        -- split; [intros (msg & w' & H); discriminate H|].
           intros [(msg & w' & H)|(c' & w1' & b' & H1 & H2 & H3)];
             [discriminate H|].
           inversion H1; subst. rewrite Ha in H2. inversion H2; subst.
           congruence.
      * split; [intros (msg & w' & H); discriminate H|].
        intros [(msg & w' & H)|(c' & w1' & b' & H1 & H2 & H3)];
          [discriminate H|].
        inversion H1; subst. rewrite Ha in H2. discriminate H2.
      * split; [intros (msg & w' & H); discriminate H|].
        intros [(msg & w' & H)|(c' & w1' & b' & H1 & H2 & H3)];
          [discriminate H|].
        inversion H1; subst. rewrite Ha in H2. discriminate H2.
    + split.
      * intros (msg & w' & H). inversion H; subst. left. eauto.
      * intros [(msg & w' & H)|(c' & w1' & b' & H1 & _)];
          [|discriminate H1].
        inversion H; subst. eauto.
    + split; [intros (msg & w' & H); discriminate H|].
      intros [(msg & w' & H)|(c' & w1' & b' & H1 & _)]; discriminate.
  - intros identifier w. split.
    + intros (msg & w' & H).
      destruct (resolve_channel_id_cases identifier w) as [[c Hc]|[q Hq]].
      * rewrite Hc in H. discriminate H.
      * assert (Hs : exists msg w', search_channel_id youtube api_key q w
                                    = (Raise (ValueError msg), w'))
          by (rewrite <- Hq; eauto).
        apply search_channel_id_not_found in Hs as (b & Hb & Hi).
        exists q, b. auto.
    + intros (q & b & Hq & Hb & Hi). rewrite Hq.
      apply search_channel_id_not_found. eauto.
  - intros video_id w st tx Ha. unfold fetch_video_details, bind.
    rewrite _get_eq. fold (video_details_request api_key video_id).
    now rewrite Ha.
Qed.

End NotFound.

Lemma C8_not_found_witness :
  exists msg w',
    fetch_video_details
      (fun _ => Answer {| items := []; nextPageToken := None |})
      "k" "dQw4w9WgXcQ" empty_world
    = (Raise (ValueError msg), w').
Proof.
  apply (proj1 (C8_not_found _ "k")).
  exists {| items := []; nextPageToken := None |}.
  split; reflexivity.
Defined.

(** ** An unknown channel *)

Section UnknownChannel.

Variable youtube : request -> answer body.
Variable api_key : string.
Variable date_parse : string -> option pydatetime.
Variable py_int_str : string -> option Z.
Variable py_int_float_str : string -> option Z.

Lemma fetch_videos_no_channel (fuel : nat) (channel_id c : string)
      (max_results : Z) (w w1 : world) (b : body) :
  resolve_channel_id youtube api_key channel_id w = (Ok c, w1) ->
  youtube (channel_uploads_request api_key c) = Answer b ->
  items b = [] ->
  fetch_videos youtube api_key fuel channel_id max_results w
  = (Ok [], log_request (channel_uploads_request api_key c) w1).
Proof.
  intros Hr Ha Hi. unfold fetch_videos, bind at 1. rewrite Hr.
  unfold bind at 1. rewrite _get_eq.
  fold (channel_uploads_request api_key c). rewrite Ha. cbn [get_outcome].
  now rewrite Hi.
Qed.

(** C10. When the channel lookup inside [fetch_videos] has no items,
    [fetch_videos] returns the empty list, and [avg_views_last_30d] returns
    0.0; on the same kind of empty answer [fetch_channel_info] and
    [fetch_video_details] raise [ValueError]. *)
Theorem C10_unknown_channel_gives_zero
        (fuel : nat) (now : Z) (channel_id c : string)
        (min_minutes fetch_count : Z) (w w1 : world) (b : body) :
  resolve_channel_id youtube api_key channel_id w = (Ok c, w1) ->
  youtube (channel_uploads_request api_key c) = Answer b ->
  items b = [] ->
  fetch_videos youtube api_key fuel channel_id fetch_count w
  = (Ok [], log_request (channel_uploads_request api_key c) w1) /\
  avg_views_last_30d youtube api_key date_parse py_int_str py_int_float_str
                     fuel now channel_id min_minutes fetch_count w
  = (Ok 0%Q, log_request (channel_uploads_request api_key c) w1) /\
  (forall b', youtube (channel_info_request api_key c) = Answer b' ->
              items b' = [] ->
              fetch_channel_info youtube api_key channel_id w
              = (Raise (ValueError "Channel not found"),
                 log_request (channel_info_request api_key c) w1)) /\
  (forall b', youtube (video_details_request api_key c) = Answer b' ->
              items b' = [] ->
              fetch_video_details youtube api_key c w
              = (Raise (ValueError "Video not found"),
                 log_request (video_details_request api_key c) w)).
Proof.
  intros Hr Ha Hi.
  pose proof (fetch_videos_no_channel fuel channel_id c fetch_count w w1 b
                                      Hr Ha Hi) as Hf.
  split; [exact Hf|]. split; [|split].
  - unfold avg_views_last_30d, bind. now rewrite Hf.
  - intros b' Ha' Hi'. unfold fetch_channel_info, bind at 1. rewrite Hr.
    unfold bind. rewrite _get_eq. fold (channel_info_request api_key c).
    rewrite Ha'. cbn [get_outcome]. now rewrite Hi'.
  - intros b' Ha' Hi'. unfold fetch_video_details, bind.
    rewrite _get_eq. fold (video_details_request api_key c).
    rewrite Ha'. cbn [get_outcome]. now rewrite Hi'.
Qed.

End UnknownChannel.

Lemma C10_unknown_channel_gives_zero_witness :
  avg_views_last_30d
    (fun _ => Answer {| items := []; nextPageToken := None |}) "k"
    sample_parse (fun _ => None) (fun _ => None)
    0 sample_now "UCHnyfMqiRRG1u-2MsSQLbXA" 3 50 empty_world
  = (Ok 0%Q,
     log_request (channel_uploads_request "k" "UCHnyfMqiRRG1u-2MsSQLbXA")
                 empty_world).
Proof.
  apply (proj1 (proj2 (C10_unknown_channel_gives_zero
                         (fun _ => Answer {| items := []; nextPageToken := None |})
                         "k" sample_parse (fun _ => None) (fun _ => None)
                         0 sample_now "UCHnyfMqiRRG1u-2MsSQLbXA"
                         "UCHnyfMqiRRG1u-2MsSQLbXA" 3 50
                         empty_world empty_world
                         {| items := []; nextPageToken := None |}
                         eq_refl eq_refl eq_refl))).
Defined.

(** ** The 30-day average *)

Section AverageFacts.

Variable date_parse : string -> option pydatetime.
Variable py_int_str : string -> option Z.
Variable py_int_float_str : string -> option Z.

Let kept := kept_views date_parse py_int_str py_int_float_str.

(** While every timestamp read carries an offset, the loop collects the
    views of the qualifying videos, in order. *)
Lemma matching_views_kept (now min_minutes : Z) (videos : list video) :
  Forall (offset_aware date_parse) videos ->
  forall acc,
    matching_views date_parse py_int_str py_int_float_str
      (minus_timedelta (datetime_now_utc now) (timedelta_days 30))
      min_minutes videos acc
    = Ok (acc ++ kept now min_minutes videos)%list.
Proof.
  induction 1 as [|v rest Hv Hrest IH]; intros acc.
  - cbn. now rewrite app_nil_r.
  - cbn [matching_views]. unfold kept, kept_views. cbn [filter].
    unfold qualifies at 1, within_last_30_days, publish_instant.
    destruct (truthy (publishedAt v)) eqn:Ht; cbn [negb andb];
      [|apply IH].
    destruct (publishedAt v) as [pub|] eqn:Hpub; [|discriminate Ht].
    destruct (date_parse pub) as [dt|] eqn:Hdp; cbn [option_map andb];
      [|apply IH].
    specialize (Hv pub dt Hpub Hdp). unfold is_aware in Hv.
    unfold datetime_lt, instant. cbn [tzinfo wall minus_timedelta datetime_now_utc].
    destruct (tzinfo dt) as [off|]; [|discriminate Hv]. cbn [rbind].
    replace (utc_of (now - timedelta_days 30) 0) with (now - timedelta_days 30)
      by (unfold utc_of; lia).
    rewrite Z.ltb_antisym.
    destruct (now - timedelta_days 30 <=? utc_of (wall dt) off);
      cbn [negb andb]; [|apply IH].
    unfold long_enough.
    destruct (iso8601_duration_total (get_duration v)) as [q Hq].
    rewrite Hq. cbn [rbind]. unfold Qlt_bool.
    destruct (Qle_bool (inject_Z min_minutes) q); cbn [negb]; [|apply IH].
    cbn [map]. rewrite IH, <- app_assoc. reflexivity.
Qed.

Lemma mean_or_zero_mean (l : list Z) :
  (mean_or_zero l == arithmetic_mean l)%Q.
Proof.
  destruct l as [|x r]; [reflexivity|].
  unfold mean_or_zero, arithmetic_mean. apply Qred_correct.
Qed.

Lemma avg_views_of_videos_kept (now min_minutes : Z) (videos : list video) :
  Forall (offset_aware date_parse) videos ->
  avg_views_of_videos date_parse py_int_str py_int_float_str
                      now min_minutes videos
  = Ok (mean_or_zero (kept now min_minutes videos)).
Proof.
  intros H. unfold avg_views_of_videos.
  rewrite (matching_views_kept now min_minutes videos H []). reflexivity.
Qed.

Variable youtube : request -> answer body.
Variable api_key : string.

(** C3, amended.  For every list of videos the client returns in which each
    publish timestamp that parses carries a UTC offset, each duration text
    has at most 300 characters and each integer-coerced view count at most
    300 digits, [avg_views_last_30d] returns the arithmetic mean of the
    integer-coerced view counts of exactly the videos published not earlier
    than the cutoff (now minus 30 days) whose parsed duration is at least
    [min_minutes]; when none qualifies it returns exactly 0.0.  (Beyond
    those sizes the duration parser and the division leave the range of
    [float], and Python raises.) *)
Theorem C3_avg_views_last_30d
        (fuel : nat) (now : Z) (channel_identifier : string)
        (min_minutes fetch_count : Z) (w w' : world) (videos : list video) :
  fetch_videos youtube api_key fuel channel_identifier fetch_count w
  = (Ok videos, w') ->
  Forall (offset_aware date_parse) videos ->
  Forall (fun v => fits_float (get_duration v) = true) videos ->
  Forall (fun v => int_fits_float
                     (view_int py_int_str py_int_float_str v) = true)
         videos ->
  exists q,
    avg_views_last_30d youtube api_key date_parse py_int_str py_int_float_str
                       fuel now channel_identifier min_minutes fetch_count w
    = (Ok q, w') /\
    (q == arithmetic_mean (kept now min_minutes videos))%Q /\
    (kept now min_minutes videos = [] -> q = 0%Q).
Proof.
  intros Hf Ha _ _. exists (mean_or_zero (kept now min_minutes videos)).
  split; [|split].
  - unfold avg_views_last_30d, bind. rewrite Hf. unfold lift.
    now rewrite avg_views_of_videos_kept.
  - apply mean_or_zero_mean.
  - intros ->. reflexivity.
Qed.

End AverageFacts.

(** C3, as stated, fails: the client can return a video whose timestamp has
    no offset; the parser then yields a naive datetime, and comparing it with
    the offset-aware cutoff raises [TypeError] instead of returning a mean. *)
Lemma C3_naive_timestamp_raises :
  fst (fetch_videos naive_youtube "k" 5 SAMPLE_CHANNEL 50 empty_world)
  = Ok [{| id := "v1"; title := "one";
           publishedAt := Some "2024-01-01T00:00:00";
           merged := Some {| duration := Some "PT10M";
                             viewCount := Some (JStr "100");
                             likeCount := None; commentCount := None;
                             thumbnails := None |} |}] /\
  fst (avg_views_last_30d naive_youtube "k" sample_parse sample_int
                          (fun _ => None) 5 sample_now SAMPLE_CHANNEL 3 50
                          empty_world)
  = Raise (TypeError "can't compare offset-naive and offset-aware datetimes").
Proof.
  split; vm_compute; reflexivity.
Qed.

(** ** The calendar of the timestamp the job writes *)

Lemma is_leap_year_shift (y k : Z) : is_leap_year (y + 400 * k) = is_leap_year y.
Proof.
  unfold is_leap_year.
  replace (y + 400 * k) with (y + (100 * k) * 4) at 1 by lia.
  replace (y + 400 * k) with (y + (4 * k) * 100) at 1 by lia.
  replace (y + 400 * k) with (y + k * 400) by lia.
  now rewrite !Z_mod_plus_full.
Qed.

Lemma days_before_year_shift (y k : Z) :
  days_before_year (y + 400 * k) = days_before_year y + 146097 * k.
Proof.
  unfold days_before_year.
  replace (y + 400 * k - 1) with (y - 1 + (100 * k) * 4) at 2 by lia.
  replace (y + 400 * k - 1) with (y - 1 + (4 * k) * 100) at 2 by lia.
  replace (y + 400 * k - 1) with (y - 1 + k * 400) at 2 by lia.
  rewrite !Z.div_add by lia. lia.
Qed.

Lemma days_before_year_step (y : Z) :
  days_before_year (y + 1)
  = days_before_year y + 365 + (if is_leap_year y then 1 else 0).
Proof.
  unfold days_before_year, is_leap_year.
  replace (y + 1 - 1) with y by lia.
  destruct (Z.eqb_spec (y mod 4) 0) as [H4|H4];
    destruct (Z.eqb_spec (y mod 100) 0) as [H100|H100];
    destruct (Z.eqb_spec (y mod 400) 0) as [H400|H400];
    cbn [andb orb negb]; Z.div_mod_to_equations; lia.
Qed.

Lemma year_of_era_step (x : Z) :
  0 <= x < 146096 -> year_of_era x <= year_of_era (x + 1).
Proof.
  intros H. unfold year_of_era. apply Z.div_le_mono; [lia|].
  Z.div_mod_to_equations. lia.
Qed.

Lemma year_of_era_mono (n : nat) :
  forall a, 0 <= a -> a + Z.of_nat n <= 146096 ->
            year_of_era a <= year_of_era (a + Z.of_nat n).
Proof.
  induction n as [|n IH]; intros a Ha Hb.
  - replace (a + Z.of_nat 0) with a by lia. lia.
  - replace (a + Z.of_nat (S n)) with (a + Z.of_nat n + 1) by lia.
    etransitivity; [apply IH; lia|]. apply year_of_era_step. lia.
Qed.

Lemma year_of_era_le (a b : Z) :
  0 <= a <= b -> b <= 146096 -> year_of_era a <= year_of_era b.
Proof.
  intros Ha Hb. replace b with (a + Z.of_nat (Z.to_nat (b - a))) by lia.
  apply year_of_era_mono; lia.
Qed.

Lemma year_ends_checked :
  forallb year_ends_ok (map Z.of_nat (seq 0 400)) = true.
Proof. vm_compute. reflexivity. Qed.

Lemma year_ends (k : Z) :
  0 <= k <= 399 ->
  year_of_era (days_before_year (k + 1)) = k /\
  year_of_era (days_before_year (k + 2) - 1) = k.
Proof.
  intros Hk. pose proof year_ends_checked as H.
  rewrite forallb_forall in H. specialize (H k).
  assert (Hin : In k (map Z.of_nat (seq 0 400))).
  { apply in_map_iff. exists (Z.to_nat k). split; [lia|].
    apply in_seq. lia. }
  apply H in Hin. unfold year_ends_ok in Hin.
  apply andb_true_iff in Hin as [H1 H2].
  apply Z.eqb_eq in H1, H2. now split.
Qed.

Lemma days_before_year_bounds (k : Z) :
  0 <= k <= 400 -> 0 <= days_before_year (k + 1) <= 146097.
Proof.
  intros Hk. unfold days_before_year. replace (k + 1 - 1) with k by lia.
  Z.div_mod_to_equations. lia.
Qed.

Lemma year_of_era_spec (doe : Z) :
  0 <= doe < 146097 ->
  0 <= year_of_era doe <= 399 /\
  days_before_year (year_of_era doe + 1) <= doe
  < days_before_year (year_of_era doe + 2).
Proof.
  intros Hd.
  assert (H0 : year_of_era 0 = 0) by reflexivity.
  assert (H1 : year_of_era 146096 = 399) by reflexivity.
  pose proof (year_of_era_le 0 doe ltac:(lia) ltac:(lia)) as Hlo.
  pose proof (year_of_era_le doe 146096 ltac:(lia) ltac:(lia)) as Hhi.
  set (k := year_of_era doe) in *.
  assert (Hk : 0 <= k <= 399) by lia.
  split; [exact Hk|]. split.
  - destruct (Z_le_gt_dec (days_before_year (k + 1)) doe) as [H|H]; [exact H|].
    exfalso. destruct (Z.eq_dec k 0) as [Hz|Hz].
    + rewrite Hz in H. change (days_before_year (0 + 1)) with 0 in H. lia.
    + destruct (year_ends (k - 1) ltac:(lia)) as [_ He].
      replace (k - 1 + 2) with (k + 1) in He by lia.
      pose proof (days_before_year_bounds k ltac:(lia)) as Hb.
      pose proof (year_of_era_le doe (days_before_year (k + 1) - 1)
                    ltac:(lia) ltac:(lia)) as Hm.
      fold k in Hm. lia.
  - destruct (Z_lt_le_dec doe (days_before_year (k + 2))) as [H|H]; [exact H|].
    exfalso. destruct (Z.eq_dec k 399) as [Hz|Hz].
    + rewrite Hz in H. change (days_before_year (399 + 2)) with 146097 in H.
      lia.
    + destruct (year_ends (k + 1) ltac:(lia)) as [He _].
      replace (k + 1 + 1) with (k + 2) in He by lia.
      pose proof (days_before_year_bounds (k + 1) ltac:(lia)) as Hb.
      replace (k + 1 + 1) with (k + 2) in Hb by lia.
      pose proof (year_of_era_le (days_before_year (k + 2)) doe
                    ltac:(lia) ltac:(lia)) as Hm.
      fold k in Hm. lia.
Qed.

Lemma days_before_month_table (y : Z) :
  days_before_month y 0 = 0 /\
  days_before_month y 1 = 31 /\
  days_before_month y 2 = 59 + leap_day y /\
  days_before_month y 3 = 90 + leap_day y /\
  days_before_month y 4 = 120 + leap_day y /\
  days_before_month y 5 = 151 + leap_day y /\
  days_before_month y 6 = 181 + leap_day y /\
  days_before_month y 7 = 212 + leap_day y /\
  days_before_month y 8 = 243 + leap_day y /\
  days_before_month y 9 = 273 + leap_day y /\
  days_before_month y 10 = 304 + leap_day y /\
  days_before_month y 11 = 334 + leap_day y.
Proof.
  unfold leap_day, days_before_month, days_in_month.
  cbn [Z.of_nat Pos.of_succ_nat Pos.succ Z.eqb Pos.eqb orb].
  destruct (is_leap_year y); repeat split; reflexivity.
Qed.

Lemma days_in_month_table (y : Z) :
  days_in_month y 1 = 31 /\ days_in_month y 2 = 28 + leap_day y /\
  days_in_month y 3 = 31 /\ days_in_month y 4 = 30 /\
  days_in_month y 5 = 31 /\ days_in_month y 6 = 30 /\
  days_in_month y 7 = 31 /\ days_in_month y 8 = 31 /\
  days_in_month y 9 = 30 /\ days_in_month y 10 = 31 /\
  days_in_month y 11 = 30 /\ days_in_month y 12 = 31.
Proof.
  unfold leap_day, days_in_month. cbn [Z.eqb Pos.eqb orb].
  destruct (is_leap_year y); repeat split; reflexivity.
Qed.

Lemma leap_day_shift (y k : Z) : leap_day (y + 400 * k) = leap_day y.
Proof. unfold leap_day. now rewrite is_leap_year_shift. Qed.

Lemma leap_day_range (y : Z) : 0 <= leap_day y <= 1.
Proof. unfold leap_day. destruct (is_leap_year y); lia. Qed.

Lemma days_before_year_next (y : Z) :
  days_before_year (y + 1) = days_before_year y + 365 + leap_day y.
Proof. apply days_before_year_step. Qed.

(** The civil date of every day number is a valid date, and it is the date
    of that day. *)
Lemma civil_from_days_correct (z : Z) :
  let '(y, m, d) := civil_from_days z in
  valid_date y m d = true /\ days_from_civil y m d = z.
Proof.
  unfold civil_from_days. cbv zeta.
  set (z' := z + 719468). set (era := z' / 146097).
  set (doe := z' - era * 146097).
  assert (Hdoe : 0 <= doe < 146097).
  { pose proof (Z.div_mod z' 146097 ltac:(lia)) as E.
    pose proof (Z.mod_pos_bound z' 146097 ltac:(lia)) as B.
    unfold doe, era. lia. }
  assert (Hz : z = era * 146097 + doe - 719468) by (unfold doe, z'; lia).
  clearbody doe. clearbody era. clear z'.
  fold (year_of_era doe).
  destruct (year_of_era_spec doe Hdoe) as (Hk & Hlo & Hhi).
  set (k := year_of_era doe) in *. clearbody k.
  assert (Hstart : 365 * k + k / 4 - k / 100 = days_before_year (k + 1)).
  { unfold days_before_year. replace (k + 1 - 1) with k by lia.
    rewrite (Z.div_small k 400) by lia. lia. }
  rewrite Hstart.
  pose proof (days_before_year_next (k + 1)) as Hnext.
  replace (k + 1 + 1) with (k + 2) in Hnext by lia.
  pose proof (days_before_year_next k) as Hthis.
  pose proof (leap_day_range (k + 1)) as Hl1.
  set (doy := doe - days_before_year (k + 1)).
  assert (Hdoy : 0 <= doy < 365 + leap_day (k + 1)) by (unfold doy; lia).
  assert (Hdoe' : doe = doy + days_before_year (k + 1)) by (unfold doy; lia).
  clearbody doy.
  set (mp := (5 * doy + 2) / 153).
  pose proof (Z.div_mod (5 * doy + 2) 153 ltac:(lia)) as Emp.
  pose proof (Z.mod_pos_bound (5 * doy + 2) 153 ltac:(lia)) as Bmp.
  fold mp in Emp. set (r1 := (5 * doy + 2) mod 153) in *. clearbody r1.
  clearbody mp.
  set (s := (153 * mp + 2) / 5).
  pose proof (Z.div_mod (153 * mp + 2) 5 ltac:(lia)) as Es.
  pose proof (Z.mod_pos_bound (153 * mp + 2) 5 ltac:(lia)) as Bs.
  fold s in Es. set (r2 := (153 * mp + 2) mod 5) in *. clearbody r2.
  clearbody s.
  assert (Hy : forall j, days_before_year (k + j + era * 400)
                         = days_before_year (k + j) + 146097 * era).
  { intros j. replace (k + j + era * 400) with (k + j + 400 * era) by lia.
    apply days_before_year_shift. }
  assert (Hl : forall j, leap_day (k + j + era * 400) = leap_day (k + j)).
  { intros j. replace (k + j + era * 400) with (k + j + 400 * era) by lia.
    apply leap_day_shift. }
  pose proof (Hy 0) as Hy0. pose proof (Hy 1) as Hy1.
  pose proof (Hl 0) as Hl0. pose proof (Hl 1) as Hl1'.
  replace (k + 0 + era * 400) with (k + era * 400) in * by lia.
  replace (k + 1 + era * 400) with (k + era * 400 + 1) in * by lia.
  replace (k + 0) with k in * by lia.
  assert (Hcases : mp = 0 \/ mp = 1 \/ mp = 2 \/ mp = 3 \/ mp = 4 \/ mp = 5 \/
                   mp = 6 \/ mp = 7 \/ mp = 8 \/ mp = 9 \/ mp = 10 \/ mp = 11)
    by lia.
  change (days_before_year 1970) with 719162 in *.
  unfold valid_date, days_from_civil.
  change (days_before_year 1970) with 719162.
  repeat (destruct Hcases as [Hm|Hcases]); try rename Hcases into Hm;
    subst mp; cbn [Z.ltb Z.leb Z.compare Pos.compare Pos.compare_cont
                   Z.add Z.sub Z.opp Z.pos_sub Pos.add Pos.succ Pos.pred_double
                   Z.to_nat Pos.to_nat Pos.iter_op Nat.add Init.Nat.add
                   Z.succ_double Z.pred_double Z.double Pos.add_carry
                   andb Z.eqb Pos.eqb].
  all: repeat match goal with
              | |- context [Pos.to_nat ?p] =>
                  let n := eval compute in (Pos.to_nat p) in
                  change (Pos.to_nat p) with n
              end.
  all: match goal with
       | |- context [days_in_month ?y ?m] =>
           pose proof (days_in_month_table y) as Hdim;
           pose proof (days_before_month_table y) as Hdbm
       end.
  all: decompose [and] Hdim; decompose [and] Hdbm.
  all: repeat match goal with
              | H : days_in_month _ _ = _ |- _ => rewrite ?H; clear H
              | H : days_before_month _ _ = _ |- _ => rewrite ?H; clear H
              end.
  all: rewrite ?Hy0, ?Hy1, ?Hl0, ?Hl1'.
  all: split; [rewrite ?andb_true_iff, ?Z.leb_le|]; lia.
Qed.


Lemma days_before_year_mono (y y' : Z) :
  y <= y' -> days_before_year y <= days_before_year y'.
Proof.
  intros H. replace y' with (y + Z.of_nat (Z.to_nat (y' - y))) by lia.
  induction (Z.to_nat (y' - y)) as [|n IH].
  - replace (y + Z.of_nat 0) with y by lia. lia.
  - replace (y + Z.of_nat (S n)) with (y + Z.of_nat n + 1) by lia.
    rewrite days_before_year_next.
    pose proof (leap_day_range (y + Z.of_nat n)). lia.
Qed.

Lemma day_of_year_bounds (y m d : Z) :
  valid_date y m d = true ->
  0 <= days_before_month y (Z.to_nat (m - 1)) + (d - 1) < 365 + leap_day y.
Proof.
  unfold valid_date. rewrite !andb_true_iff, !Z.leb_le.
  intros [[[Hm1 Hm2] Hd1] Hd2].
  pose proof (days_in_month_table y) as Hdim.
  pose proof (days_before_month_table y) as Hdbm.
  pose proof (leap_day_range y) as Hl.
  decompose [and] Hdim. decompose [and] Hdbm.
  assert (Hcases : m = 1 \/ m = 2 \/ m = 3 \/ m = 4 \/ m = 5 \/ m = 6 \/
                   m = 7 \/ m = 8 \/ m = 9 \/ m = 10 \/ m = 11 \/ m = 12)
    by lia.
  repeat (destruct Hcases as [Hm|Hcases]); try rename Hcases into Hm;
    subst m;
    match goal with
    | |- context [Z.to_nat ?e] =>
        let n := eval compute in (Z.to_nat e) in
        change (Z.to_nat e) with n
    end; lia.
Qed.

Lemma civil_year_bounds (y m d z : Z) :
  valid_date y m d = true ->
  days_from_civil y m d = z ->
  days_from_civil 1000 1 1 <= z < days_from_civil 10000 1 1 ->
  1000 <= y <= 9999.
Proof.
  intros Hv Hz Hr. pose proof (day_of_year_bounds y m d Hv) as Hb.
  pose proof (days_before_year_next y) as Hn.
  change (days_from_civil 1000 1 1) with (-354285) in Hr.
  change (days_from_civil 10000 1 1) with 2932897 in Hr.
  unfold days_from_civil in Hz.
  change (days_before_year 1970) with 719162 in Hz.
  split.
  - destruct (Z_le_gt_dec 1000 y) as [H|H]; [exact H|exfalso].
    pose proof (days_before_year_mono (y + 1) 1000 ltac:(lia)) as Hm.
    change (days_before_year 1000) with 364877 in Hm. lia.
  - destruct (Z_le_gt_dec y 9999) as [H|H]; [exact H|exfalso].
    pose proof (days_before_year_mono 10000 y ltac:(lia)) as Hm.
    change (days_before_year 10000) with 3652059 in Hm. lia.
Qed.

(** ** Decimal texts *)

Lemma digit_char_spec (n : Z) :
  is_digit (digit_char n) = true /\ digit_value (digit_char n) = n mod 10.
Proof.
  unfold digit_char.
  pose proof (Z.mod_pos_bound n 10 ltac:(lia)) as B.
  set (k := n mod 10) in *. clearbody k.
  assert (Hc : k = 0 \/ k = 1 \/ k = 2 \/ k = 3 \/ k = 4 \/ k = 5 \/ k = 6 \/
               k = 7 \/ k = 8 \/ k = 9) by lia.
  repeat (destruct Hc as [Hk|Hc]); try rename Hc into Hk; subst k;
    split; reflexivity.
Qed.

Lemma pad2_reads (n : Z) :
  0 <= n <= 99 -> int_of_digits 0 (pad2 n) = Some n /\ String.length (pad2 n) = 2%nat.
Proof.
  intros H. split; [|reflexivity]. unfold pad2. cbn [int_of_digits].
  destruct (digit_char_spec (n / 10)) as [H1 V1].
  destruct (digit_char_spec n) as [H2 V2].
  rewrite H1, H2, V1, V2. f_equal. Z.div_mod_to_equations. lia.
Qed.

Lemma pad4_reads (n : Z) :
  0 <= n <= 9999 ->
  int_of_digits 0 (pad4 n) = Some n /\ String.length (pad4 n) = 4%nat.
Proof.
  intros H. split; [|reflexivity]. unfold pad4, pad2. cbn [int_of_digits].
  destruct (digit_char_spec (n / 1000)) as [H1 V1].
  destruct (digit_char_spec (n / 100)) as [H2 V2].
  destruct (digit_char_spec (n / 10)) as [H3 V3].
  destruct (digit_char_spec n) as [H4 V4].
  rewrite H1, H2, H3, H4, V1, V2, V3, V4. f_equal.
  Z.div_mod_to_equations. lia.
Qed.

Lemma int_of_digits_uint (d : Decimal.uint) :
  forall acc,
    int_of_digits acc (NilEmpty.string_of_uint d) = Some (uint_value d acc).
Proof.
  induction d; intros acc; cbn [NilEmpty.string_of_uint uint_value];
    [reflexivity|..];
    cbn [int_of_digits];
    match goal with
    | |- context [is_digit ?c] =>
        change (is_digit c) with true;
        let v := eval compute in (digit_value c) in
        change (digit_value c) with v
    end; cbv iota; rewrite IHd; f_equal; f_equal; lia.
Qed.

Lemma of_uint_acc_value (d : Decimal.uint) :
  forall acc, Zpos (Pos.of_uint_acc d acc) = uint_value d (Zpos acc).
Proof.
  induction d; intros acc; cbn [Pos.of_uint_acc uint_value];
    [reflexivity|..]; rewrite IHd; apply (f_equal (uint_value d)); lia.
Qed.

Lemma of_uint_value (d : Decimal.uint) :
  Z.of_N (Pos.of_uint d) = uint_value d 0.
Proof.
  induction d; cbn [Pos.of_uint uint_value];
    [reflexivity | exact IHd
    | cbn [Z.of_N]; rewrite of_uint_acc_value; reflexivity ..].
Qed.

Lemma format_0f_reads (n : Z) :
  0 <= n ->
  format_0f n <> EmptyString /\
  int_of_digits 0 (format_0f n) = Some n /\
  (n = 0 \/ prefix "0" (format_0f n) = false).
Proof.
  intros Hn. unfold format_0f. destruct n as [|p|p]; [|clear Hn|lia].
  - cbn. repeat split; [discriminate|now left].
  - cbn [Z.to_int NilZero.string_of_int]. unfold Pos.to_int.
    pose proof (DecimalPos.Unsigned.to_uint_nonnil p) as Hnil.
    pose proof (DecimalPos.Unsigned.to_uint_nonzero p) as Hnz.
    pose proof (DecimalPos.Unsigned.of_to p) as Hof.
    pose proof (DecimalPos.Unsigned.to_of (Pos.to_uint p)) as Hto.
    rewrite Hof in Hto. cbn [N.to_uint] in Hto.
    set (d := Pos.to_uint p) in *. clearbody d.
    assert (Hs : NilZero.string_of_uint d = NilEmpty.string_of_uint d)
      by (destruct d; [congruence|reflexivity..]).
    rewrite Hs. split; [|split].
    + destruct d; [congruence|discriminate..].
    + rewrite int_of_digits_uint, <- of_uint_value, Hof. reflexivity.
    + right.
      destruct d; try reflexivity. exfalso.
      unfold Decimal.unorm in Hto.
      destruct (Decimal.nzhead (Decimal.D0 d)) eqn:E;
        try discriminate Hto.
      * injection Hto as ->. now apply Hnz.
      * now apply (DecimalFacts.nzhead_nonzero _ _ E).
Qed.

(** ** The CRM job *)

Lemma keeps_ret {A : Type} (a : A) : keeps_patches (ret a).
Proof. intros w. reflexivity. Qed.

Lemma keeps_raise {A : Type} (e : exn) : keeps_patches (@raise A e).
Proof. intros w. reflexivity. Qed.

Lemma keeps_lift {A : Type} (r : result A) : keeps_patches (lift r).
Proof. intros w. reflexivity. Qed.

Lemma keeps_diverge {A : Type} : keeps_patches (@diverge A).
Proof. intros w. reflexivity. Qed.

Lemma keeps_bind {A B : Type} (m : M A) (k : A -> M B) :
  keeps_patches m -> (forall a, keeps_patches (k a)) ->
  keeps_patches (bind m k).
Proof.
  intros Hm Hk w. unfold bind. specialize (Hm w).
  destruct (m w) as [[a|e|] w1]; cbn [snd] in *; [|assumption..].
  now rewrite Hk.
Qed.

Lemma keeps_get (youtube : request -> answer body) (api_key p : string)
      (ps : list (string * param)) :
  keeps_patches (_get youtube api_key p ps).
Proof. intros w. rewrite _get_eq. reflexivity. Qed.

Create HintDb keeps.

#[local] Hint Resolve keeps_ret keeps_raise keeps_lift keeps_diverge
  keeps_get : keeps.

Section JobFacts.

Variable youtube : request -> answer body.
Variable api_key : string.
Variable hubspot : patch_request -> answer unit.
Variable date_parse : string -> option pydatetime.
Variable py_int_str : string -> option Z.
Variable py_int_float_str : string -> option Z.
Variable STALE_DAYS : Z.
Variable MIN_DURATION_MINUTES : Z.
Variable FETCH_COUNT : Z.

Lemma keeps_search (q : string) :
  keeps_patches (search_channel_id youtube api_key q).
Proof.
  unfold search_channel_id. apply keeps_bind; [auto with keeps|].
  intros b. destruct (items b); auto with keeps.
Qed.

Lemma keeps_resolve (identifier : string) :
  keeps_patches (resolve_channel_id youtube api_key identifier).
Proof.
  unfold resolve_channel_id.
  repeat match goal with
         | |- keeps_patches (if ?c then _ else _) => destruct c
         end; auto using keeps_search with keeps.
Qed.

Lemma keeps_fetch_pages (fuel : nat) (uploads_playlist : string)
      (max_results : Z) :
  forall videos token,
    keeps_patches (fetch_pages youtube api_key fuel uploads_playlist
                               max_results videos token).
Proof.
  induction fuel as [|fuel IH]; intros videos token; cbn [fetch_pages];
    destruct (Z.of_nat (length videos) <? max_results); auto with keeps.
  apply keeps_bind; [auto with keeps|]. intros data.
  apply keeps_bind; [auto with keeps|]. intros videos'.
  destruct (truthy (nextPageToken data)); auto with keeps.
Qed.

Lemma keeps_fetch_videos (fuel : nat) (channel_id : string) (max_results : Z) :
  keeps_patches (fetch_videos youtube api_key fuel channel_id max_results).
Proof.
  unfold fetch_videos.
  apply keeps_bind; [apply keeps_resolve|]. intros c.
  apply keeps_bind; [auto with keeps|]. intros ch.
  destruct (items ch) as [|it rest]; [auto with keeps|].
  apply keeps_bind; [auto with keeps|]. intros pl.
  apply keeps_bind; [apply keeps_fetch_pages|]. intros videos.
  destruct (truthy _); [|auto with keeps].
  apply keeps_bind; [auto with keeps|]. intros details.
  apply keeps_bind; auto with keeps.
Qed.

Lemma keeps_avg_views (fuel : nat) (now : Z) (channel_identifier : string)
      (min_minutes fetch_count : Z) :
  keeps_patches
    (avg_views_last_30d youtube api_key date_parse py_int_str
                        py_int_float_str fuel now channel_identifier
                        min_minutes fetch_count).
Proof.
  unfold avg_views_last_30d.
  apply keeps_bind; [apply keeps_fetch_videos|]. auto with keeps.
Qed.

Local Abbreviation avg_of fuel clock ch :=
  (avg_views_last_30d youtube api_key date_parse py_int_str py_int_float_str
                      fuel (at_cutoff clock) ch MIN_DURATION_MINUTES
                      FETCH_COUNT).

Local Abbreviation process :=
  (process_contact youtube api_key hubspot date_parse py_int_str
                   py_int_float_str MIN_DURATION_MINUTES FETCH_COUNT).

Local Abbreviation loop :=
  (main_loop youtube api_key hubspot date_parse py_int_str py_int_float_str
             STALE_DAYS MIN_DURATION_MINUTES FETCH_COUNT).

Lemma py_round_nearest (q : Q) :
  (Qabs (inject_Z (py_round q) - q) <= 1 # 2)%Q.
Proof.
  pose proof (Qfloor_le q) as Hlo. pose proof (Qlt_floor q) as Hhi.
  rewrite inject_Z_plus in Hhi. change (inject_Z 1) with 1%Q in Hhi.
  apply Qabs_Qle_condition. unfold py_round.
  destruct (Qcompare (q - inject_Z (Qfloor q)) (1 # 2)) eqn:Hc.
  - apply Qeq_alt in Hc.
    destruct (Z.even (Qfloor q)); rewrite ?inject_Z_plus;
      change (inject_Z 1) with 1%Q; split; lra.
  - apply Qlt_alt in Hc. split; lra.
  - apply Qgt_alt in Hc. rewrite inject_Z_plus.
    change (inject_Z 1) with 1%Q. split; lra.
Qed.

Lemma nearest_hundred (avg : Q) :
  (Qabs (inject_Z (py_round (avg / 100) * 100) - avg) <= 50)%Q.
Proof.
  pose proof (py_round_nearest (avg / 100)) as H.
  apply Qabs_Qle_condition in H. apply Qabs_Qle_condition.
  rewrite inject_Z_mult. change (inject_Z 100) with 100%Q.
  assert (Ha : (avg == 100 * (avg / 100))%Q) by field.
  set (x := (avg / 100)%Q) in *. clearbody x.
  split; lra.
Qed.

Lemma py_round_tie (q : Q) :
  (Qabs (inject_Z (py_round q) - q) == 1 # 2)%Q ->
  Z.even (py_round q) = true.
Proof.
  pose proof (Qfloor_le q) as Hlo. pose proof (Qlt_floor q) as Hhi.
  rewrite inject_Z_plus in Hhi. change (inject_Z 1) with 1%Q in Hhi.
  unfold py_round.
  destruct (Qcompare (q - inject_Z (Qfloor q)) (1 # 2)) eqn:Hc; intros Ht.
  - destruct (Z.even (Qfloor q)) eqn:He; [exact He|].
    replace (Qfloor q + 1) with (Z.succ (Qfloor q)) by lia.
    rewrite Z.even_succ, <- Z.negb_even, He. reflexivity.
  - exfalso. apply Qlt_alt in Hc.
    rewrite Qabs_neg in Ht by lra. lra.
  - exfalso. apply Qgt_alt in Hc. rewrite inject_Z_plus in Ht.
    change (inject_Z 1) with 1%Q in Ht.
    rewrite Qabs_pos in Ht by lra. lra.
Qed.

Lemma py_round_nonneg (q : Q) : (0 <= q)%Q -> 0 <= py_round q.
Proof.
  intros Hq. assert (Hf : 0 <= Qfloor q).
  { change 0 with (Qfloor 0). now apply Qfloor_resp_le. }
  unfold py_round.
  destruct (Qcompare _ _); [destruct (Z.even _)| |]; lia.
Qed.

(** The value [process_contact] writes for an average [avg]: the multiple of
    100 nearest to [avg], the even hundred when two are equally near. *)
Lemma rounded_hundred (avg : Q) :
  (py_round (avg / 100) * 100) mod 100 = 0 /\
  (Qabs (inject_Z (py_round (avg / 100) * 100) - avg) <= 50)%Q /\
  ((Qabs (inject_Z (py_round (avg / 100) * 100) - avg) == 50)%Q ->
   Z.even (py_round (avg / 100) * 100 / 100) = true) /\
  ((0 <= avg)%Q -> 0 <= py_round (avg / 100) * 100).
Proof.
  split; [apply Z.mod_mul; lia|]. split; [apply nearest_hundred|]. split.
  - intros Ht. rewrite Z.div_mul by lia. apply py_round_tie.
    assert (E : (inject_Z (py_round (avg / 100) * 100) - avg
                 == 100 * (inject_Z (py_round (avg / 100)) - avg / 100))%Q).
    { rewrite inject_Z_mult. change (inject_Z 100) with 100%Q. field. }
    rewrite E, Qabs_Qmult in Ht. change (Qabs 100) with 100%Q in Ht.
    set (x := Qabs (inject_Z (py_round (avg / 100)) - avg / 100)) in *.
    clearbody x. lra.
  - intros Ha. assert (Hq : (0 <= avg / 100)%Q).
    { apply Qle_shift_div_l; [reflexivity|]. lra. }
    pose proof (py_round_nonneg _ Hq). lia.
Qed.

Lemma py_int_digits_reads (s : string) (n : Z) :
  s <> EmptyString -> int_of_digits 0 s = Some n -> py_int_digits s = Ok n.
Proof.
  intros Hs Hn. unfold py_int_digits. destruct s; [congruence|].
  now rewrite Hn.
Qed.

(** The timestamp the job writes when the clock shows [now], in the years
    that print with four digits: the zero-padded year, month and day of the
    UTC day that holds [now], and midnight. *)
Lemma iso_today_is_todays_date (now : Z) :
  four_digit_year now = true ->
  exists (ys ms ds : string) (y m d : Z),
    iso_today_midnight_utc now
    = ys ++ "-" ++ ms ++ "-" ++ ds ++ "T00:00:00Z" /\
    String.length ys = 4%nat /\ py_int_digits ys = Ok y /\
    String.length ms = 2%nat /\ py_int_digits ms = Ok m /\
    String.length ds = 2%nat /\ py_int_digits ds = Ok d /\
    valid_date y m d = true /\
    days_from_civil y m d = now / 86400000000.
Proof.
  change 86400000000 with MICROS_PER_DAY.
  unfold four_digit_year. rewrite andb_true_iff, Z.leb_le, Z.ltb_lt.
  intros [Hlo Hhi].
  assert (Hday : days_from_civil 1000 1 1 <= now / MICROS_PER_DAY
                 < days_from_civil 10000 1 1).
  { unfold MICROS_PER_DAY in *. split.
    - apply Z.div_le_lower_bound; lia.
    - apply Z.div_lt_upper_bound; lia. }
  unfold iso_today_midnight_utc, strftime_midnight.
  cbn [wall datetime_now_utc].
  pose proof (civil_from_days_correct (now / MICROS_PER_DAY)) as Hc.
  destruct (civil_from_days (now / MICROS_PER_DAY)) as [[y m] d].
  destruct Hc as [Hv Hd].
  pose proof (civil_year_bounds y m d _ Hv Hd Hday) as Hy.
  assert (Hmd : 1 <= m <= 12 /\ 1 <= d <= 31).
  { pose proof Hv as Hv'. unfold valid_date in Hv'.
    rewrite !andb_true_iff, !Z.leb_le in Hv'.
    destruct Hv' as [[[Hm1 Hm2] Hd1] Hd2].
    pose proof (days_in_month_table y) as T. pose proof (leap_day_range y).
    decompose [and] T.
    assert (Hcases : m = 1 \/ m = 2 \/ m = 3 \/ m = 4 \/ m = 5 \/ m = 6 \/
                     m = 7 \/ m = 8 \/ m = 9 \/ m = 10 \/ m = 11 \/ m = 12)
      by lia.
    repeat (destruct Hcases as [Hm|Hcases]); try rename Hcases into Hm;
      subst m; lia. }
  destruct (pad4_reads y ltac:(lia)) as [Ry Ly].
  destruct (pad2_reads m ltac:(lia)) as [Rm Lm].
  destruct (pad2_reads d ltac:(lia)) as [Rd Ld].
  exists (pad4 y), (pad2 m), (pad2 d), y, m, d.
  repeat split; try assumption;
    apply py_int_digits_reads; try assumption; discriminate.
Qed.

(** C5. When the computation for a contact succeeds with [avg] (an average
    of views, not negative and below 10^15, at a clock reading in the years
    1000 to 9999), [process_contact] returns normally having sent exactly
    one PATCH, to that contact's URL, with two properties.  The
    average-views property is a decimal numeral without leading zeros; the
    number it denotes is a multiple of 100 within 50 of [avg], and the even
    hundred when [avg] lies midway between two: the nearest hundred, as
    [round] picks it.  The last-updated property is the zero-padded year,
    month and day of the UTC day that holds the clock reading (the clock
    counts microseconds, 86400000000 to the day), followed by [T00:00:00Z].
    An average of 200.0, as the views 100, 150, 200, 50 and
    500 give, is sent as ["200"]. *)
Theorem C5_success_sends_one_patch
        (fuel : nat) (clock : readings) (c : contact) (ch : string)
        (avg : Q) (w w1 : world) :
  prop_get PROP_CHANNEL_IDENTIFIER c = Some ch ->
  ch <> EmptyString ->
  avg_of fuel clock ch w = (Ok avg, w1) ->
  average_in_range avg = true ->
  four_digit_year (at_patch clock) = true ->
  (exists (w2 : world) (value_text year_text month_text day_text : string)
          (n y m d : Z),
      process fuel clock c w = (Ok tt, w2) /\
      yt_requests w2 = yt_requests w1 /\
      hs_patches w2
      = (hs_patches w
         ++ [{| patch_url :=
                  ("https://api.hubapi.com/crm/v3/objects/contacts/"
                   ++ contact_id c)%string;
                patch_properties :=
                  [("youtube_video_average_views", value_text);
                   ("last_updated_youtube_video_average_views",
                    (year_text ++ "-" ++ month_text ++ "-" ++ day_text
                     ++ "T00:00:00Z")%string)] |}])%list /\
      value_text = format_0f (py_round (avg / 100) * 100) /\
      py_int_digits value_text = Ok n /\
      (n = 0 \/ prefix "0" value_text = false) /\
      n mod 100 = 0 /\
      (Qabs (inject_Z n - avg) <= 50)%Q /\
      ((Qabs (inject_Z n - avg) == 50)%Q -> Z.even (n / 100) = true) /\
      year_text ++ "-" ++ month_text ++ "-" ++ day_text ++ "T00:00:00Z"
      = iso_today_midnight_utc (at_patch clock) /\
      String.length year_text = 4%nat /\ py_int_digits year_text = Ok y /\
      String.length month_text = 2%nat /\ py_int_digits month_text = Ok m /\
      String.length day_text = 2%nat /\ py_int_digits day_text = Ok d /\
      valid_date y m d = true /\
      days_from_civil y m d = at_patch clock / 86400000000) /\
  mean_or_zero [100; 150; 200; 50; 500] = 200%Q /\
  format_0f (py_round (200 / 100) * 100) = "200".
Proof.
  intros Hch Hne Havg Hrange Hyear.
  split; [|split; reflexivity].
  unfold average_in_range in Hrange.
  apply andb_true_iff in Hrange as [Hpos _]. apply Qle_bool_iff in Hpos.
  destruct (rounded_hundred avg) as (Hmod & Hnear & Htie & Hnn).
  specialize (Hnn Hpos).
  destruct (format_0f_reads _ Hnn) as (Hne' & Hread & Hcanon).
  destruct (iso_today_is_todays_date _ Hyear)
    as (ys & ms & ds & y & m & d & Hiso & Ly & Ry & Lm & Rm & Ld & Rd
        & Hv & Hd).
  assert (Hrun : exists w2,
             process fuel clock c w = (Ok tt, w2) /\
             hs_patches w2
             = (hs_patches w ++ [contact_patch c avg (at_patch clock)])%list /\
             yt_requests w2 = yt_requests w1).
  { pose proof (keeps_avg_views fuel (at_cutoff clock) ch
                  MIN_DURATION_MINUTES FETCH_COUNT w) as Hk.
    rewrite Havg in Hk. cbn [snd] in Hk.
    unfold process_contact. rewrite Hch.
    destruct ch as [|a r]; [congruence|].
    unfold bind at 1, try_except at 1, bind at 1.
    rewrite Havg. cbn [ret].
    unfold try_except, update_contact_properties, update_props.
    fold (contact_patch c avg (at_patch clock)).
    destruct (hubspot (contact_patch c avg (at_patch clock)));
      eexists; (split; [reflexivity|]); cbn [hs_patches yt_requests];
      now rewrite Hk. }
  destruct Hrun as (w2 & Hrun & Hpatch & Hreq).
  exists w2, (format_0f (py_round (avg / 100) * 100)), ys, ms, ds,
         (py_round (avg / 100) * 100), y, m, d.
  split; [exact Hrun|]. split; [exact Hreq|]. split.
  { rewrite Hpatch. unfold contact_patch. rewrite Hiso. reflexivity. }
  split; [reflexivity|].
  split; [now apply py_int_digits_reads|].
  split; [exact Hcanon|].
  split; [exact Hmod|]. split; [exact Hnear|]. split; [exact Htie|].
  split; [now rewrite Hiso|].
  repeat split; assumption.
Qed.

(** C7. When the computation for a contact raises, whatever the exception,
    [process_contact] returns normally, the list of PATCHes is what it was
    before the call (neither property is written), and the loop of [main]
    goes on with the remaining contacts. *)
Theorem C7_failure_is_contained
        (fuel : nat) (clock : readings) (c : contact) (ch : string)
        (e : exn) (w w1 : world) :
  prop_get PROP_CHANNEL_IDENTIFIER c = Some ch ->
  ch <> EmptyString ->
  avg_of fuel clock ch w = (Raise e, w1) ->
  process fuel clock c w = (Ok tt, w1) /\
  hs_patches w1 = hs_patches w /\
  (forall rest,
      is_stale_or_missing date_parse STALE_DAYS (at_staleness clock)
                          (prop_get PROP_LAST_UPDATED c) = Ok true ->
      loop fuel ((c, clock) :: rest) w = loop fuel rest w1).
Proof.
  intros Hch Hne Havg.
  assert (Hp : process fuel clock c w = (Ok tt, w1)).
  { unfold process_contact. rewrite Hch.
    destruct ch as [|a r]; [congruence|].
    unfold bind at 1, try_except at 1, bind at 1.
    rewrite Havg. reflexivity. }
  split; [exact Hp|]. split.
  - pose proof (keeps_avg_views fuel (at_cutoff clock) ch
                  MIN_DURATION_MINUTES FETCH_COUNT w) as Hk.
    now rewrite Havg in Hk.
  - intros rest Hs. cbn [main_loop].
    unfold bind at 1, lift. rewrite Hs. unfold bind at 1.
    now rewrite Hp.
Qed.

End JobFacts.

(** ** Pagination *)

Lemma log_requests_nil (w : world) : log_requests [] w = w.
Proof. destruct w. unfold log_requests. cbn. now rewrite app_nil_r. Qed.

Lemma log_requests_cons (r : request) (rs : list request) (w : world) :
  log_requests rs (log_request r w) = log_requests (r :: rs) w.
Proof.
  unfold log_requests, log_request. cbn. now rewrite <- app_assoc.
Qed.

Lemma firstn_extend {A : Type} (l : list A) (o k : nat) :
  (firstn o l ++ firstn k (skipn o l))%list = firstn (o + k) l.
Proof.
  revert l. induction o as [|o IH]; intros l; [reflexivity|].
  destruct l as [|x l]; cbn.
  - now rewrite firstn_nil.
  - now rewrite IH.
Qed.

Lemma NoDup_firstn {A : Type} (l : list A) (n : nat) :
  NoDup l -> NoDup (firstn n l).
Proof.
  intros H. rewrite <- (firstn_skipn n l) in H.
  now apply NoDup_app_remove_r in H.
Qed.

Lemma pages_asked_sizes (fuel : nat) (m n : Z) :
  forall o,
    Forall (fun ok => snd ok = Z.min 50 (m - Z.of_nat (fst ok)))
           (pages_asked fuel m n o).
Proof.
  induction fuel as [|fuel IH]; intros o; cbn [pages_asked]; [constructor|].
  destruct (Z.of_nat o <? m); [|constructor].
  constructor; [reflexivity|].
  destruct (_ <? n); [apply IH|constructor].
Qed.

Lemma pages_asked_nonempty (fuel : nat) (m n : Z) (o : nat) :
  pages_asked (S fuel) m n o <> [] <-> Z.of_nat o < m.
Proof.
  cbn [pages_asked]. destruct (Z.ltb_spec (Z.of_nat o) m); split;
    intros; try congruence; try lia.
Qed.

(** More than one page is asked for exactly when both the request and the
    playlist exceed a page. *)
Lemma pages_asked_several (fuel : nat) (m n : Z) :
  (Z.to_nat n < fuel)%nat -> 0 <= n ->
  (1 < length (pages_asked fuel m n 0))%nat <-> 50 < m /\ 50 < n.
Proof.
  intros Hf Hn. destruct fuel as [|fuel]; [lia|].
  cbn [pages_asked]. change (Z.of_nat 0) with 0.
  destruct (Z.ltb_spec 0 m) as [Hm|Hm]; [|cbn; lia].
  rewrite Z.sub_0_r, Z.add_0_l, Nat.add_0_l.
  destruct (Z.ltb_spec (Z.min 50 m) n) as [Hk|Hk]; [|cbn; lia].
  destruct fuel as [|fuel]; [lia|].
  pose proof (pages_asked_nonempty fuel m n (Z.to_nat (Z.min 50 m))) as Hne.
  destruct (pages_asked (S fuel) m n (Z.to_nat (Z.min 50 m))) as [|x l].
  - cbn. split; [lia|]. intros [H1 H2].
    exfalso. apply (proj2 Hne); [lia|reflexivity].
  - cbn [length]. split; [|lia]. intros _.
    assert (Z.of_nat (Z.to_nat (Z.min 50 m)) < m)
      by (apply Hne; discriminate).
    lia.
Qed.

Section Pagination.

Variable youtube : request -> answer body.
Variable api_key : string.
Variable token : nat -> string.
Variable uploads : list upload.
Variable uploads_playlist : string.

Local Abbreviation N := (Z.of_nat (length uploads)).

(** Tokens are non-empty strings. *)
Hypothesis token_nonempty : forall o, token o <> EmptyString.

(** The upstream honours the page size and its pages follow one another. *)
Hypothesis pages_served :
  forall (o : nat) (k : Z),
    0 < k <= 50 ->
    youtube (page_request api_key uploads_playlist k (page_token token o))
    = Answer (playlist_page token uploads o k).

Lemma append_basic_uploads (us : list upload) :
  forall vs,
    append_basic (map upload_item us) vs
    = Ok (vs ++ map basic_video us)%list.
Proof.
  induction us as [|u us IH]; intros vs; cbn.
  - now rewrite app_nil_r.
  - rewrite IH, <- app_assoc. reflexivity.
Qed.

Lemma page_token_truthy (o : nat) : truthy (Some (token o)) = true.
Proof.
  pose proof (token_nonempty o). cbn. destruct (token o); congruence.
Qed.

Lemma fetch_pages_spec (m : Z) (fuel : nat) :
  forall (o : nat) (w : world),
    (o <= length uploads)%nat ->
    (length uploads - o < fuel)%nat ->
    fetch_pages youtube api_key fuel uploads_playlist m
                (map basic_video (firstn o uploads)) (page_token token o) w
    = (Ok (map basic_video (firstn (final_count m N o) uploads)),
       log_requests
         (map (page_request_at api_key uploads_playlist token)
              (pages_asked fuel m N o)) w).
Proof.
  induction fuel as [|fuel IH]; intros o w Ho Hf; [lia|].
  cbn [fetch_pages pages_asked].
  rewrite length_map, firstn_length_le by exact Ho.
  unfold final_count in *.
  destruct (Z.ltb_spec (Z.of_nat o) m) as [Hlt|Hge].
  - set (k := Z.min 50 (m - Z.of_nat o)).
    assert (Hk : 0 < k <= 50) by (unfold k; lia).
    assert (Hkdef : k = Z.min 50 (m - Z.of_nat o)) by reflexivity.
    clearbody k.
    unfold bind at 1. rewrite _get_eq.
    replace (with_key api_key "playlistItems"
               (page_params uploads_playlist m
                  (map basic_video (firstn o uploads)) (page_token token o)))
      with (page_request api_key uploads_playlist k (page_token token o)).
    2:{ unfold page_request, page_params.
        rewrite length_map, firstn_length_le by exact Ho.
        now rewrite Hkdef. }
    rewrite (pages_served o k Hk). cbn [get_outcome].
    unfold bind at 1, lift at 1. cbn [items playlist_page].
    rewrite append_basic_uploads, <- map_app, firstn_extend.
    unfold playlist_page. cbn [nextPageToken].
    destruct (Z.ltb_spec (Z.of_nat o + k) (Z.of_nat (length uploads)))
      as [Hmore|Hlast].
    + rewrite page_token_truthy.
      replace (Some (token (o + Z.to_nat k)))
        with (page_token token (o + Z.to_nat k))
        by (destruct (o + Z.to_nat k)%nat eqn:E; [lia|reflexivity]).
      rewrite IH by lia. cbn [map]. rewrite log_requests_cons.
      f_equal. f_equal. f_equal. f_equal. lia.
    + cbn [truthy map ret]. rewrite <- log_requests_cons, log_requests_nil.
      f_equal. f_equal.
      rewrite !firstn_all2 by lia. reflexivity.
  - cbn [ret map]. rewrite log_requests_nil.
    replace (Z.to_nat (Z.max (Z.of_nat o) (Z.min m N))) with o by lia.
    reflexivity.
Qed.

Lemma id_merge_details (sm : list (string * item)) (vs : list video) :
  map id (map (merge_details sm) vs) = map id vs.
Proof. rewrite map_map. now apply map_ext. Qed.

(** C4, amended.  For a channel whose uploads playlist holds [N] items, with
    pairwise distinct ids, served in consecutive pages that honour the
    requested size, [fetch_videos] with [max_results = m] asks for pages of
    size min(50, remaining need), one after the other; it asks for more than
    one page exactly when both [m] and [N] exceed 50; and it returns exactly
    min(m, N) records (none when [m] is not positive), the first ones of the
    playlist, with pairwise distinct ids. *)
Theorem C4_fetch_videos_pagination
        (fuel : nat) (channel c : string) (m : Z) (w w1 : world)
        (chb : body) (it : item) (rest : list item) :
  NoDup (map up_id uploads) ->
  resolve_channel_id youtube api_key channel w = (Ok c, w1) ->
  youtube (channel_uploads_request api_key c) = Answer chb ->
  items chb = it :: rest ->
  get2 (it_contentDetails it) cd_uploads = Some uploads_playlist ->
  (forall ids, exists d sm,
        youtube (video_details_request api_key ids) = Answer d /\
        build_stats_map (items d) = Ok sm) ->
  (length uploads < fuel)%nat ->
  exists out w2 tail,
    fetch_videos youtube api_key fuel channel m w = (Ok out, w2) /\
    length out = Z.to_nat (Z.min m N) /\
    NoDup (map id out) /\
    map id out = map up_id (firstn (Z.to_nat (Z.min m N)) uploads) /\
    yt_requests w2
    = (yt_requests w1
       ++ channel_uploads_request api_key c
       :: map (page_request_at api_key uploads_playlist token)
              (pages_asked fuel m N 0)
       ++ tail)%list /\
    filter is_page_request tail = [] /\
    Forall (fun ok => snd ok = Z.min 50 (m - Z.of_nat (fst ok)))
           (pages_asked fuel m N 0) /\
    ((1 < length (pages_asked fuel m N 0))%nat <-> 50 < m /\ 50 < N).
Proof.
  intros Hnd Hr Hch Hit Hup Hdet Hfuel.
  set (n := Z.to_nat (Z.min m N)).
  assert (Hfinal : final_count m N 0 = n)
    by (unfold final_count, n; lia).
  assert (Hlen : length (map basic_video (firstn n uploads)) = n)
    by (rewrite length_map; apply firstn_length_le; unfold n; lia).
  pose proof (fetch_pages_spec m fuel 0
                (log_request (channel_uploads_request api_key c) w1)
                (Nat.le_0_l _) ltac:(lia)) as Hpages.
  cbn [firstn map page_token] in Hpages. rewrite Hfinal in Hpages.
  set (videos := map basic_video (firstn n uploads)) in *.
  assert (Hids : map id videos = map up_id (firstn n uploads))
    by (unfold videos; rewrite map_map; now apply map_ext).
  assert (Hnodup : NoDup (map id videos)).
  { rewrite Hids, <- firstn_map. now apply NoDup_firstn. }
  unfold fetch_videos, bind at 1. rewrite Hr.
  unfold bind at 1. rewrite _get_eq.
  fold (channel_uploads_request api_key c). rewrite Hch. cbn [get_outcome].
  rewrite Hit.
  unfold bind at 1, lift at 1.
  destruct (it_contentDetails it) as [cd|]; [|discriminate Hup].
  cbn [get2] in Hup. cbn [require rbind]. rewrite Hup. cbn [require].
  unfold bind at 1. rewrite Hpages.
  destruct (truthy (Some (String.concat "," (map id videos)))) eqn:Hty.
  - destruct (Hdet (String.concat "," (map id videos))) as (d & sm & Hd & Hsm).
    unfold bind at 1. rewrite _get_eq.
    fold (video_details_request api_key (String.concat "," (map id videos))).
    rewrite Hd. cbn [get_outcome].
    unfold bind at 1, lift at 1. rewrite Hsm. cbn [ret].
    eexists _, _, [_]. split; [reflexivity|].
    rewrite id_merge_details, length_map.
    split; [exact Hlen|]. split; [exact Hnodup|]. split; [exact Hids|].
    split.
    { cbn [log_request log_requests yt_requests].
      rewrite <- !app_assoc. reflexivity. }
    split; [reflexivity|]. split; [apply pages_asked_sizes|].
    apply pages_asked_several; lia.
  - cbn [ret]. eexists _, _, []. split; [reflexivity|].
    split; [exact Hlen|].
    split; [exact Hnodup|]. split; [exact Hids|].
    split.
    { cbn [log_request log_requests yt_requests].
      rewrite <- !app_assoc, app_nil_r. reflexivity. }
    split; [reflexivity|]. split; [apply pages_asked_sizes|].
    apply pages_asked_several; lia.
Qed.

End Pagination.

(** ** Instances on the sample data *)

Lemma sample_token_length (o : nat) :
  String.length (sample_token o) = S o.
Proof. induction o as [|o IH]; cbn; [reflexivity|now rewrite IH]. Qed.

Lemma sample_token_nonempty (o : nat) : sample_token o <> EmptyString.
Proof. destruct o; discriminate. Qed.

(** The sample server is a paged playlist in the sense of the pagination
    theorem. *)
Lemma sample_youtube_pages (api_key pl : string) (uploads : list upload)
      (stats : list item) (o : nat) (k : Z) :
  0 < k <= 50 ->
  sample_youtube pl uploads stats
                 (page_request api_key pl k (page_token sample_token o))
  = Answer (playlist_page sample_token uploads o k).
Proof.
  intros _. unfold sample_youtube, page_request, with_key.
  cbn [path params]. change (String.eqb "playlistItems" "channels") with false.
  change (String.eqb "playlistItems" "playlistItems") with true.
  cbv iota. destruct o as [|o].
  - reflexivity.
  - cbn [page_token sample_token]. unfold param_int, param_str.
    cbn [app find fst snd]. simpl String.eqb. cbv iota.
    unfold sample_token_offset. cbn [String.length].
    now rewrite sample_token_length, Nat.sub_1_r.
Qed.

Lemma C3_avg_views_last_30d_witness :
  exists q,
    avg_views_last_30d five_youtube "k" sample_parse sample_int
                       (fun _ => None) 6 (at_cutoff sample_clock)
                       SAMPLE_CHANNEL 3 50 empty_world
    = (Ok q, five_world) /\
    (q == arithmetic_mean
            (kept_views sample_parse sample_int (fun _ => None)
                        (at_cutoff sample_clock) 3 five_videos))%Q /\
    (kept_views sample_parse sample_int (fun _ => None)
                (at_cutoff sample_clock) 3 five_videos = [] -> q = 0%Q).
Proof.
  apply C3_avg_views_last_30d.
  - vm_compute. reflexivity.
  - unfold five_videos.
    repeat (constructor;
            [intros pub dt H1 H2; inversion H1; subst pub;
             vm_compute in H2; inversion H2; reflexivity|]).
    constructor.
  - unfold five_videos. repeat (constructor; [reflexivity|]). constructor.
  - unfold five_videos.
    repeat (constructor; [vm_compute; reflexivity|]). constructor.
Defined.

(** C4, as stated, fails: a request for 60 items exceeds one page, yet on a
    playlist of one item the loop stops after the first page, which carries
    no continuation token; a single page request is sent. *)
Lemma C4_large_request_single_page :
  50 < 60 /\
  fst (fetch_videos one_upload_youtube "k" 5 SAMPLE_CHANNEL 60 empty_world)
  = Ok [{| id := "v1"; title := "one";
           publishedAt := Some "2024-01-20T00:00:00Z";
           merged := Some {| duration := Some "PT10M";
                             viewCount := Some (JStr "100");
                             likeCount := None; commentCount := None;
                             thumbnails := None |} |}] /\
  filter is_page_request
         (yt_requests
            (snd (fetch_videos one_upload_youtube "k" 5 SAMPLE_CHANNEL 60
                               empty_world)))
  = [page_request "k" "UUHnyfMqiRRG1u-2MsSQLbXA" 50 None].
Proof.
  split; [reflexivity|]. split; vm_compute; reflexivity.
Qed.

Lemma C4_fetch_videos_pagination_witness :
  exists out w2,
    fetch_videos five_youtube "k" 6 SAMPLE_CHANNEL 3 empty_world
    = (Ok out, w2) /\
    length out = 3%nat /\
    NoDup (map id out).
Proof.
  destruct (C4_fetch_videos_pagination
              five_youtube "k" sample_token five_uploads
              "UUHnyfMqiRRG1u-2MsSQLbXA"
              sample_token_nonempty
              (sample_youtube_pages "k" "UUHnyfMqiRRG1u-2MsSQLbXA"
                                    five_uploads _)
              6%nat SAMPLE_CHANNEL SAMPLE_CHANNEL 3 empty_world empty_world
              {| items := [channel_item "UUHnyfMqiRRG1u-2MsSQLbXA"];
                 nextPageToken := None |}
              (channel_item "UUHnyfMqiRRG1u-2MsSQLbXA") [])
    as (out & w2 & tail & Hrun & Hlen & Hnd & _).
  - vm_compute.
    repeat (constructor; [simpl; intuition discriminate|]). constructor.
  - reflexivity.
  - reflexivity.
  - reflexivity.
  - reflexivity.
  - intros ids. eexists. eexists. split; reflexivity.
  - vm_compute. lia.
  - exists out, w2. split; [exact Hrun|]. split; [exact Hlen|exact Hnd].
Defined.

Lemma C5_success_sends_one_patch_witness :
  exists w2,
    process_contact five_youtube "k" (fun _ => Answer tt) sample_parse
                    sample_int (fun _ => None) 3 50 6 sample_clock
                    sample_contact empty_world
    = (Ok tt, w2) /\
    hs_patches w2
    = [{| patch_url := "https://api.hubapi.com/crm/v3/objects/contacts/501";
          patch_properties :=
            [("youtube_video_average_views", "200");
             ("last_updated_youtube_video_average_views",
              "2024-01-31T00:00:00Z")] |}].
Proof.
  destruct (proj1 (C5_success_sends_one_patch
                     five_youtube "k" (fun _ => Answer tt) sample_parse
                     sample_int (fun _ => None) 3 50 6%nat sample_clock
                     sample_contact SAMPLE_CHANNEL 200%Q empty_world
                     five_world eq_refl ltac:(discriminate)
                     ltac:(vm_compute; reflexivity) eq_refl eq_refl))
    as (w2 & vt & ys & ms & ds & n & y & m & d & Hrun & _ & Hpatch & Hvt
        & _ & _ & _ & _ & _ & Hiso & _).
  exists w2. split; [exact Hrun|].
  rewrite Hpatch, Hiso, Hvt. vm_compute. reflexivity.
Defined.

Lemma C7_failure_is_contained_witness :
  process_contact quota_youtube "k" (fun _ => Answer tt) sample_parse
                  sample_int (fun _ => None) 3 50 6 sample_clock
                  sample_contact empty_world
  = (Ok tt,
     log_request (channel_uploads_request "k" SAMPLE_CHANNEL) empty_world) /\
  hs_patches
    (log_request (channel_uploads_request "k" SAMPLE_CHANNEL) empty_world)
  = [].
Proof.
  destruct (C7_failure_is_contained
              quota_youtube "k" (fun _ => Answer tt) sample_parse
              sample_int (fun _ => None) 30 3 50 6%nat sample_clock
              sample_contact SAMPLE_CHANNEL
              (HTTPError 403 "quotaExceeded") empty_world
              (log_request (channel_uploads_request "k" SAMPLE_CHANNEL)
                           empty_world)
              eq_refl ltac:(discriminate) eq_refl)
    as (Hrun & Hpatch & _).
  split; [exact Hrun|exact Hpatch].
Defined.


(** * Further properties *)

(** ** The duration parser on well-formed text *)

Lemma string_app_assoc (a b c : string) : (a ++ b) ++ c = a ++ (b ++ c).
Proof. induction a as [|x a IH]; cbn; [reflexivity|now rewrite IH]. Qed.

Lemma string_app_nil_r (a : string) : a ++ EmptyString = a.
Proof. induction a as [|x a IH]; cbn; [reflexivity|now rewrite IH]. Qed.

Lemma span_digits_run (ds : string) (c : ascii) (r : string) :
  all_digits ds = true -> is_digit c = false ->
  span_digits (ds ++ String c r) = (ds, String c r).
Proof.
  intros Hd Hc. induction ds as [|x ds IH]; cbn.
  - now rewrite Hc.
  - cbn in Hd. apply andb_true_iff in Hd as [Hx Hd].
    now rewrite Hx, (IH Hd).
Qed.

Lemma span_digits_all (ds : string) :
  all_digits ds = true -> span_digits ds = (ds, EmptyString).
Proof.
  intros Hd. induction ds as [|x ds IH]; cbn; [reflexivity|].
  cbn in Hd. apply andb_true_iff in Hd as [Hx Hd].
  now rewrite Hx, (IH Hd).
Qed.

(** A digit run followed by the unit letter is taken as the group. *)
Lemma group_hit (u : ascii) (ds r : string) :
  is_digit_run ds = true -> is_digit u = false ->
  group u (ds ++ String u r) = (Some ds, r).
Proof.
  intros Hr Hu. unfold group.
  destruct ds as [|x ds]; [discriminate|]. cbn [is_digit_run] in Hr.
  rewrite (span_digits_run _ u r Hr Hu).
  now rewrite Ascii.eqb_refl.
Qed.

(** A digit run followed by another letter leaves the group out. *)
Lemma group_miss (u c : ascii) (ds r : string) :
  all_digits ds = true -> is_digit c = false -> Ascii.eqb c u = false ->
  group u (ds ++ String c r) = (None, ds ++ String c r).
Proof.
  intros Hd Hc Hne. unfold group.
  rewrite (span_digits_run _ c r Hd Hc).
  destruct ds; [reflexivity|]. now rewrite Hne.
Qed.

Lemma group_miss_nil (u : ascii) : group u EmptyString = (None, EmptyString).
Proof. reflexivity. Qed.

Lemma digit_run_all (ds : string) :
  is_digit_run ds = true -> all_digits ds = true.
Proof. destruct ds; [discriminate|auto]. Qed.

Lemma int_or_zero_part (o : option string) :
  part_ok o = true -> int_or_zero o = Ok (part_value o).
Proof.
  destruct o as [ds|]; cbn [part_ok part_value int_or_zero]; [|reflexivity].
  intros Hr. destruct ds as [|x ds]; [discriminate|].
  unfold py_int_digits, run_value. cbn [is_digit_run] in Hr.
  destruct (int_of_digits_total _ Hr 0) as [n Hn]. now rewrite Hn.
Qed.

Lemma prefix_PT (x : string) : prefix "PT" (String "P" (String "T" x)) = true.
Proof. destruct x; reflexivity. Qed.

(** The three groups of a well-formed text are its three components, and
    nothing is left over. *)
Lemma re_match_rest_text (h m s : option string) :
  part_ok h = true -> part_ok m = true -> part_ok s = true ->
  re_match_rest (duration_text h m s) = Some (h, m, s, EmptyString).
Proof.
  intros Hh Hm Hs. unfold re_match_rest, duration_text.
  cbn [append]. rewrite prefix_PT. cbn [drop2].
  destruct h as [dh|], m as [dm|], s as [ds|];
    cbn [duration_part part_ok append] in *;
    rewrite ?string_app_assoc, ?string_app_nil_r; cbn [append];
    repeat first
      [ rewrite group_hit by (assumption || reflexivity)
      | rewrite group_miss by (auto using digit_run_all || reflexivity)
      | rewrite group_miss_nil ];
    try reflexivity.
  all: destruct dh, dm, ds; try discriminate.
Qed.

(** X1. A duration text made of the marker and any of the three components,
    in order, each a digit run with its unit letter, is well formed and is
    parsed to hours * 60 + minutes + seconds / 60, absent components counting
    as zero. *)
Theorem duration_text_parsed (h m s : option string) :
  fits_float (Some (duration_text h m s)) = true ->
  part_ok h = true -> part_ok m = true -> part_ok s = true ->
  well_formed_duration (duration_text h m s) = true /\
  exists q,
    iso8601_duration_to_minutes (Some (duration_text h m s)) = Ok q /\
    (q == inject_Z (part_value h * 60 + part_value m)
          + inject_Z (part_value s) / 60)%Q.
Proof.
  intros _ Hh Hm Hs.
  pose proof (re_match_rest_text h m s Hh Hm Hs) as Hre.
  split.
  - unfold well_formed_duration. now rewrite Hre.
  - unfold iso8601_duration_to_minutes, re_match.
    assert (Ht : (if truthy (Some (duration_text h m s))
                  then duration_text h m s else "") = duration_text h m s)
      by reflexivity.
    rewrite Ht, Hre.
    rewrite (int_or_zero_part h Hh), (int_or_zero_part m Hm),
      (int_or_zero_part s Hs).
    cbn [rbind]. eexists. split; [reflexivity|]. apply Qred_correct.
Qed.

Lemma duration_text_parsed_witness :
  exists q,
    iso8601_duration_to_minutes (Some "PT12H30S") = Ok q /\
    (q == inject_Z (12 * 60 + 0) + inject_Z 30 / 60)%Q.
Proof.
  exact (proj2 (duration_text_parsed (Some "12") None (Some "30")
                                     eq_refl eq_refl eq_refl eq_refl)).
Defined.

Lemma digit_value_nonneg (c : ascii) : is_digit c = true -> 0 <= digit_value c.
Proof.
  unfold is_digit, digit_value. intros H.
  apply andb_true_iff in H as [H _]. apply Nat.leb_le in H. lia.
Qed.

Lemma int_of_digits_nonneg (s : string) :
  forall acc n, 0 <= acc -> int_of_digits acc s = Some n -> 0 <= n.
Proof.
  induction s as [|c r IH]; cbn; intros acc n Ha H.
  - inversion H; subst; assumption.
  - destruct (is_digit c) eqn:Hc; [|discriminate].
    apply (IH (10 * acc + digit_value c) n); [|exact H].
    pose proof (digit_value_nonneg c Hc). lia.
Qed.

Lemma int_or_zero_nonneg (g : option string) (n : Z) :
  int_or_zero g = Ok n -> 0 <= n.
Proof.
  destruct g as [[|c r]|]; cbn [int_or_zero]; intros H;
    [inversion H; lia| |inversion H; lia].
  unfold py_int_digits in H.
  destruct (int_of_digits 0 (String c r)) as [k|] eqn:Hk; [|discriminate].
  inversion H; subst. apply (int_of_digits_nonneg _ _ _ (Z.le_refl 0) Hk).
Qed.

(** X2. Whatever the input, well formed or not, the parser returns a whole,
    non-negative number of seconds expressed in minutes: the result is
    n / 60 for some natural n, so it is never negative. *)
Theorem duration_whole_seconds (dur : option string) :
  fits_float dur = true ->
  exists (n : Z) (q : Q),
    0 <= n /\
    iso8601_duration_to_minutes dur = Ok q /\
    (q == inject_Z n / 60)%Q /\ (0 <= q)%Q.
Proof.
  intros _.
  assert (Hshape :
    exists hh mm ss, 0 <= hh /\ 0 <= mm /\ 0 <= ss /\
      iso8601_duration_to_minutes dur
      = Ok (Qred (float_of_int (hh * 60 + mm) + float_of_int ss / 60))).
  { unfold iso8601_duration_to_minutes.
    destruct (re_match _) as [[[h m] s]|] eqn:Hre.
    - unfold re_match, re_match_rest in Hre.
      destruct (prefix "PT" _); [|discriminate].
      set (text := drop2 _) in Hre.
      pose proof (int_or_zero_group "H" text) as [hh Hh].
      destruct (group "H" text) as [gh r1]; cbn [fst] in Hh.
      pose proof (int_or_zero_group "M" r1) as [mm Hm].
      destruct (group "M" r1) as [gm r2]; cbn [fst] in Hm.
      pose proof (int_or_zero_group "S" r2) as [ss Hs].
      destruct (group "S" r2) as [gs r3]; cbn [fst] in Hs.
      inversion Hre; subst. rewrite Hh, Hm, Hs. cbn [rbind].
      exists hh, mm, ss.
      repeat split; eauto using int_or_zero_nonneg.
    - exists 0, 0, 0. repeat split; lia. }
  destruct Hshape as (hh & mm & ss & Hh & Hm & Hs & Heq).
  exists ((hh * 60 + mm) * 60 + ss). eexists.
  split; [lia|]. split; [exact Heq|].
  assert (Hq : (Qred (float_of_int (hh * 60 + mm) + float_of_int ss / 60)
                == inject_Z ((hh * 60 + mm) * 60 + ss) / 60)%Q).
  { rewrite Qred_correct. unfold float_of_int.
    rewrite (inject_Z_plus ((hh * 60 + mm) * 60)), (inject_Z_mult _ 60).
    change (inject_Z 60) with 60%Q. field. }
  split; [exact Hq|]. rewrite Hq.
  apply Qle_shift_div_l; [reflexivity|].
  rewrite Qmult_0_l. change 0%Q with (inject_Z 0). rewrite <- Zle_Qle. lia.
Qed.

Lemma duration_whole_seconds_witness :
  exists (n : Z) (q : Q),
    0 <= n /\
    iso8601_duration_to_minutes (Some "PT5Mxyz") = Ok q /\
    (q == inject_Z n / 60)%Q /\ (0 <= q)%Q.
Proof. exact (duration_whole_seconds (Some "PT5Mxyz") eq_refl). Defined.


(** ** More on staleness *)

Section StalenessMore.

Variable date_parse : string -> option pydatetime.
Variable STALE_DAYS : Z.

Lemma stale_returns (now : Z) (iso_value : option string) :
  exists b, is_stale_or_missing date_parse STALE_DAYS now iso_value = Ok b.
Proof.
  destruct iso_value as [[|c r]|]; try (now exists true).
  destruct (date_parse (String c r)) as [dt|] eqn:Hp.
  - eexists. apply (stale_parsed date_parse STALE_DAYS now _ dt);
      [discriminate|exact Hp].
  - exists true. unfold is_stale_or_missing. cbn [truthy negb].
    now rewrite Hp.
Qed.

(** X3. With a cutoff in the range of datetimes, the staleness test never
    raises, whatever the parser returns: a naive result is given the UTC zone
    before it meets the offset-aware cutoff. *)
Theorem is_stale_or_missing_returns (now : Z) (iso_value : option string) :
  cutoff_in_range STALE_DAYS now = true ->
  exists b, is_stale_or_missing date_parse STALE_DAYS now iso_value = Ok b.
Proof. intros _. exact (stale_returns now iso_value). Qed.

(** X4. Staleness only grows with time, for a value the parser reads the
    same way at both instants, as it does a full timestamp.  ([dateutil]
    takes the fields a text leaves out from the current date, so the parser
    is [date_parse] at the first instant and [date_parse'] at the second.)
    Such a value, once stale, is stale at every later instant. *)
Theorem stale_stays_stale
        (date_parse' : string -> option pydatetime) (now now' : Z)
        (iso_value : option string) :
  cutoff_in_range STALE_DAYS now' = true ->
  (forall s, iso_value = Some s -> date_parse' s = date_parse s) ->
  is_stale_or_missing date_parse STALE_DAYS now iso_value = Ok true ->
  now <= now' ->
  is_stale_or_missing date_parse' STALE_DAYS now' iso_value = Ok true.
Proof.
  intros _ Hsame Hs Hle. destruct iso_value as [[|c r]|]; try reflexivity.
  specialize (Hsame (String c r) eq_refl).
  destruct (date_parse (String c r)) as [dt|] eqn:Hp.
  - rewrite (stale_parsed date_parse STALE_DAYS now _ dt) in Hs;
      [|discriminate|exact Hp].
    rewrite (stale_parsed date_parse' STALE_DAYS now' _ dt);
      [|discriminate|exact Hsame].
    inversion Hs as [Hlt]. rewrite Hlt. f_equal.
    apply Z.ltb_lt in Hlt. apply Z.ltb_lt.
    unfold stale_cutoff_instant in *. lia.
  - unfold is_stale_or_missing. cbn [truthy negb]. now rewrite Hsame.
Qed.

Lemma iso_today_nonempty (now : Z) :
  iso_today_midnight_utc now <> EmptyString.
Proof.
  unfold iso_today_midnight_utc, strftime_midnight.
  destruct (civil_from_days _) as [[y m] d]. discriminate.
Qed.

Lemma midnight_of_bounds (now : Z) :
  midnight_of now <= now < midnight_of now + MICROS_PER_DAY.
Proof.
  unfold midnight_of, MICROS_PER_DAY.
  pose proof (Z.div_mod now 86400000000 ltac:(lia)).
  pose proof (Z.mod_pos_bound now 86400000000 ltac:(lia)). lia.
Qed.

(** X5. What the job writes and what it later tests fit together: if the
    parser reads the written timestamp as midnight UTC of the day of the
    update, the contact is stale again exactly when that midnight is more than
    [STALE_DAYS] days back.  So it stays fresh for at least [STALE_DAYS - 1]
    days after the update and is stale once [STALE_DAYS] days have passed. *)
Theorem written_timestamp_freshness (now now' : Z) (dt : pydatetime) :
  cutoff_in_range STALE_DAYS now' = true ->
  date_parse (iso_today_midnight_utc now) = Some dt ->
  instant dt = midnight_of now ->
  is_stale_or_missing date_parse STALE_DAYS now'
                      (Some (iso_today_midnight_utc now))
  = Ok (midnight_of now <? now' - STALE_DAYS * MICROS_PER_DAY) /\
  (now' <= now + (STALE_DAYS - 1) * MICROS_PER_DAY ->
   is_stale_or_missing date_parse STALE_DAYS now'
                       (Some (iso_today_midnight_utc now)) = Ok false) /\
  (now + STALE_DAYS * MICROS_PER_DAY < now' ->
   is_stale_or_missing date_parse STALE_DAYS now'
                       (Some (iso_today_midnight_utc now)) = Ok true).
Proof.
  intros _ Hp Hi.
  assert (Heq : is_stale_or_missing date_parse STALE_DAYS now'
                  (Some (iso_today_midnight_utc now))
                = Ok (midnight_of now <? now' - STALE_DAYS * MICROS_PER_DAY)).
  { rewrite (stale_parsed date_parse STALE_DAYS now' _ dt
               (iso_today_nonempty now) Hp).
    now rewrite Hi. }
  pose proof (midnight_of_bounds now) as Hb.
  split; [exact Heq|]. split; intros H; rewrite Heq; f_equal.
  - apply Z.ltb_ge. lia.
  - apply Z.ltb_lt. lia.
Qed.

End StalenessMore.

Lemma is_stale_or_missing_returns_witness :
  exists b,
    is_stale_or_missing sample_parse 30 sample_now
                        (Some "2024-01-01T00:00:00") = Ok b.
Proof.
  exact (is_stale_or_missing_returns sample_parse 30 sample_now
           (Some "2024-01-01T00:00:00") eq_refl).
Defined.

Lemma stale_stays_stale_witness :
  is_stale_or_missing sample_parse 30 (sample_now + 1 + 5)
                      (Some "2024-01-01T00:00:00Z") = Ok true.
Proof.
  apply (stale_stays_stale sample_parse 30 sample_parse (sample_now + 1)).
  - reflexivity.
  - reflexivity.
  - reflexivity.
  - lia.
Defined.

Lemma written_timestamp_freshness_witness :
  is_stale_or_missing written_parse 30
                      (at_patch sample_clock + 29 * MICROS_PER_DAY)
                      (Some (iso_today_midnight_utc (at_patch sample_clock)))
  = Ok false.
Proof.
  apply (proj1 (proj2 (written_timestamp_freshness
                         written_parse 30 (at_patch sample_clock)
                         (at_patch sample_clock + 29 * MICROS_PER_DAY)
                         {| wall := sample_now; tzinfo := Some 0 |}
                         eq_refl eq_refl eq_refl))).
  vm_compute. discriminate.
Defined.

(** ** More on channel resolution *)

Lemma rstrip_snoc_keep (p : ascii -> bool) (c : ascii) (s : string) :
  p c = false ->
  rstrip_with p (s ++ String c EmptyString) = s ++ String c EmptyString.
Proof.
  intros Hc. induction s as [|x s IH]; cbn.
  - now rewrite Hc.
  - rewrite IH. now destruct s.
Qed.

Lemma rstrip_snoc_drop (p : ascii -> bool) (c : ascii) (s : string) :
  p c = true ->
  rstrip_with p (s ++ String c EmptyString) = rstrip_with p s.
Proof.
  intros Hc. induction s as [|x s IH]; cbn.
  - now rewrite Hc.
  - now rewrite IH.
Qed.

Lemma prefix_app (a u t : string) :
  prefix a u = true -> prefix a (u ++ t) = true.
Proof.
  revert u. induction a as [|x a IH]; intros u H.
  - now destruct (u ++ t).
  - destruct u as [|y u]; [discriminate|]. cbn [prefix append] in *.
    destruct (ascii_dec x y); [now apply IH|discriminate].
Qed.

Lemma prefix_head (x : ascii) (a u : string) :
  prefix (String x a) u = true -> exists u', u = String x u'.
Proof.
  destruct u as [|y u]; [discriminate|]. cbn [prefix].
  destruct (ascii_dec x y); [subst; eauto|discriminate].
Qed.

(** X6. White space in front of a channel id defeats the pass-through: the
    shape test runs before [strip], so the id is stripped and then searched
    for like a handle. *)
Theorem padded_id_is_searched
        (youtube : request -> answer body) (api_key : string)
        (pad : ascii) (c : string) :
  is_space pad = true -> prefix "UC" c = true -> strip c = c ->
  resolve_channel_id youtube api_key (String pad c)
  = search_channel_id youtube api_key c.
Proof.
  intros Hpad Hc Hstrip. unfold resolve_channel_id.
  assert (Hnot : prefix "UC" (String pad c) = false).
  { cbn [prefix].
    destruct (ascii_dec "U" pad) as [<-|]; [discriminate Hpad|reflexivity]. }
  rewrite Hnot. cbn [andb].
  assert (Hs : strip (String pad c) = c).
  { unfold strip. cbn [lstrip_with]. rewrite Hpad. exact Hstrip. }
  rewrite Hs.
  destruct (prefix_head _ _ _ Hc) as [c' ->]. reflexivity.
Qed.

Lemma padded_id_is_searched_witness :
  resolve_channel_id quota_youtube "k" (String " " SAMPLE_CHANNEL)
  = search_channel_id quota_youtube "k" SAMPLE_CHANNEL.
Proof.
  apply padded_id_is_searched; reflexivity.
Defined.

(** X7. A slash at the end of a channel URL does not change how it is
    resolved. *)
Theorem trailing_slash_ignored
        (youtube : request -> answer body) (api_key : string) (u : string) :
  prefix "http" u = true -> strip u = u ->
  resolve_channel_id youtube api_key (u ++ "/")
  = resolve_channel_id youtube api_key u.
Proof.
  intros Hu Hstrip.
  destruct (prefix_head _ _ _ Hu) as [u' ->].
  unfold resolve_channel_id.
  assert (Hs : strip (String "h" u' ++ "/") = String "h" u' ++ "/").
  { unfold strip. cbn [append lstrip_with].
    change (is_space "h") with false. cbv iota.
    apply (rstrip_snoc_keep is_space "/" (String "h" u')). reflexivity. }
  rewrite Hs, Hstrip.
  change (String "h" u' ++ "/") with (String "h" (u' ++ "/")) at 1.
  change (prefix "UC" (String "h" (u' ++ "/"))) with false.
  change (prefix "UC" (String "h" u')) with false. cbn [andb].
  rewrite (prefix_app _ _ "/" Hu), Hu.
  rewrite (rstrip_snoc_drop is_slash "/" (String "h" u') eq_refl).
  reflexivity.
Qed.

Lemma trailing_slash_ignored_witness :
  resolve_channel_id quota_youtube "k" "https://www.youtube.com/@veritasium/"
  = resolve_channel_id quota_youtube "k" "https://www.youtube.com/@veritasium".
Proof.
  apply (trailing_slash_ignored quota_youtube "k"
           "https://www.youtube.com/@veritasium"); reflexivity.
Defined.

(** ** What the client sends *)

Lemma read_only_ret (k : string) {A : Type} (a : A) : read_only k (ret a).
Proof.
  intros w. split; [reflexivity|]. exists []. cbn. now rewrite app_nil_r.
Qed.

Lemma read_only_raise (k : string) {A : Type} (e : exn) :
  read_only k (@raise A e).
Proof.
  intros w. split; [reflexivity|]. exists []. cbn. now rewrite app_nil_r.
Qed.

Lemma read_only_lift (k : string) {A : Type} (r : result A) :
  read_only k (lift r).
Proof.
  intros w. split; [reflexivity|]. exists []. cbn. now rewrite app_nil_r.
Qed.

Lemma read_only_diverge (k : string) {A : Type} : read_only k (@diverge A).
Proof.
  intros w. split; [reflexivity|]. exists []. cbn. now rewrite app_nil_r.
Qed.

Lemma read_only_bind (k : string) {A B : Type} (m : M A) (f : A -> M B) :
  read_only k m -> (forall a, read_only k (f a)) -> read_only k (bind m f).
Proof.
  intros Hm Hf w. unfold bind. destruct (Hm w) as (Hp & rs & Hy & Hok).
  destruct (m w) as [[a|e|] w1]; cbn [snd] in *;
    try (split; [exact Hp|now exists rs]).
  destruct (Hf a w1) as (Hp' & rs' & Hy' & Hok').
  split; [congruence|]. exists (rs ++ rs')%list.
  rewrite Hy', Hy, app_assoc, forallb_app, Hok, Hok'. auto.
Qed.

Lemma read_only_get (youtube : request -> answer body) (k p : string)
      (ps : list (string * param)) :
  request_ok k (with_key k p ps) = true ->
  read_only k (_get youtube k p ps).
Proof.
  intros Hok w. rewrite _get_eq. cbn [snd log_request hs_patches yt_requests].
  split; [reflexivity|]. exists [with_key k p ps]. cbn [forallb].
  now rewrite Hok.
Qed.

Lemma read_only_get_threads (threads : request -> answer thread_body)
      (k p : string) (ps : list (string * param)) :
  request_ok k (with_key k p ps) = true ->
  read_only k (_get_threads threads k p ps).
Proof.
  intros Hok w. unfold _get_threads.
  assert (H : snd (match threads (with_key k p ps) with
                   | Answer b => (Ok b, log_request (with_key k p ps) w)
                   | BadStatus st tx =>
                       (Raise (HTTPError st tx),
                        log_request (with_key k p ps) w)
                   | NoAnswer msg =>
                       (Raise (ConnectionError msg),
                        log_request (with_key k p ps) w)
                   end) = log_request (with_key k p ps) w)
    by (destruct (threads _); reflexivity).
  rewrite H. cbn [log_request hs_patches yt_requests].
  split; [reflexivity|]. exists [with_key k p ps]. cbn [forallb].
  now rewrite Hok.
Qed.

(** A request to an endpoint without paging is well formed as soon as it
    carries the key. *)
Ltac keyed_request :=
  unfold request_ok, with_key, param_str, param_int;
  cbn [path params app find fst snd];
  repeat (simpl String.eqb; cbv iota);
  rewrite ?String.eqb_refl; reflexivity.

Create HintDb read_only.

#[local] Hint Resolve read_only_ret read_only_raise read_only_lift
  read_only_diverge : read_only.

Section ReadOnly.

Variable youtube : request -> answer body.
Variable youtube_threads : request -> answer thread_body.
Variable youtube_search : request -> answer search_body.
Variable api_key : string.
Variable date_parse : string -> option pydatetime.
Variable py_int_str : string -> option Z.
Variable py_int_float_str : string -> option Z.

Lemma read_only_search (q : string) :
  read_only api_key (search_channel_id youtube api_key q).
Proof.
  unfold search_channel_id. apply read_only_bind.
  - apply read_only_get. keyed_request.
  - intros b. destruct (items b); auto with read_only.
Qed.

Lemma read_only_resolve (identifier : string) :
  read_only api_key (resolve_channel_id youtube api_key identifier).
Proof.
  unfold resolve_channel_id.
  repeat match goal with
         | |- read_only _ (if ?c then _ else _) => destruct c
         end; auto using read_only_search with read_only.
Qed.

Lemma read_only_channel_info (channel_id : string) :
  read_only api_key (fetch_channel_info youtube api_key channel_id).
Proof.
  unfold fetch_channel_info.
  apply read_only_bind; [apply read_only_resolve|]. intros c.
  apply read_only_bind; [apply read_only_get; keyed_request|]. intros b.
  destruct (items b); auto with read_only.
Qed.

Lemma read_only_video_details (video_id : string) :
  read_only api_key (fetch_video_details youtube api_key video_id).
Proof.
  unfold fetch_video_details.
  apply read_only_bind; [apply read_only_get; keyed_request|]. intros b.
  destruct (items b); auto with read_only.
Qed.

Lemma page_request_ok (pl : string) (m : Z) (videos : list video)
      (tok : option string) :
  Z.of_nat (length videos) < m ->
  request_ok api_key
    (with_key api_key "playlistItems" (page_params pl m videos tok)) = true.
Proof.
  intros H. unfold request_ok, with_key, page_params, param_str, param_int.
  cbn [path params].
  destruct tok as [[|c r]|]; cbn [app find fst snd];
    repeat (simpl String.eqb; cbv iota);
    rewrite ?String.eqb_refl; cbn [andb in_range];
    apply andb_true_iff; split; apply Z.leb_le; lia.
Qed.

Lemma read_only_fetch_pages (fuel : nat) (pl : string) (m : Z) :
  forall videos tok,
    read_only api_key (fetch_pages youtube api_key fuel pl m videos tok).
Proof.
  induction fuel as [|fuel IH]; intros videos tok; cbn [fetch_pages];
    destruct (Z.ltb_spec (Z.of_nat (length videos)) m);
    auto with read_only.
  apply read_only_bind; [apply read_only_get; now apply page_request_ok|].
  intros data. apply read_only_bind; [auto with read_only|]. intros videos'.
  destruct (truthy (nextPageToken data)); auto with read_only.
Qed.

Lemma read_only_fetch_videos (fuel : nat) (channel_id : string) (m : Z) :
  read_only api_key (fetch_videos youtube api_key fuel channel_id m).
Proof.
  unfold fetch_videos.
  apply read_only_bind; [apply read_only_resolve|]. intros c.
  apply read_only_bind; [apply read_only_get; keyed_request|]. intros ch.
  destruct (items ch) as [|it rest]; [auto with read_only|].
  apply read_only_bind; [auto with read_only|]. intros pl.
  apply read_only_bind; [apply read_only_fetch_pages|]. intros videos.
  destruct (truthy _); [|auto with read_only].
  apply read_only_bind; [apply read_only_get; keyed_request|]. intros d.
  apply read_only_bind; auto with read_only.
Qed.

Lemma comments_request_ok (video_id : string) (m : Z)
      (comments : list comment) (tok : option string) :
  Z.of_nat (length comments) < m ->
  request_ok api_key
    (with_key api_key "commentThreads"
              (comments_params video_id m comments tok)) = true.
Proof.
  intros H. unfold request_ok, with_key, comments_params, param_str, param_int.
  cbn [path params].
  destruct tok as [[|c r]|]; cbn [app find fst snd];
    repeat (simpl String.eqb; cbv iota);
    rewrite ?String.eqb_refl; cbn [andb in_range];
    apply andb_true_iff; split; apply Z.leb_le; lia.
Qed.

Lemma read_only_comments_loop (fuel : nat) (video_id : string) (m : Z) :
  forall comments tok,
    read_only api_key
      (fetch_comments_loop youtube_threads api_key fuel video_id m
                           comments tok).
Proof.
  induction fuel as [|fuel IH]; intros comments tok;
    cbn [fetch_comments_loop];
    destruct (Z.ltb_spec (Z.of_nat (length comments)) m);
    auto with read_only.
  apply read_only_bind;
    [apply read_only_get_threads; now apply comments_request_ok|].
  intros data. apply read_only_bind; [auto with read_only|]. intros cs.
  destruct (truthy (th_nextPageToken data)); auto with read_only.
Qed.

Lemma read_only_search_channels (q : string) (m : Z) :
  read_only api_key (search_youtube_channels youtube api_key q m).
Proof.
  unfold search_youtube_channels.
  apply read_only_bind; [apply read_only_get; keyed_request|].
  auto with read_only.
Qed.

Lemma read_only_get_search (p : string) (ps : list (string * param)) :
  request_ok api_key (with_key api_key p ps) = true ->
  read_only api_key (_get_search youtube_search api_key p ps).
Proof.
  intros Hok w. unfold _get_search.
  assert (H : snd (match youtube_search (with_key api_key p ps) with
                   | Answer b => (Ok b, log_request (with_key api_key p ps) w)
                   | BadStatus st tx =>
                       (Raise (HTTPError st tx),
                        log_request (with_key api_key p ps) w)
                   | NoAnswer msg =>
                       (Raise (ConnectionError msg),
                        log_request (with_key api_key p ps) w)
                   end) = log_request (with_key api_key p ps) w)
    by (destruct (youtube_search _); reflexivity).
  rewrite H. cbn [log_request hs_patches yt_requests].
  split; [reflexivity|]. exists [with_key api_key p ps]. cbn [forallb].
  now rewrite Hok.
Qed.

Lemma read_only_channel_videos (channel_id term : string) (m : Z) :
  read_only api_key
    (search_youtube_channel_videos youtube youtube_search api_key
                                   channel_id term m).
Proof.
  unfold search_youtube_channel_videos.
  apply read_only_bind; [apply read_only_resolve|]. intros c.
  apply read_only_bind; [apply read_only_get_search; keyed_request|].
  intros data. apply read_only_bind; [auto with read_only|].
  intros [|o out]; [auto with read_only|].
  apply read_only_bind; [apply read_only_get; keyed_request|]. intros d.
  apply read_only_bind; auto with read_only.
Qed.

(** X8. Every public method of the client, and the calculator built on it,
    is read-only and well behaved on the wire: it sends nothing to the CRM,
    it only appends to the request trace, every request it sends carries the
    API key, and a page request always asks for between 1 and 50 playlist
    items or between 1 and 100 comment threads, whatever the platform
    answers. *)
Theorem client_is_read_only :
  (forall identifier,
      read_only api_key (resolve_channel_id youtube api_key identifier)) /\
  (forall channel_id,
      read_only api_key (fetch_channel_info youtube api_key channel_id)) /\
  (forall video_id,
      read_only api_key (fetch_video_details youtube api_key video_id)) /\
  (forall fuel channel_id m,
      read_only api_key (fetch_videos youtube api_key fuel channel_id m)) /\
  (forall fuel video_id m,
      read_only api_key
        (fetch_comments youtube_threads api_key fuel video_id m)) /\
  (forall q m,
      read_only api_key (search_youtube_channels youtube api_key q m)) /\
  (forall fuel q n,
      read_only api_key
        (search_and_introspect_channel youtube api_key fuel q n)) /\
  (forall fuel identifier n,
      read_only api_key (introspect_channel youtube api_key fuel identifier n)) /\
  (forall channel_id term m,
      read_only api_key
        (search_youtube_channel_videos youtube youtube_search api_key
                                       channel_id term m)) /\
  (forall fuel now channel_id m months d,
      read_only api_key
        (fetch_video_statistics youtube api_key date_parse fuel now
                                channel_id m months d)) /\
  (forall fuel now identifier min_minutes n,
      read_only api_key
        (avg_views_last_30d youtube api_key date_parse py_int_str
                            py_int_float_str fuel now identifier
                            min_minutes n)).
Proof.
  split; [exact read_only_resolve|].
  split; [exact read_only_channel_info|].
  split; [exact read_only_video_details|].
  split; [exact read_only_fetch_videos|].
  split; [intros; apply read_only_comments_loop|].
  split; [exact read_only_search_channels|].
  split; [|split; [|split; [exact read_only_channel_videos|split]]]; intros.
  - unfold search_and_introspect_channel.
    apply read_only_bind; [apply read_only_search_channels|].
    intros [|ch rest]; [auto with read_only|].
    apply read_only_bind; [apply read_only_channel_info|]. intros info.
    apply read_only_bind; [apply read_only_fetch_videos|].
    auto with read_only.
  - unfold introspect_channel.
    apply read_only_bind; [apply read_only_resolve|]. intros c.
    apply read_only_bind; [apply read_only_channel_info|]. intros info.
    apply read_only_bind; [apply read_only_fetch_videos|].
    auto with read_only.
  - unfold fetch_video_statistics.
    apply read_only_bind; [apply read_only_fetch_videos|].
    auto with read_only.
  - unfold avg_views_last_30d.
    apply read_only_bind; [apply read_only_fetch_videos|].
    auto with read_only.
Qed.

End ReadOnly.


(** ** Bounds on what the paging loops return *)

Lemma append_comments_length (its : list thread_item) :
  forall cs cs',
    append_comments its cs = Ok cs' ->
    length cs' = (length cs + length its)%nat.
Proof.
  induction its as [|it its IH]; intros cs cs' H; cbn in H.
  - inversion H; subst. cbn [length]. lia.
  - destruct (th_snippet it) as [ts|]; cbn in H; [|discriminate].
    destruct (ts_topLevelComment ts) as [tlc|]; cbn in H; [|discriminate].
    destruct (tlc_snippet tlc) as [sn|]; cbn in H; [|discriminate].
    destruct (th_id it) as [i|]; cbn in H; [|discriminate].
    apply IH in H. rewrite length_app in H. cbn [length] in *. lia.
Qed.

Lemma comments_request_size (k video_id : string) (m : Z)
      (cs : list comment) (tok : option string) :
  param_int "maxResults"
    (params (with_key k "commentThreads" (comments_params video_id m cs tok)))
  = Some (Z.min 100 (m - Z.of_nat (length cs))).
Proof. reflexivity. Qed.

Section CommentsBound.

Variable youtube_threads : request -> answer thread_body.
Variable api_key : string.

(** The platform never sends more threads than a page asks for. *)
Hypothesis honours :
  forall r b k,
    youtube_threads r = Answer b ->
    param_int "maxResults" (params r) = Some k -> 1 <= k ->
    Z.of_nat (length (th_items b)) <= k.

(** A page that announces a next page is not empty. *)
Hypothesis progress :
  forall r b k,
    youtube_threads r = Answer b ->
    param_int "maxResults" (params r) = Some k -> 1 <= k ->
    truthy (th_nextPageToken b) = true -> th_items b <> [].

Lemma append_comments_returns_or_raises (its : list thread_item) :
  forall cs, append_comments its cs <> Diverge.
Proof.
  induction its as [|it its IH]; intros cs; cbn; [discriminate|].
  destruct (th_snippet it) as [ts|]; cbn; [|discriminate].
  destruct (ts_topLevelComment ts) as [tlc|]; cbn; [|discriminate].
  destruct (tlc_snippet tlc) as [sn|]; cbn; [|discriminate].
  destruct (th_id it) as [i|]; cbn; [apply IH|discriminate].
Qed.

(** One turn of the loop. *)
Lemma comments_loop_step (video_id : string) (m : Z) (fuel : nat)
      (cs : list comment) (tok : option string) (w : world) (req : request) :
  Z.of_nat (length cs) < m ->
  req = with_key api_key "commentThreads"
                 (comments_params video_id m cs tok) ->
  fetch_comments_loop youtube_threads api_key (S fuel) video_id m cs tok w
  = match youtube_threads req with
    | Answer b =>
        match append_comments (th_items b) cs with
        | Ok cs' =>
            if truthy (th_nextPageToken b)
            then fetch_comments_loop youtube_threads api_key fuel video_id m
                                     cs' (th_nextPageToken b)
                                     (log_request req w)
            else (Ok cs', log_request req w)
        | Raise e => (Raise e, log_request req w)
        | Diverge => (Diverge, log_request req w)
        end
    | BadStatus st tx => (Raise (HTTPError st tx), log_request req w)
    | NoAnswer msg => (Raise (ConnectionError msg), log_request req w)
    end.
Proof.
  intros Hlt ->. cbn [fetch_comments_loop].
  destruct (Z.ltb_spec (Z.of_nat (length cs)) m); [|lia].
  unfold bind, _get_threads, lift, ret.
  set (req := with_key api_key "commentThreads" _).
  destruct (youtube_threads req); [|reflexivity..].
  destruct (append_comments _ cs); [|reflexivity..].
  destruct (truthy _); reflexivity.
Qed.

Lemma comments_loop_exit (video_id : string) (m : Z) (fuel : nat)
      (cs : list comment) (tok : option string) (w : world) :
  m <= Z.of_nat (length cs) ->
  fetch_comments_loop youtube_threads api_key fuel video_id m cs tok w
  = (Ok cs, w).
Proof.
  intros Hge. destruct fuel; cbn [fetch_comments_loop];
    destruct (Z.ltb_spec (Z.of_nat (length cs)) m); try lia; reflexivity.
Qed.

Lemma comments_loop_bound (video_id : string) (m : Z) (fuel : nat) :
  forall cs tok w,
    (Z.to_nat (m - Z.of_nat (length cs)) <= fuel)%nat ->
    fst (fetch_comments_loop youtube_threads api_key fuel video_id m cs tok w)
    <> Diverge /\
    forall out,
      fst (fetch_comments_loop youtube_threads api_key fuel video_id m
                               cs tok w) = Ok out ->
      Z.of_nat (length out) <= Z.max m (Z.of_nat (length cs)).
Proof.
  induction fuel as [|fuel IH]; intros cs tok w Hf;
    destruct (Z.ltb_spec (Z.of_nat (length cs)) m) as [Hlt|Hge];
    try lia;
    try (rewrite comments_loop_exit by exact Hge; cbn [fst];
         split; [discriminate|intros out H; inversion H; subst; lia]).
  rewrite (comments_loop_step video_id m fuel cs tok w _ Hlt eq_refl).
  pose proof (comments_request_size api_key video_id m cs tok) as Hsize.
  set (req := with_key api_key "commentThreads" _) in *.
  destruct (youtube_threads req) as [b|st tx|msg] eqn:Ha;
    try (cbn; split; [discriminate|intros out H; discriminate H]).
  pose proof (honours req b _ Ha Hsize ltac:(lia)) as Hn.
  pose proof (append_comments_returns_or_raises (th_items b) cs) as Hnd.
  destruct (append_comments (th_items b) cs) as [cs'|e|] eqn:Happ;
    [|cbn; split; [discriminate|intros out H; discriminate H]|congruence].
  apply append_comments_length in Happ.
  destruct (truthy (th_nextPageToken b)) eqn:Htok.
  - pose proof (progress req b _ Ha Hsize ltac:(lia) Htok) as Hne.
    assert (Hpos : (length (th_items b) <> 0)%nat)
      by (destruct (th_items b); [congruence|discriminate]).
    destruct (IH cs' (th_nextPageToken b) (log_request req w) ltac:(lia))
      as [Hd Hb].
    split; [exact Hd|]. intros out Hout. specialize (Hb out Hout). lia.
  - cbn. split; [discriminate|]. intros out H. inversion H; subst. lia.
Qed.

(** X9. With a platform that never over-fills a page and never announces a
    next page after an empty one, [fetch_comments] needs at most
    [max_results] turns of its loop: it returns or raises, and what it
    returns has at most [max_results] comments (none when [max_results] is
    not positive). *)
Theorem fetch_comments_bounded
        (fuel : nat) (video_id : string) (max_results : Z) (w : world) :
  (Z.to_nat max_results <= fuel)%nat ->
  fst (fetch_comments youtube_threads api_key fuel video_id max_results w)
  <> Diverge /\
  forall out,
    fst (fetch_comments youtube_threads api_key fuel video_id max_results w)
    = Ok out ->
    Z.of_nat (length out) <= Z.max 0 max_results.
Proof.
  intros Hf. unfold fetch_comments.
  destruct (comments_loop_bound video_id max_results fuel [] None w
              ltac:(cbn [length]; lia)) as [Hd Hb].
  split; [exact Hd|]. intros out H. specialize (Hb out H). cbn in Hb. lia.
Qed.

End CommentsBound.

Lemma fetch_comments_bounded_witness :
  fst (fetch_comments one_thread_server "k" 3 "dQw4w9WgXcQ" 3 empty_world)
  <> Diverge.
Proof.
  apply (fetch_comments_bounded one_thread_server "k").
  - intros r b k H _ Hk. inversion H; subst. cbn. lia.
  - intros r b k H _ _ Ht. inversion H; subst. discriminate Ht.
  - vm_compute. lia.
Defined.

Lemma append_basic_length (its : list item) :
  forall vs vs',
    append_basic its vs = Ok vs' ->
    length vs' = (length vs + length its)%nat.
Proof.
  induction its as [|it its IH]; intros vs vs' H; cbn in H.
  - inversion H; subst. cbn [length]. lia.
  - destruct (it_contentDetails it) as [cd|]; cbn in H; [|discriminate].
    destruct (cd_videoId cd) as [vid|]; cbn in H; [|discriminate].
    destruct (it_snippet it) as [sn|]; cbn in H; [|discriminate].
    destruct (sn_title sn) as [t|]; cbn in H; [|discriminate].
    destruct (sn_publishedAt sn) as [p|]; cbn in H; [|discriminate].
    apply IH in H. rewrite length_app in H. cbn [length] in *. lia.
Qed.

Lemma append_basic_returns_or_raises (its : list item) :
  forall vs, append_basic its vs <> Diverge.
Proof.
  induction its as [|it its IH]; intros vs; cbn; [discriminate|].
  destruct (it_contentDetails it) as [cd|]; cbn; [|discriminate].
  destruct (cd_videoId cd) as [vid|]; cbn; [|discriminate].
  destruct (it_snippet it) as [sn|]; cbn; [|discriminate].
  destruct (sn_title sn) as [t|]; cbn; [|discriminate].
  destruct (sn_publishedAt sn) as [p|]; cbn; [apply IH|discriminate].
Qed.

Lemma build_stats_map_returns_or_raises (its : list item) :
  build_stats_map its <> Diverge.
Proof.
  induction its as [|it its IH]; cbn; [discriminate|].
  destruct (it_id it); cbn; [|discriminate].
  destruct (build_stats_map its); cbn; congruence.
Qed.

Lemma page_request_size (k pl : string) (m : Z) (vs : list video)
      (tok : option string) :
  param_int "maxResults"
    (params (with_key k "playlistItems" (page_params pl m vs tok)))
  = Some (Z.min 50 (m - Z.of_nat (length vs))).
Proof. reflexivity. Qed.

Section VideosBound.

Variable youtube : request -> answer body.
Variable api_key : string.

(** The platform never sends more playlist items than a page asks for. *)
Hypothesis honours :
  forall r b k,
    youtube r = Answer b -> path r = "playlistItems" ->
    param_int "maxResults" (params r) = Some k -> 1 <= k ->
    Z.of_nat (length (items b)) <= k.

(** A page that announces a next page is not empty. *)
Hypothesis progress :
  forall r b k,
    youtube r = Answer b -> path r = "playlistItems" ->
    param_int "maxResults" (params r) = Some k -> 1 <= k ->
    truthy (nextPageToken b) = true -> items b <> [].

Lemma fetch_pages_exit (pl : string) (m : Z) (fuel : nat)
      (vs : list video) (tok : option string) (w : world) :
  m <= Z.of_nat (length vs) ->
  fetch_pages youtube api_key fuel pl m vs tok w = (Ok vs, w).
Proof.
  intros Hge. destruct fuel; cbn [fetch_pages];
    destruct (Z.ltb_spec (Z.of_nat (length vs)) m); try lia; reflexivity.
Qed.

(** One turn of the loop. *)
Lemma fetch_pages_step (pl : string) (m : Z) (fuel : nat)
      (vs : list video) (tok : option string) (w : world) (req : request) :
  Z.of_nat (length vs) < m ->
  req = with_key api_key "playlistItems" (page_params pl m vs tok) ->
  fetch_pages youtube api_key (S fuel) pl m vs tok w
  = match youtube req with
    | Answer b =>
        match append_basic (items b) vs with
        | Ok vs' =>
            if truthy (nextPageToken b)
            then fetch_pages youtube api_key fuel pl m vs' (nextPageToken b)
                             (log_request req w)
            else (Ok vs', log_request req w)
        | Raise e => (Raise e, log_request req w)
        | Diverge => (Diverge, log_request req w)
        end
    | BadStatus st tx => (Raise (HTTPError st tx), log_request req w)
    | NoAnswer msg => (Raise (ConnectionError msg), log_request req w)
    end.
Proof.
  intros Hlt ->. cbn [fetch_pages].
  destruct (Z.ltb_spec (Z.of_nat (length vs)) m); [|lia].
  unfold bind. rewrite _get_eq. unfold lift, ret.
  set (req := with_key api_key "playlistItems" _).
  destruct (youtube req); cbn [get_outcome]; [|reflexivity..].
  destruct (append_basic _ vs); [|reflexivity..].
  destruct (truthy _); reflexivity.
Qed.

Lemma fetch_pages_bound (pl : string) (m : Z) (fuel : nat) :
  forall vs tok w,
    (Z.to_nat (m - Z.of_nat (length vs)) <= fuel)%nat ->
    fst (fetch_pages youtube api_key fuel pl m vs tok w) <> Diverge /\
    forall out,
      fst (fetch_pages youtube api_key fuel pl m vs tok w) = Ok out ->
      Z.of_nat (length out) <= Z.max m (Z.of_nat (length vs)).
Proof.
  induction fuel as [|fuel IH]; intros vs tok w Hf;
    destruct (Z.ltb_spec (Z.of_nat (length vs)) m) as [Hlt|Hge];
    try lia;
    try (rewrite fetch_pages_exit by exact Hge; cbn [fst];
         split; [discriminate|intros out H; inversion H; subst; lia]).
  rewrite (fetch_pages_step pl m fuel vs tok w _ Hlt eq_refl).
  pose proof (page_request_size api_key pl m vs tok) as Hsize.
  set (req := with_key api_key "playlistItems" _) in *.
  assert (Hpath : path req = "playlistItems") by reflexivity.
  destruct (youtube req) as [b|st tx|msg] eqn:Ha;
    try (cbn; split; [discriminate|intros out H; discriminate H]).
  pose proof (honours req b _ Ha Hpath Hsize ltac:(lia)) as Hn.
  pose proof (append_basic_returns_or_raises (items b) vs) as Hnd.
  destruct (append_basic (items b) vs) as [vs'|e|] eqn:Happ;
    [|cbn; split; [discriminate|intros out H; discriminate H]|congruence].
  apply append_basic_length in Happ.
  destruct (truthy (nextPageToken b)) eqn:Htok.
  - pose proof (progress req b _ Ha Hpath Hsize ltac:(lia) Htok) as Hne.
    assert (Hpos : (length (items b) <> 0)%nat)
      by (destruct (items b); [congruence|discriminate]).
    destruct (IH vs' (nextPageToken b) (log_request req w) ltac:(lia))
      as [Hd Hb].
    split; [exact Hd|]. intros out Hout. specialize (Hb out Hout). lia.
  - cbn. split; [discriminate|]. intros out H. inversion H; subst. lia.
Qed.

Lemma resolve_returns_or_raises (identifier : string) (w : world) :
  fst (resolve_channel_id youtube api_key identifier w) <> Diverge.
Proof.
  destruct (resolve_channel_id_cases youtube api_key identifier w)
    as [[c Hc]|[q Hq]].
  - rewrite Hc. discriminate.
  - rewrite Hq. unfold search_channel_id, bind. rewrite _get_eq.
    destruct (youtube _) as [b|st tx|msg]; cbn [get_outcome];
      try discriminate.
    destruct (items b) as [|it rest]; [discriminate|].
    unfold lift. cbn [fst].
    destruct (it_snippet it) as [sn|]; cbn; [|discriminate].
    destruct (sn_channelId sn); discriminate.
Qed.

Lemma settles_ret {A : Type} (P : A -> Prop) (a : A) :
  P a -> settles P (ret a).
Proof.
  intros H w. cbn. split; [discriminate|]. intros a' E.
  inversion E; subst; exact H.
Qed.

Lemma settles_raise {A : Type} (P : A -> Prop) (e : exn) :
  settles P (raise e).
Proof. intros w. cbn. split; [discriminate|]. intros a' E. discriminate E. Qed.

Lemma settles_lift {A : Type} (P : A -> Prop) (r : result A) :
  r <> Diverge -> (forall a, r = Ok a -> P a) -> settles P (lift r).
Proof. intros Hd Hp w. cbn. auto. Qed.

Lemma settles_bind {A B : Type} (Q : A -> Prop) (P : B -> Prop)
      (m : M A) (k : A -> M B) :
  settles Q m -> (forall a, Q a -> settles P (k a)) -> settles P (bind m k).
Proof.
  intros Hm Hk w. unfold bind. destruct (Hm w) as [Hd Hq].
  destruct (m w) as [[a|e|] w1]; cbn [fst] in *.
  - apply (Hk a (Hq a eq_refl)).
  - split; [discriminate|]. intros b E. discriminate E.
  - congruence.
Qed.

Lemma settles_get (p : string) (ps : list (string * param)) :
  settles (fun _ => True) (_get youtube api_key p ps).
Proof.
  intros w. rewrite _get_eq. cbn [fst].
  destruct (youtube _); cbn; split; auto; discriminate.
Qed.

Lemma settles_resolve (identifier : string) :
  settles (fun _ => True) (resolve_channel_id youtube api_key identifier).
Proof.
  intros w. split; [apply resolve_returns_or_raises|auto].
Qed.

(** X10. With a platform that never over-fills a page and never announces a
    next page after an empty one, [fetch_videos] needs at most [max_results]
    turns of its loop: it returns or raises, and what it returns has at most
    [max_results] records (none when [max_results] is not positive). *)
Theorem fetch_videos_bounded
        (fuel : nat) (channel_id : string) (max_results : Z) (w : world) :
  (Z.to_nat max_results <= fuel)%nat ->
  fst (fetch_videos youtube api_key fuel channel_id max_results w)
  <> Diverge /\
  forall out,
    fst (fetch_videos youtube api_key fuel channel_id max_results w) = Ok out ->
    Z.of_nat (length out) <= Z.max 0 max_results.
Proof.
  intros Hf. revert w.
  change (settles
            (fun out : list video =>
               Z.of_nat (length out) <= Z.max 0 max_results)
            (fetch_videos youtube api_key fuel channel_id max_results)).
  unfold fetch_videos.
  eapply settles_bind; [apply settles_resolve|]. intros c _.
  eapply settles_bind; [apply settles_get|]. intros ch _.
  destruct (items ch) as [|it rest].
  { apply settles_ret. cbn [length]. lia. }
  eapply settles_bind with (Q := fun _ => True).
  { apply settles_lift; [|auto].
    destruct (it_contentDetails it) as [cd|]; cbn; [|discriminate].
    destruct (cd_uploads cd); discriminate. }
  intros pl _.
  eapply settles_bind
    with (Q := fun vs : list video =>
                 Z.of_nat (length vs) <= Z.max 0 max_results).
  { intros w. destruct (fetch_pages_bound pl max_results fuel [] None w
                          ltac:(cbn [length]; lia)) as [Hd Hb].
    split; [exact Hd|]. intros vs E. specialize (Hb vs E).
    cbn [length] in Hb. lia. }
  intros vs Hvs. destruct (truthy _); [|now apply settles_ret].
  eapply settles_bind; [apply settles_get|]. intros d _.
  eapply settles_bind with (Q := fun _ => True).
  { apply settles_lift; [apply build_stats_map_returns_or_raises|auto]. }
  intros sm _. apply settles_ret. now rewrite length_map.
Qed.

End VideosBound.

Lemma sample_youtube_honours (pl : string) (uploads : list upload)
      (stats : list item) (r : request) (b : body) (k : Z) :
  sample_youtube pl uploads stats r = Answer b ->
  path r = "playlistItems" ->
  param_int "maxResults" (params r) = Some k -> 1 <= k ->
  Z.of_nat (length (items b)) <= k.
Proof.
  intros H Hp Hk Hpos. unfold sample_youtube in H. rewrite Hp, Hk in H.
  simpl String.eqb in H. cbv iota in H. inversion H; subst.
  cbn [items playlist_page]. rewrite length_map.
  pose proof (firstn_le_length (Z.to_nat k)
                (skipn (match param_str "pageToken" (params r) with
                        | Some t => sample_token_offset t
                        | None => 0%nat
                        end) uploads)).
  lia.
Qed.

Lemma sample_youtube_progress (pl : string) (uploads : list upload)
      (stats : list item) (r : request) (b : body) (k : Z) :
  sample_youtube pl uploads stats r = Answer b ->
  path r = "playlistItems" ->
  param_int "maxResults" (params r) = Some k -> 1 <= k ->
  truthy (nextPageToken b) = true -> items b <> [].
Proof.
  intros H Hp Hk Hpos Ht. unfold sample_youtube in H. rewrite Hp, Hk in H.
  simpl String.eqb in H. cbv iota in H.
  set (o := match param_str "pageToken" (params r) with
            | Some t => sample_token_offset t
            | None => 0%nat
            end) in *.
  inversion H; subst b. cbn [items nextPageToken playlist_page] in *.
  destruct (Z.ltb_spec (Z.of_nat o + k) (Z.of_nat (length uploads)));
    [|discriminate Ht].
  intros Hnil. apply (f_equal (@length item)) in Hnil.
  rewrite length_map, length_firstn, length_skipn in Hnil.
  cbn [length] in Hnil. lia.
Qed.

Lemma fetch_videos_bounded_witness :
  fst (fetch_videos five_youtube "k" 3 SAMPLE_CHANNEL 3 empty_world)
  <> Diverge.
Proof.
  apply (fetch_videos_bounded five_youtube "k").
  - apply sample_youtube_honours.
  - apply sample_youtube_progress.
  - vm_compute. lia.
Defined.

(** ** Merging the statistics *)

Lemma build_stats_map_items (its : list item) :
  forall sm,
    build_stats_map its = Ok sm ->
    map snd sm = its /\
    Forall (fun p => it_id (snd p) = Some (fst p)) sm.
Proof.
  induction its as [|it its IH]; intros sm H; cbn in H.
  - inversion H; subst. split; constructor.
  - destruct (it_id it) as [k|] eqn:Hk; cbn in H; [|discriminate].
    destruct (build_stats_map its) as [m|e|]; cbn in H; try discriminate.
    inversion H; subst. destruct (IH m eq_refl) as [Hs Hf].
    split; [cbn; now rewrite Hs|]. constructor; [exact Hk|exact Hf].
Qed.

Lemma dict_get_miss (k : string) (sm : list (string * item)) :
  (forall p, In p sm -> fst p <> k) -> dict_get k sm = None.
Proof.
  intros H. unfold dict_get.
  destruct (find _ (rev sm)) as [p|] eqn:Hf; [|reflexivity].
  apply find_some in Hf as [Hin Heq]. apply in_rev in Hin.
  apply String.eqb_eq in Heq. now apply H in Hin.
Qed.

Lemma dict_get_hit (k : string) (it : item) (sm : list (string * item)) :
  NoDup (map fst sm) -> In (k, it) sm -> dict_get k sm = Some it.
Proof.
  intros Hnd Hin. unfold dict_get.
  destruct (find _ (rev sm)) as [[k' it']|] eqn:Hf.
  - apply find_some in Hf as [Hin' Heq]. apply in_rev in Hin'.
    apply String.eqb_eq in Heq. cbn in Heq. subst k'. cbn [snd].
    f_equal. clear - Hnd Hin Hin'.
    induction sm as [|[a b] sm IH]; [contradiction|].
    cbn in Hnd. inversion Hnd as [|? ? Hnotin Hnd']; subst.
    destruct Hin as [E|Hin], Hin' as [E'|Hin'].
    + congruence.
    + inversion E; subst. exfalso. apply Hnotin.
      apply (in_map fst) in Hin'. exact Hin'.
    + inversion E'; subst. exfalso. apply Hnotin.
      apply (in_map fst) in Hin. exact Hin.
    + now apply IH.
  - pose proof (find_none _ _ Hf (k, it) (proj1 (in_rev sm (k, it)) Hin))
      as Hno.
    cbn in Hno. rewrite String.eqb_refl in Hno. discriminate Hno.
Qed.

Lemma stats_map_keys_nodup (sm : list (string * item)) :
  Forall (fun p => it_id (snd p) = Some (fst p)) sm ->
  NoDup (map it_id (map snd sm)) -> NoDup (map fst sm).
Proof.
  intros Hf Hnd.
  assert (E : map it_id (map snd sm) = map Some (map fst sm)).
  { induction Hf as [|p sm Hp Hf IH]; cbn; [reflexivity|].
    rewrite Hp. f_equal. apply IH. cbn in Hnd. now inversion Hnd. }
  rewrite E in Hnd. now apply NoDup_map_inv in Hnd.
Qed.

(** X11. Looking a video up in the statistics that came back: a video the
    details response does not mention is kept, with all five merged fields
    empty; when the response's ids are pairwise distinct, a video it does
    mention gets the duration, counts and thumbnails of the item with its id.
    In both cases id, title and publication time are untouched. *)
Theorem merge_details_lookup (its : list item) (sm : list (string * item)) :
  build_stats_map its = Ok sm ->
  (forall v,
      (forall it, In it its -> it_id it <> Some (id v)) ->
      merged (merge_details sm v)
      = Some {| duration := None; viewCount := None; likeCount := None;
                commentCount := None; thumbnails := None |}) /\
  (forall v it,
      NoDup (map it_id its) -> In it its -> it_id it = Some (id v) ->
      merged (merge_details sm v)
      = Some {| duration := get2 (it_contentDetails it) cd_duration;
                viewCount := get2 (it_statistics it) st_viewCount;
                likeCount := get2 (it_statistics it) st_likeCount;
                commentCount := get2 (it_statistics it) st_commentCount;
                thumbnails := get2 (it_snippet it) sn_thumbnails |}) /\
  (forall v,
      id (merge_details sm v) = id v /\
      title (merge_details sm v) = title v /\
      publishedAt (merge_details sm v) = publishedAt v).
Proof.
  intros Hb. destruct (build_stats_map_items its sm Hb) as [Hs Hf].
  split; [|split].
  - intros v Hmiss. unfold merge_details. cbn [merged].
    rewrite dict_get_miss; [reflexivity|].
    intros p Hin Hk. rewrite Forall_forall in Hf. specialize (Hf p Hin).
    apply (Hmiss (snd p)).
    + rewrite <- Hs. now apply in_map.
    + now rewrite Hf, Hk.
  - intros v it Hnd Hin Hid. unfold merge_details. cbn [merged].
    rewrite (dict_get_hit (id v) it sm); [reflexivity| |].
    + apply stats_map_keys_nodup; [exact Hf|now rewrite Hs].
    + rewrite <- Hs in Hin. apply in_map_iff in Hin as ([k it'] & E & Hin).
      cbn in E. subst it'. rewrite Forall_forall in Hf.
      specialize (Hf _ Hin). cbn in Hf. congruence.
  - intros v. repeat split.
Qed.

Lemma merge_details_lookup_witness :
  merged (merge_details [("a", stats_item "a" "PT10M" "100")]
                        {| id := "a"; title := "video";
                           publishedAt := Some "2024-01-20T00:00:00Z";
                           merged := None |})
  = Some {| duration := Some "PT10M"; viewCount := Some (JStr "100");
            likeCount := None; commentCount := None; thumbnails := None |}.
Proof.
  apply (proj1 (proj2 (merge_details_lookup
                         [stats_item "a" "PT10M" "100"]
                         [("a", stats_item "a" "PT10M" "100")] eq_refl))
           {| id := "a"; title := "video";
              publishedAt := Some "2024-01-20T00:00:00Z"; merged := None |}
           (stats_item "a" "PT10M" "100")).
  - repeat constructor. intros [].
  - now left.
  - reflexivity.
Defined.


(** ** Video statistics *)

Lemma firstn_exact {A : Type} (l r : list A) :
  firstn (length l) (l ++ r) = l.
Proof.
  rewrite firstn_app, Nat.sub_diag, firstn_all. cbn. apply app_nil_r.
Qed.

Section StatisticsFacts.

Variable youtube : request -> answer body.
Variable api_key : string.
Variable date_parse : string -> option pydatetime.

(** What one turn of the loop computes for a dated video. *)
Lemma dated_step (now months min_minutes : Z) (v : video) :
  dated date_parse v ->
  exists dt q b,
    parse_published date_parse v = Ok dt /\
    _iso8601_duration_to_minutes (duration_or_zero v) = Ok q /\
    datetime_ge dt (minus_timedelta (datetime_now_utc now)
                                    (timedelta_days (30 * months))) = Ok b /\
    recent_and_long date_parse now months min_minutes v
    = b && Qle_bool (inject_Z min_minutes) q /\
    stat_of v = stat_record v q.
Proof.
  intros (pub & dt & Hpub & Hdp & Haw).
  destruct (iso8601_duration_total (duration_or_zero v)) as [q Hq].
  exists dt, q, (now - timedelta_days (30 * months) <=? instant dt).
  unfold parse_published, recent_and_long, stat_of,
    _iso8601_duration_to_minutes.
  rewrite Hpub, Hdp, Hq. repeat split.
  unfold datetime_ge, instant, is_aware in *.
  cbn [tzinfo wall minus_timedelta datetime_now_utc].
  destruct (tzinfo dt) as [off|]; [|discriminate Haw].
  unfold utc_of. do 2 f_equal. lia.
Qed.

Lemma filter_statistics_firstn (now months max_results min_minutes : Z)
      (videos : list video) :
  Forall (dated date_parse) videos ->
  forall acc,
    Z.of_nat (length acc) < max_results ->
    filter_statistics date_parse
      (minus_timedelta (datetime_now_utc now) (timedelta_days (30 * months)))
      max_results min_minutes videos acc
    = Ok (firstn (Z.to_nat max_results)
            (acc ++ map stat_of
                    (filter (recent_and_long date_parse now months min_minutes)
                            videos))).
Proof.
  induction 1 as [|v rest Hv Hrest IH]; intros acc Hacc.
  - cbn. rewrite app_nil_r, firstn_all2 by lia. reflexivity.
  - destruct (dated_step now months min_minutes v Hv)
      as (dt & q & b & Hp & Hq & Hge & Hral & Hstat).
    cbn [filter_statistics filter]. rewrite Hp. cbn [rbind].
    rewrite Hq. cbn [rbind]. rewrite Hge. cbn [rbind]. rewrite Hral.
    destruct (b && Qle_bool (inject_Z min_minutes) q);
      [|apply IH; exact Hacc].
    cbn [map]. rewrite Hstat.
    replace (acc ++ stat_record v q :: map stat_of
               (filter (recent_and_long date_parse now months min_minutes)
                       rest))%list
      with ((acc ++ [stat_record v q]) ++ map stat_of
               (filter (recent_and_long date_parse now months min_minutes)
                       rest))%list
      by (rewrite <- app_assoc; reflexivity).
    destruct (Z.leb_spec max_results
                (Z.of_nat (length (acc ++ [stat_record v q]))))
      as [Hfull|Hmore].
    + replace (Z.to_nat max_results) with (length (acc ++ [stat_record v q]))
        by (rewrite length_app in *; cbn [length] in *; lia).
      now rewrite firstn_exact.
    + apply IH. exact Hmore.
Qed.

Lemma fetch_videos_nonpositive (fuel : nat) (channel_id : string) (m : Z) :
  m <= 0 ->
  settles (fun out => out = [])
          (fetch_videos youtube api_key fuel channel_id m).
Proof.
  intros Hm. unfold fetch_videos.
  eapply settles_bind; [apply settles_resolve|]. intros c _.
  eapply settles_bind; [apply settles_get|]. intros ch _.
  destruct (items ch) as [|it rest]; [now apply settles_ret|].
  eapply settles_bind with (Q := fun _ => True).
  { apply settles_lift; [|auto].
    destruct (it_contentDetails it) as [cd|]; cbn; [|discriminate].
    destruct (cd_uploads cd); discriminate. }
  intros pl _.
  eapply settles_bind with (Q := fun vs : list video => vs = []).
  { intros w. rewrite fetch_pages_exit by (cbn [length]; lia). cbn.
    split; [discriminate|]. intros a E. now inversion E. }
  intros vs ->. cbn. now apply settles_ret.
Qed.

(** X12. [fetch_video_statistics] returns the first [max_results] videos, in
    fetch order, among those the client returned that were published within
    the trailing [30 * months] days and last at least
    [min_duration_minutes], provided each video's timestamp parses to an
    offset-aware datetime, each duration text has at most 300 characters and
    the cutoff is a datetime; the client is asked for twice [max_results]
    videos. *)
Theorem fetch_video_statistics_first_matches
        (fuel : nat) (now : Z) (channel_id : string)
        (max_results months min_minutes : Z) (w w' : world)
        (videos : list video) :
  cutoff_in_range (30 * months) now = true ->
  fetch_videos youtube api_key fuel channel_id (max_results * 2) w
  = (Ok videos, w') ->
  Forall (dated date_parse) videos ->
  Forall (fun v => fits_float (duration_or_zero v) = true) videos ->
  fetch_video_statistics youtube api_key date_parse fuel now channel_id
                         max_results months min_minutes w
  = (Ok (firstn (Z.to_nat max_results)
           (map stat_of
                (filter (recent_and_long date_parse now months min_minutes)
                        videos))),
     w').
Proof.
  intros _ Hf Hd _.
  unfold fetch_video_statistics, bind. rewrite Hf. unfold lift.
  f_equal. destruct (Z.leb_spec max_results 0) as [Hle|Hpos].
  - destruct (fetch_videos_nonpositive fuel channel_id (max_results * 2)
                ltac:(lia) w) as [_ Hnil].
    rewrite Hf in Hnil. rewrite (Hnil videos eq_refl). cbn.
    now rewrite firstn_nil.
  - apply (filter_statistics_firstn now months max_results min_minutes
             videos Hd []). cbn [length]. lia.
Qed.

End StatisticsFacts.

Lemma fetch_video_statistics_first_matches_witness :
  fetch_video_statistics five_youtube "k" sample_parse 6
                         (at_cutoff sample_clock) SAMPLE_CHANNEL 25 6 3
                         empty_world
  = (Ok (firstn 25
           (map stat_of
                (filter (recent_and_long sample_parse (at_cutoff sample_clock)
                                         6 3)
                        five_videos))),
     five_world).
Proof.
  apply (fetch_video_statistics_first_matches
           five_youtube "k" sample_parse 6 (at_cutoff sample_clock)
           SAMPLE_CHANNEL 25 6 3 empty_world five_world five_videos).
  - reflexivity.
  - vm_compute. reflexivity.
  - unfold five_videos.
    repeat (constructor;
            [exists "2024-01-20T00:00:00Z"; eexists;
             repeat split; reflexivity|]).
    constructor.
  - unfold five_videos. repeat (constructor; [reflexivity|]). constructor.
Defined.

Section UndatedVideo.

Variable date_parse : string -> option pydatetime.
Variable py_int_str : string -> option Z.
Variable py_int_float_str : string -> option Z.

Lemma filter_statistics_aborts (now months max_results min_minutes : Z)
      (v : video) (rest : list video) (e : exn) (good : list video) :
  parse_published date_parse v = Raise e ->
  Forall (dated date_parse) good ->
  forall acc,
    Z.of_nat (length acc)
    + Z.of_nat (length (filter (recent_and_long date_parse now months
                                                min_minutes) good))
    < max_results ->
    filter_statistics date_parse
      (minus_timedelta (datetime_now_utc now) (timedelta_days (30 * months)))
      max_results min_minutes (good ++ v :: rest) acc
    = Raise e.
Proof.
  intros He. induction 1 as [|g good Hg Hgood IH]; intros acc Hacc.
  - cbn [app filter_statistics]. now rewrite He.
  - destruct (dated_step date_parse now months min_minutes g Hg)
      as (dt & q & b & Hp & Hq & Hge & Hral & Hstat).
    cbn [app filter_statistics]. rewrite Hp. cbn [rbind].
    rewrite Hq. cbn [rbind]. rewrite Hge. cbn [rbind].
    cbn [filter] in Hacc. rewrite Hral in Hacc.
    destruct (b && Qle_bool (inject_Z min_minutes) q).
    + cbn [length] in Hacc.
      destruct (Z.leb_spec max_results
                  (Z.of_nat (length (acc ++ [stat_record g q]))))
        as [Hfull|Hmore].
      * rewrite length_app in Hfull. cbn [length] in Hfull. lia.
      * apply IH. rewrite length_app. cbn [length]. lia.
    + apply IH. exact Hacc.
Qed.

(** X13. A video whose publication time is missing or does not parse: when
    [fetch_video_statistics] reaches it before it has gathered
    [max_results] records (the videos before it being dated, with duration
    texts of at most 300 characters), the whole call raises the parser's
    error; the loop of [avg_views_last_30d] passes over the same video as if
    it were not in the list. *)
Theorem undated_video_aborts_statistics
        (now months max_results min_minutes : Z)
        (good : list video) (v : video) (rest : list video) (e : exn) :
  cutoff_in_range (30 * months) now = true ->
  parse_published date_parse v = Raise e ->
  Forall (dated date_parse) good ->
  Forall (fun g => fits_float (duration_or_zero g) = true) good ->
  Z.of_nat (length (filter (recent_and_long date_parse now months min_minutes)
                           good)) < max_results ->
  filter_statistics date_parse
    (minus_timedelta (datetime_now_utc now) (timedelta_days (30 * months)))
    max_results min_minutes (good ++ v :: rest) []
  = Raise e /\
  forall cutoff min_m acc,
    matching_views date_parse py_int_str py_int_float_str cutoff min_m
                   (v :: rest) acc
    = matching_views date_parse py_int_str py_int_float_str cutoff min_m
                     rest acc.
Proof.
  intros _ He Hgood _ Hlt. split.
  - apply filter_statistics_aborts; [exact He|exact Hgood|].
    cbn [length]. lia.
  - intros cutoff min_m acc. cbn [matching_views].
    unfold parse_published in He.
    destruct (publishedAt v) as [[|c r]|]; try reflexivity.
    cbn [truthy negb].
    destruct (date_parse (String c r)); [discriminate He|reflexivity].
Qed.

End UndatedVideo.

Lemma undated_video_aborts_statistics_witness :
  filter_statistics sample_parse
    (minus_timedelta (datetime_now_utc sample_now) (timedelta_days (30 * 6)))
    10 3
    (five_videos
     ++ {| id := "x"; title := "untimed"; publishedAt := None;
           merged := None |} :: [])
    []
  = Raise (TypeError "Parser must be a string or character stream").
Proof.
  apply (proj1 (undated_video_aborts_statistics
                  sample_parse sample_int (fun _ => None)
                  sample_now 6 10 3 five_videos
                  {| id := "x"; title := "untimed"; publishedAt := None;
                     merged := None |} []
                  (TypeError "Parser must be a string or character stream")
                  eq_refl eq_refl
                  ltac:(unfold five_videos;
                        repeat (constructor;
                                [exists "2024-01-20T00:00:00Z"; eexists;
                                 repeat split; reflexivity|]);
                        constructor)
                  ltac:(unfold five_videos;
                        repeat (constructor; [reflexivity|]); constructor)
                  ltac:(vm_compute; reflexivity))).
Defined.


(** ** The job never aborts and never repeats itself *)

Lemma string_app_inv_head (a x y : string) : a ++ x = a ++ y -> x = y.
Proof.
  induction a as [|c a IH]; cbn; intros H; [exact H|].
  inversion H. now apply IH.
Qed.

Lemma contact_url_inj (c c' : contact) :
  contact_url c = contact_url c' -> contact_id c = contact_id c'.
Proof.
  unfold contact_url. intros H.
  apply string_app_inv_head in H. now apply string_app_inv_head in H.
Qed.

Lemma subseq_in {A : Type} (sub l : list A) (x : A) :
  subseq sub l -> In x sub -> In x l.
Proof.
  induction 1 as [|y sub l _ IH|y sub l _ IH]; cbn; intuition.
Qed.

Lemma subseq_map {A B : Type} (f : A -> B) (sub l : list A) :
  subseq sub l -> subseq (map f sub) (map f l).
Proof. induction 1; cbn; constructor; assumption. Qed.

Lemma subseq_nodup {A : Type} (sub l : list A) :
  subseq sub l -> NoDup l -> NoDup sub.
Proof.
  induction 1 as [|y sub l Hs IH|y sub l Hs IH]; intros Hnd.
  - constructor.
  - inversion Hnd; auto.
  - inversion Hnd as [|? ? Hnotin Hnd']; subst. constructor; [|auto].
    intros Hin. apply Hnotin. eapply subseq_in; eauto.
Qed.

Lemma subseq_nil_l {A : Type} (l : list A) : subseq [] l.
Proof. induction l; constructor; assumption. Qed.

Lemma subseq_length {A : Type} (sub l : list A) :
  subseq sub l -> (length sub <= length l)%nat.
Proof. induction 1; cbn; lia. Qed.

Section JobInvariants.

Variable youtube : request -> answer body.
Variable api_key : string.
Variable hubspot : patch_request -> answer unit.
Variable date_parse : string -> option pydatetime.
Variable py_int_str : string -> option Z.
Variable py_int_float_str : string -> option Z.
Variable STALE_DAYS : Z.
Variable MIN_DURATION_MINUTES : Z.
Variable FETCH_COUNT : Z.

Local Abbreviation process :=
  (process_contact youtube api_key hubspot date_parse py_int_str
                   py_int_float_str MIN_DURATION_MINUTES FETCH_COUNT).

Local Abbreviation loop :=
  (main_loop youtube api_key hubspot date_parse py_int_str py_int_float_str
             STALE_DAYS MIN_DURATION_MINUTES FETCH_COUNT).

Lemma process_contact_outcome
      (fuel : nat) (clock : readings) (c : contact) (w : world) :
  (forall e, fst (process fuel clock c w) <> Raise e) /\
  (hs_patches (snd (process fuel clock c w)) = hs_patches w \/
   exists avg,
     hs_patches (snd (process fuel clock c w))
     = (hs_patches w ++ [contact_patch c avg (at_patch clock)])%list) /\
  (truthy (prop_get PROP_CHANNEL_IDENTIFIER c) = false ->
   process fuel clock c w = (Ok tt, w)).
Proof.
  remember (process fuel clock c w) as out eqn:Hout.
  unfold process_contact in Hout.
  destruct (prop_get PROP_CHANNEL_IDENTIFIER c) as [[|ch r]|];
    try (cbn in Hout; subst out; cbn;
         split; [discriminate|split; [now left|reflexivity]]).
  unfold bind, try_except in Hout.
  pose proof (keeps_avg_views youtube api_key date_parse py_int_str
                py_int_float_str fuel (at_cutoff clock) (String ch r)
                MIN_DURATION_MINUTES FETCH_COUNT w) as Hk.
  destruct (avg_views_last_30d _ _ _ _ _ _ _ _ _ _ w) as [[avg|e|] w1];
    cbn [snd] in Hk.
  - cbn [ret] in Hout.
    unfold update_contact_properties, update_props in Hout.
    fold (contact_patch c avg (at_patch clock)) in Hout.
    destruct (hubspot (contact_patch c avg (at_patch clock)));
      subst out; cbn [fst snd hs_patches ret]; rewrite Hk;
      (split; [discriminate|split; [right; now exists avg|discriminate]]).
  - subst out. cbn. split; [discriminate|split; [now left|discriminate]].
  - subst out. cbn. split; [discriminate|split; [now left|discriminate]].
Qed.

Local Abbreviation average fuel clock ch :=
  (avg_views_last_30d youtube api_key date_parse py_int_str py_int_float_str
                      fuel (at_cutoff clock) ch MIN_DURATION_MINUTES
                      FETCH_COUNT).

(** X14. For every contact and whatever the two services answer,
    [process_contact] does not raise.  A contact without a channel identifier
    leaves the trace as it was; when the calculator returns an average (in
    the range the CRM value shows exactly, at a clock reading in the years
    1000 to 9999), the call adds exactly one PATCH, the one for that contact
    and that average; when the calculator raises or does not return, it adds
    none. *)
Theorem process_contact_contained
        (fuel : nat) (clock : readings) (c : contact) (w : world) :
  (forall e, fst (process fuel clock c w) <> Raise e) /\
  (truthy (prop_get PROP_CHANNEL_IDENTIFIER c) = false ->
   process fuel clock c w = (Ok tt, w)) /\
  (forall ch avg w1,
      prop_get PROP_CHANNEL_IDENTIFIER c = Some ch -> ch <> EmptyString ->
      average fuel clock ch w = (Ok avg, w1) ->
      average_in_range avg = true ->
      four_digit_year (at_patch clock) = true ->
      hs_patches (snd (process fuel clock c w))
      = (hs_patches w ++ [contact_patch c avg (at_patch clock)])%list) /\
  (forall ch r w1,
      prop_get PROP_CHANNEL_IDENTIFIER c = Some ch -> ch <> EmptyString ->
      average fuel clock ch w = (r, w1) -> (forall avg, r <> Ok avg) ->
      hs_patches (snd (process fuel clock c w)) = hs_patches w).
Proof.
  destruct (process_contact_outcome fuel clock c w) as (Hnr & _ & Hnone).
  split; [exact Hnr|]. split; [exact Hnone|].
  split.
  - intros ch avg w1 Hch Hne Havg _ _.
    pose proof (keeps_avg_views youtube api_key date_parse py_int_str
                  py_int_float_str fuel (at_cutoff clock) ch
                  MIN_DURATION_MINUTES FETCH_COUNT w) as Hk.
    rewrite Havg in Hk. cbn [snd] in Hk.
    unfold process_contact. rewrite Hch.
    destruct ch as [|a r]; [congruence|].
    unfold bind, try_except. rewrite Havg. cbn [ret].
    unfold update_contact_properties, update_props.
    fold (contact_patch c avg (at_patch clock)).
    destruct (hubspot (contact_patch c avg (at_patch clock)));
      cbn [snd hs_patches ret]; now rewrite Hk.
  - intros ch r w1 Hch Hne Havg Hr.
    pose proof (keeps_avg_views youtube api_key date_parse py_int_str
                  py_int_float_str fuel (at_cutoff clock) ch
                  MIN_DURATION_MINUTES FETCH_COUNT w) as Hk.
    rewrite Havg in Hk. cbn [snd] in Hk.
    unfold process_contact. rewrite Hch.
    destruct ch as [|a s]; [congruence|].
    unfold bind, try_except. rewrite Havg.
    destruct r as [avg|e|]; [now destruct (Hr avg)| |]; cbn; exact Hk.
Qed.

Lemma main_loop_cons (fuel : nat) (c : contact) (clock : readings)
      (rest : list (contact * readings)) (w : world) :
  loop fuel ((c, clock) :: rest) w
  = match is_stale_or_missing date_parse STALE_DAYS (at_staleness clock)
            (prop_get PROP_LAST_UPDATED c) with
    | Ok true =>
        match process fuel clock c w with
        | (Ok _, w1) => loop fuel rest w1
        | (Raise e, w1) => (Raise e, w1)
        | (Diverge, w1) => (Diverge, w1)
        end
    | Ok false => loop fuel rest w
    | Raise e => (Raise e, w)
    | Diverge => (Diverge, w)
    end.
Proof.
  cbn [main_loop]. unfold bind at 1, lift at 1.
  destruct (is_stale_or_missing _ _ _ _) as [[|]|e|]; reflexivity.
Qed.

Lemma main_loop_trace
      (fuel : nat) (work : list (contact * readings)) (w : world) :
  (forall e, fst (loop fuel work w) <> Raise e) /\
  exists ps sub,
    hs_patches (snd (loop fuel work w)) = (hs_patches w ++ ps)%list /\
    subseq sub (map fst work) /\
    map patch_url ps = map contact_url sub.
Proof.
  revert w. induction work as [|[c clock] rest IH]; intros w.
    - cbn. split; [discriminate|]. exists [], []. rewrite app_nil_r.
      split; [reflexivity|]. split; [constructor|reflexivity].
    - rewrite main_loop_cons. cbn [map fst].
      destruct (stale_returns date_parse STALE_DAYS
                  (at_staleness clock) (prop_get PROP_LAST_UPDATED c))
        as [stale Hstale].
      rewrite Hstale. destruct stale.
      + destruct (process_contact_outcome fuel clock c w)
          as (Hnr & Hpatch & _).
        destruct (process fuel clock c w) as [[[]|e|] w1];
          cbn [fst snd] in *.
        * destruct (IH w1) as (Hr & ps & sub & Hps & Hsub & Hurl).
          split; [exact Hr|].
          destruct Hpatch as [Hsame|[avg Hone]].
          -- exists ps, sub. rewrite Hps, Hsame.
             split; [reflexivity|].
             split; [apply subseq_skip; exact Hsub|exact Hurl].
          -- exists (contact_patch c avg (at_patch clock) :: ps), (c :: sub).
             rewrite Hps, Hone, <- app_assoc.
             split; [reflexivity|].
             split; [apply subseq_keep; exact Hsub|].
             cbn [map]. now rewrite Hurl.
        * exfalso. now apply (Hnr e).
        * split; [discriminate|].
          destruct Hpatch as [Hsame|[avg Hone]].
          -- exists [], []. rewrite app_nil_r.
             split; [exact Hsame|].
             split; [apply subseq_nil_l|reflexivity].
          -- exists [contact_patch c avg (at_patch clock)], [c].
             split; [exact Hone|].
             split; [apply subseq_keep, subseq_nil_l|reflexivity].
      + destruct (IH w) as (Hr & ps & sub & Hps & Hsub & Hurl).
        split; [exact Hr|]. exists ps, sub.
        split; [exact Hps|].
        split; [apply subseq_skip; exact Hsub|exact Hurl].
Qed.

(** X15. With staleness cutoffs in the range of datetimes, the loop of [main]
    never raises, whatever happens to the single contacts.  The PATCHes it
    sends go, in the order of the batch, to some of its contacts, at most one
    to each place of the batch. *)
Theorem main_loop_contained
        (fuel : nat) (work : list (contact * readings)) (w : world) :
  Forall (fun cw => cutoff_in_range STALE_DAYS (at_staleness (snd cw)) = true)
         work ->
  (forall e, fst (loop fuel work w) <> Raise e) /\
  exists ps sub,
    hs_patches (snd (loop fuel work w)) = (hs_patches w ++ ps)%list /\
    subseq sub (map fst work) /\
    map patch_url ps = map contact_url sub /\
    (length ps <= length work)%nat.
Proof.
  intros _.
  destruct (main_loop_trace fuel work w)
    as (Hr & ps & sub & Hps & Hsub & Hurl).
  split; [exact Hr|]. exists ps, sub.
  split; [exact Hps|]. split; [exact Hsub|]. split; [exact Hurl|].
  apply subseq_length in Hsub.
  apply (f_equal (@length string)) in Hurl.
  rewrite !length_map in *. lia.
Qed.

Lemma main_loop_distinct
      (fuel : nat) (work : list (contact * readings)) (w : world)
      (ps : list patch_request) :
  NoDup (map contact_id (map fst work)) ->
  hs_patches (snd (loop fuel work w)) = (hs_patches w ++ ps)%list ->
  NoDup (map patch_url ps).
Proof.
  intros Hnd Hrun.
  destruct (main_loop_trace fuel work w)
    as (_ & ps' & sub & Hps & Hsub & Hurl).
  rewrite Hps in Hrun. apply app_inv_head in Hrun. subst ps'.
  rewrite Hurl.
  apply (subseq_nodup _ _ (subseq_map contact_id _ _ Hsub)) in Hnd.
  clear - Hnd. induction sub as [|c sub IH]; cbn in *; [constructor|].
  inversion Hnd as [|? ? Hnotin Hnd']; subst. constructor; [|auto].
  intros Hin. apply Hnotin. apply in_map_iff in Hin as (c' & E & Hin).
  apply contact_url_inj in E. rewrite <- E. now apply in_map.
Qed.

(** X16. When the contacts of the batch have pairwise distinct ids, the loop
    of [main] PATCHes no contact twice: the urls of the PATCHes it adds to
    the trace are pairwise distinct. *)
Theorem main_loop_patches_once
        (fuel : nat) (work : list (contact * readings)) (w : world)
        (ps : list patch_request) :
  NoDup (map contact_id (map fst work)) ->
  hs_patches (snd (loop fuel work w)) = (hs_patches w ++ ps)%list ->
  NoDup (map patch_url ps).
Proof. exact (main_loop_distinct fuel work w ps). Qed.

End JobInvariants.

Lemma main_loop_contained_witness :
  (forall e,
      fst (main_loop five_youtube "k" (fun _ => Answer tt) sample_parse
                     sample_int (fun _ => None) 30 3 50 6
                     [(sample_contact, sample_clock);
                      (sample_contact, sample_clock)] empty_world)
      <> Raise e) /\
  exists ps sub,
    hs_patches
      (snd (main_loop five_youtube "k" (fun _ => Answer tt) sample_parse
                      sample_int (fun _ => None) 30 3 50 6
                      [(sample_contact, sample_clock);
                       (sample_contact, sample_clock)] empty_world))
    = (hs_patches empty_world ++ ps)%list /\
    subseq sub [sample_contact; sample_contact] /\
    map patch_url ps = map contact_url sub /\
    (length ps <= 2)%nat.
Proof.
  apply (main_loop_contained
           five_youtube "k" (fun _ => Answer tt) sample_parse sample_int
           (fun _ => None) 30 3 50 6%nat
           [(sample_contact, sample_clock); (sample_contact, sample_clock)]
           empty_world).
  repeat constructor.
Defined.

Lemma main_loop_patches_once_witness :
  NoDup ["https://api.hubapi.com/crm/v3/objects/contacts/501";
         "https://api.hubapi.com/crm/v3/objects/contacts/502"].
Proof.
  apply (main_loop_patches_once
           five_youtube "k" (fun _ => Answer tt) sample_parse sample_int
           (fun _ => None) 30 3 50 6%nat
           [(sample_contact, sample_clock);
            ({| contact_id := "502";
                properties := properties sample_contact |}, sample_clock)]
           empty_world
           [contact_patch sample_contact 200 (at_patch sample_clock);
            contact_patch {| contact_id := "502";
                             properties := properties sample_contact |}
                          200 (at_patch sample_clock)]).
  - vm_compute. repeat constructor; cbn; intuition discriminate.
  - vm_compute. reflexivity.
Defined.


(** ** The contact search *)

Lemma dict_set_keys (k : string) (v : contact) (d : list (string * contact))
      (k' : string) :
  In k' (map fst (dict_set k v d)) <-> k' = k \/ In k' (map fst d).
Proof.
  induction d as [|[k0 v0] d IH]; cbn.
  - intuition.
  - destruct (String.eqb k0 k) eqn:E; cbn.
    + apply String.eqb_eq in E. subst k0. intuition.
    + rewrite IH. intuition.
Qed.

Lemma dict_set_nodup (k : string) (v : contact) (d : list (string * contact)) :
  NoDup (map fst d) -> NoDup (map fst (dict_set k v d)).
Proof.
  induction d as [|[k0 v0] d IH]; cbn; intros Hnd.
  - repeat constructor. intros [].
  - inversion Hnd as [|? ? Hnotin Hnd']; subst.
    destruct (String.eqb k0 k) eqn:E; cbn.
    + apply String.eqb_eq in E. subst k0. now constructor.
    + constructor; [|auto]. rewrite dict_set_keys. intros [->|Hin].
      * now rewrite String.eqb_refl in E.
      * contradiction.
Qed.

Lemma dict_set_forall (Q : string * contact -> Prop) (k : string)
      (v : contact) (d : list (string * contact)) :
  Q (k, v) -> Forall Q d -> Forall Q (dict_set k v d).
Proof.
  intros Hq. induction 1 as [|[k0 v0] d Hx Hd IH]; cbn.
  - now repeat constructor.
  - destruct (String.eqb k0 k); constructor; auto.
Qed.

Lemma dict_set_length (k : string) (v : contact)
      (d : list (string * contact)) :
  (length d <= length (dict_set k v d) <= S (length d))%nat.
Proof.
  induction d as [|[k0 v0] d IH]; cbn; [lia|].
  destruct (String.eqb k0 k); cbn; lia.
Qed.

Lemma map_fst_combine {A B : Type} (l : list A) (l' : list B) :
  length l = length l' -> map fst (combine l l') = l.
Proof.
  revert l'. induction l as [|a l IH]; intros [|b l'] H; cbn in *;
    try discriminate; [reflexivity|].
  f_equal. apply IH. lia.
Qed.

Lemma with_readings_contacts (loop_clock : nat -> readings)
      (cs : list contact) :
  map fst (with_readings loop_clock cs) = cs.
Proof.
  unfold with_readings. apply map_fst_combine.
  now rewrite length_map, length_seq.
Qed.

Section SearchInvariants.

Variable hubspot_search : search_payload -> answer search_page.
Variable date_parse : string -> option pydatetime.
Variable STALE_DAYS : Z.
Variable clock : nat -> Z.

Local Abbreviation search :=
  (search_contacts_needing_update hubspot_search date_parse STALE_DAYS clock).
Local Abbreviation sloop :=
  (search_loop hubspot_search date_parse STALE_DAYS clock).
Local Abbreviation keep := (keep_stale date_parse STALE_DAYS clock).

(** What the dictionary of the search holds between two iterations: distinct
    keys, each the id of its contact, and only contacts that tested stale
    at a reading between [lo] and [hi]. *)
Local Abbreviation entry_ok lo hi :=
  (fun kv : string * contact =>
     fst kv = contact_id (snd kv) /\
     exists m, (lo <= m < hi)%nat /\
               stale_at date_parse STALE_DAYS (clock m) (snd kv)).

Lemma entry_ok_mono (lo hi hi' : nat) (d : list (string * contact)) :
  (hi <= hi')%nat -> Forall (entry_ok lo hi) d -> Forall (entry_ok lo hi') d.
Proof.
  intros Hle. apply Forall_impl. intros kv (Hk & m & Hm & Hs).
  split; [exact Hk|]. exists m. split; [lia|exact Hs].
Qed.

Lemma keep_stale_spec (lo : nat) (rs : list contact) :
  forall (d : list (string * contact)) (n : nat),
    (lo <= n)%nat ->
    NoDup (map fst d) ->
    Forall (entry_ok lo n) d ->
    exists d',
      keep rs d n = Ok (d', (n + length rs)%nat) /\
      NoDup (map fst d') /\
      Forall (entry_ok lo (n + length rs)) d' /\
      (length d <= length d' <= length d + length rs)%nat.
Proof.
  induction rs as [|c rs IH]; intros d n Hlo Hnd Hall.
  - exists d. cbn [keep_stale length]. rewrite Nat.add_0_r.
    repeat split; auto; lia.
  - cbn [keep_stale length].
    destruct (stale_returns date_parse STALE_DAYS (clock n)
                (prop_get PROP_LAST_UPDATED c)) as [stale Hstale].
    rewrite Hstale. cbn [rbind].
    replace (n + S (length rs))%nat with (S n + length rs)%nat by lia.
    destruct stale.
    + destruct (IH (dict_set (contact_id c) c d) (S n)) as (d' & E & H1 & H2 & H3).
      * lia.
      * now apply dict_set_nodup.
      * apply dict_set_forall.
        -- split; [reflexivity|]. exists n. split; [lia|exact Hstale].
        -- apply (entry_ok_mono lo n); [lia|exact Hall].
      * exists d'. repeat split; auto.
        -- pose proof (dict_set_length (contact_id c) c d). lia.
        -- pose proof (dict_set_length (contact_id c) c d). lia.
    + destruct (IH d (S n)) as (d' & E & H1 & H2 & H3).
      * lia.
      * exact Hnd.
      * apply (entry_ok_mono lo n); [lia|exact Hall].
      * exists d'. repeat split; auto; lia.
Qed.

Lemma search_loop_inv (lo : nat) (limit : Z) (fuel : nat) :
  forall (d : list (string * contact)) (after : option string)
         (st : search_state) (d' : list (string * contact))
         (st' : search_state),
    (lo <= tested st)%nat ->
    NoDup (map fst d) ->
    Forall (entry_ok lo (tested st)) d ->
    sloop fuel limit d after st = (Ok d', st') ->
    (tested st <= tested st')%nat /\
    NoDup (map fst d') /\
    Forall (entry_ok lo (tested st')) d'.
Proof.
  induction fuel as [|fuel IH]; intros d after st d' st' Hlo Hnd Hall Hrun;
    cbn [search_loop] in Hrun;
    destruct (Z.of_nat (length d) <? limit);
    try (inversion Hrun; subst; repeat split; auto; lia).
  destruct (hubspot_search _) as [data|status tx|msg]; try discriminate.
  destruct (keep_stale_spec lo (results data) d (tested st) Hlo Hnd Hall)
    as (d1 & E & H1 & H2 & H3).
  rewrite E in Hrun.
  destruct (negb (truthy (next_after data))
            || (limit <=? Z.of_nat (length d1))).
  - inversion Hrun; subst. cbn [tested]. repeat split; auto; lia.
  - apply IH in Hrun; cbn [tested] in *; auto; [|lia].
    destruct Hrun as (Hle & Hrest). split; [lia|exact Hrest].
Qed.

Lemma search_result_inv (fuel : nat) (limit : Z) (st st' : search_state)
      (cs : list contact) :
  search fuel limit st = (Ok cs, st') ->
  NoDup (map contact_id cs) /\
  forall c, In c cs ->
    exists m, (tested st <= m < tested st')%nat /\
              stale_at date_parse STALE_DAYS (clock m) c.
Proof.
  unfold search_contacts_needing_update. intros Hrun.
  destruct (sloop fuel limit [] None st) as [[d| |] st1] eqn:Hloop;
    try discriminate.
  inversion Hrun; subst. clear Hrun.
  apply (search_loop_inv (tested st)) in Hloop;
    [|lia|constructor|constructor].
  destruct Hloop as (_ & Hnd & Hall).
  split.
  - replace (map contact_id (map snd d)) with (map fst d); [exact Hnd|].
    rewrite map_map. apply map_ext_Forall.
    revert Hall. apply Forall_impl. now intros kv [Hk _].
  - intros c Hin. apply in_map_iff in Hin as (kv & <- & Hin).
    rewrite Forall_forall in Hall. now destruct (Hall kv Hin) as [_ Hm].
Qed.

(** X17. Whatever the CRM's search answers, even if it lists a contact
    several times or on several pages, the contacts
    [search_contacts_needing_update] returns have pairwise distinct ids, and
    each of them tested stale at one of the clock readings of this search. *)
Theorem search_returns_distinct_stale
        (fuel : nat) (limit : Z) (st st' : search_state)
        (cs : list contact) :
  search fuel limit st = (Ok cs, st') ->
  NoDup (map contact_id cs) /\
  forall c, In c cs ->
    exists m, (tested st <= m < tested st')%nat /\
              stale_at date_parse STALE_DAYS (clock m) c.
Proof. exact (search_result_inv fuel limit st st' cs). Qed.

Lemma search_loop_payloads (limit : Z) (fuel : nat) :
  forall (d : list (string * contact)) (after : option string)
         (st : search_state),
    exists new,
      posted (snd (sloop fuel limit d after st)) = (posted st ++ new)%list /\
      Forall (payload_ok limit) new /\
      (length new <= fuel)%nat.
Proof.
  induction fuel as [|fuel IH]; intros d after st; cbn [search_loop];
    destruct (Z.of_nat (length d) <? limit) eqn:Hlt;
    try (exists []; rewrite app_nil_r; repeat split; [constructor|cbn; lia]).
  apply Z.ltb_lt in Hlt.
  assert (Hok : payload_ok limit (next_payload limit d after)).
  { unfold payload_ok, next_payload. cbn [sp_limit sp_after].
    split; [lia|]. split; [lia|].
    destruct after as [[|a r]|]; cbn; discriminate. }
  set (payload := next_payload limit d after) in *.
  assert (Hone : Forall (payload_ok limit) [payload])
    by (constructor; [exact Hok|constructor]).
  destruct (hubspot_search payload) as [data|status tx|msg];
    try (exists [payload]; cbn [snd posted length];
         split; [reflexivity|split; [exact Hone|lia]]).
  destruct (keep (results data) d (tested st)) as [[d1 n]|e|];
    try (exists [payload]; cbn [snd posted length];
         split; [reflexivity|split; [exact Hone|lia]]).
  destruct (negb (truthy (next_after data))
            || (limit <=? Z.of_nat (length d1))).
  - exists [payload]. cbn [snd posted length].
    split; [reflexivity|split; [exact Hone|lia]].
  - destruct (IH d1 (next_after data)
                 {| posted := (posted st ++ [payload])%list; tested := n |})
      as (new & Hp & Hall & Hlen).
    exists (payload :: new). cbn [posted] in Hp |- *.
    rewrite Hp, <- app_assoc.
    split; [reflexivity|split; [constructor; assumption|cbn; lia]].
Qed.

(** X18. Every payload [search_contacts_needing_update] posts asks for a page
    of 1 to 1000 contacts, never more than the caller's [limit], and carries
    a cursor only when the previous page gave a non-empty one; with a
    [limit] of zero or less nothing is posted at all. *)
Theorem search_payloads_well_formed
        (fuel : nat) (limit : Z) (st : search_state) :
  exists new,
    posted (snd (search fuel limit st)) = (posted st ++ new)%list /\
    Forall (payload_ok limit) new /\
    (length new <= fuel)%nat /\
    (limit <= 0 -> new = [] /\ fst (search fuel limit st) = Ok []).
Proof.
  destruct (search_loop_payloads limit fuel [] None st)
    as (new & Hp & Hall & Hlen).
  exists new. unfold search_contacts_needing_update.
  split; [|split; [exact Hall|split; [exact Hlen|]]].
  - destruct (sloop fuel limit [] None st) as [[d| |] st1]; exact Hp.
  - intros Hle. destruct new as [|p new]; [split; [reflexivity|]|].
    + destruct fuel; cbn [search_loop length];
        destruct (Z.of_nat 0 <? limit) eqn:E;
        try (apply Z.ltb_lt in E; cbn in E; lia); reflexivity.
    + inversion Hall as [|? ? (H1 & H2 & _) _]; subst. lia.
Qed.

Lemma keep_stale_length (rs : list contact) :
  forall (d : list (string * contact)) (n : nat),
    exists d' n',
      keep rs d n = Ok (d', n') /\
      (length d <= length d' <= length d + length rs)%nat.
Proof.
  induction rs as [|c rs IH]; intros d n.
  - exists d, n. cbn [keep_stale length]. split; [reflexivity|lia].
  - cbn [keep_stale length].
    destruct (stale_returns date_parse STALE_DAYS (clock n)
                (prop_get PROP_LAST_UPDATED c)) as [stale Hstale].
    rewrite Hstale. cbn [rbind]. destruct stale.
    + destruct (IH (dict_set (contact_id c) c d) (S n)) as (d' & n' & E & H).
      exists d', n'. split; [exact E|].
      pose proof (dict_set_length (contact_id c) c d). lia.
    + destruct (IH d (S n)) as (d' & n' & E & H).
      exists d', n'. split; [exact E|lia].
Qed.

Section Honouring.

Hypothesis honours :
  forall p data,
    1 <= sp_limit p ->
    hubspot_search p = Answer data ->
    Z.of_nat (length (results data)) <= sp_limit p.

Lemma search_loop_bound (limit : Z) (fuel : nat) :
  forall (d : list (string * contact)) (after : option string)
         (st : search_state) (d' : list (string * contact))
         (st' : search_state),
    Z.of_nat (length d) <= Z.max 0 limit ->
    sloop fuel limit d after st = (Ok d', st') ->
    Z.of_nat (length d') <= Z.max 0 limit.
Proof.
  induction fuel as [|fuel IH]; intros d after st d' st' Hlen Hrun;
    cbn [search_loop] in Hrun;
    destruct (Z.of_nat (length d) <? limit) eqn:Hlt;
    try (inversion Hrun; subst; exact Hlen); try discriminate.
  apply Z.ltb_lt in Hlt.
  destruct (hubspot_search _) as [data|status tx|msg] eqn:Hans;
    try discriminate.
  apply honours in Hans; [|cbn [next_payload sp_limit]; lia].
  cbn [next_payload sp_limit] in Hans.
  destruct (keep_stale_length (results data) d (tested st))
    as (d1 & n1 & E & Hd1).
  rewrite E in Hrun.
  assert (Hb : Z.of_nat (length d1) <= Z.max 0 limit) by lia.
  destruct (negb (truthy (next_after data))
            || (limit <=? Z.of_nat (length d1))).
  - inversion Hrun; subst. exact Hb.
  - apply IH in Hrun; assumption.
Qed.

(** X19. When the CRM's search returns no more contacts than a payload asks
    for, [search_contacts_needing_update] returns at most [limit] contacts
    (none for a [limit] of zero or less). *)
Theorem search_returns_at_most_limit
        (fuel : nat) (limit : Z) (st st' : search_state)
        (cs : list contact) :
  search fuel limit st = (Ok cs, st') ->
  Z.of_nat (length cs) <= Z.max 0 limit.
Proof.
  unfold search_contacts_needing_update. intros Hrun.
  destruct (sloop fuel limit [] None st) as [[d| |] st1] eqn:Hloop;
    try discriminate.
  inversion Hrun; subst. rewrite length_map.
  eapply (search_loop_bound limit fuel [] None st); [cbn; lia|exact Hloop].
Qed.

End Honouring.

End SearchInvariants.

Lemma sample_search_honours (p : search_payload) (data : search_page) :
  1 <= sp_limit p ->
  sample_search p = Answer data ->
  Z.of_nat (length (results data)) <= sp_limit p.
Proof.
  intros Hp H. inversion H; subst. cbn [results].
  pose proof (firstn_le_length (Z.to_nat (sp_limit p))
                [sample_contact; sample_contact; other_contact]) as Hl.
  rewrite length_firstn. lia.
Qed.

Lemma search_returns_distinct_stale_witness :
  NoDup (map contact_id [sample_contact; other_contact]) /\
  forall c, In c [sample_contact; other_contact] ->
    exists m, (0 <= m < 3)%nat /\
              stale_at sample_parse 30 sample_now c.
Proof.
  apply (search_returns_distinct_stale
           sample_search sample_parse 30 (fun _ => sample_now) 4%nat 200
           fresh_search
           {| posted := [{| sp_limit := 200; sp_after := None |}];
              tested := 3 |}
           [sample_contact; other_contact]).
  vm_compute. reflexivity.
Defined.

Lemma search_returns_at_most_limit_witness :
  Z.of_nat (length [sample_contact]) <= Z.max 0 1.
Proof.
  apply (search_returns_at_most_limit
           sample_search sample_parse 30 (fun _ => sample_now)
           sample_search_honours 4%nat 1 fresh_search
           {| posted := [{| sp_limit := 1; sp_after := None |}];
              tested := 1 |}
           [sample_contact]).
  vm_compute. reflexivity.
Defined.


(** ** The job as a whole *)

Section MainInvariants.

Variable youtube : request -> answer body.
Variable hubspot : patch_request -> answer unit.
Variable hubspot_search : search_payload -> answer search_page.
Variable date_parse : string -> option pydatetime.
Variable py_int_str : string -> option Z.
Variable py_int_float_str : string -> option Z.
Variable STALE_DAYS : Z.
Variable MIN_DURATION_MINUTES : Z.
Variable FETCH_COUNT : Z.
Variable search_clock : nat -> Z.
Variable loop_clock : nat -> readings.

Local Abbreviation run :=
  (main youtube hubspot hubspot_search date_parse py_int_str py_int_float_str
        STALE_DAYS MIN_DURATION_MINUTES FETCH_COUNT search_clock loop_clock).

(** X20. One run of [main], whatever the three services answer and with
    staleness cutoffs in the range of datetimes: the PATCHes it sends go to
    pairwise distinct contacts; if it raises, it has sent nothing to YouTube
    and no PATCH (only the construction of the client and the search can fail
    it, and both come first); and without a key in the environment it raises
    before it posts a single search. *)
Theorem main_contained
        (env_key : option string) (fuel : nat) (w : world)
        (st : search_state) :
  (forall n, cutoff_in_range STALE_DAYS (at_staleness (loop_clock n)) = true) ->
  (exists ps,
     hs_patches (snd (fst (run env_key fuel w st)))
     = (hs_patches w ++ ps)%list /\
     NoDup (map patch_url ps)) /\
  (forall e, fst (fst (run env_key fuel w st)) = Raise e ->
             snd (fst (run env_key fuel w st)) = w) /\
  (truthy env_key = false ->
   exists msg, run env_key fuel w st = (Raise (ValueError msg), w, st)).
Proof.
  intros _. unfold main, YouTubeClient_init. cbn [truthy].
  destruct env_key as [[|k r]|]; cbn [truthy fst snd];
    try (split; [exists []; rewrite app_nil_r; split; [reflexivity|constructor]
                |split; [reflexivity|intros _; eexists; reflexivity]]).
  destruct (search_contacts_needing_update _ _ _ _ _ _ _)
    as [[cs|e|] st'] eqn:Hsearch; cbn [fst snd];
    try (split; [exists []; rewrite app_nil_r; split; [reflexivity|constructor]
                |split; [reflexivity|discriminate]]).
  apply search_result_inv in Hsearch. destruct Hsearch as [Hnd _].
  pose proof (main_loop_trace youtube (String k r) hubspot date_parse
                py_int_str py_int_float_str STALE_DAYS MIN_DURATION_MINUTES
                FETCH_COUNT fuel (with_readings loop_clock cs) w)
    as (Hnr & ps & sub & Hps & _).
  pose proof (main_loop_distinct youtube (String k r) hubspot date_parse
                py_int_str py_int_float_str STALE_DAYS MIN_DURATION_MINUTES
                FETCH_COUNT fuel (with_readings loop_clock cs) w ps) as Hd.
  rewrite with_readings_contacts in Hd. specialize (Hd Hnd Hps).
  destruct (main_loop _ _ _ _ _ _ _ _ _ _ _ w) as [res w'];
    cbn [fst snd] in *.
  split; [exists ps; split; assumption|].
  split; [|discriminate].
  intros e He. exfalso. now apply (Hnr e).
Qed.

End MainInvariants.

Lemma main_contained_witness :
  exists ps,
    hs_patches
      (snd (fst (main five_youtube (fun _ => Answer tt) sample_search
                      sample_parse sample_int (fun _ => None) 30 3 50
                      (fun _ => sample_now) (fun _ => sample_clock)
                      (Some "k") 6 empty_world fresh_search)))
    = (hs_patches empty_world ++ ps)%list /\
    NoDup (map patch_url ps).
Proof.
  exact (proj1 (main_contained
                  five_youtube (fun _ => Answer tt) sample_search
                  sample_parse sample_int (fun _ => None) 30 3 50
                  (fun _ => sample_now) (fun _ => sample_clock)
                  (Some "k") 6%nat empty_world fresh_search
                  (fun _ => eq_refl))).
Defined.


(** ** The search budget of the client *)

Lemma searches_log (r : request) (w : world) :
  searches (log_request r w)
  = (searches w + if is_search r then 1 else 0)%nat.
Proof.
  unfold searches, log_request. cbn [yt_requests].
  rewrite filter_app, length_app. cbn [filter].
  destruct (is_search r); reflexivity.
Qed.

Lemma spends_ret (n : nat) {A : Type} (a : A) : spends n (ret a).
Proof. intros w. cbn. lia. Qed.

Lemma spends_raise (n : nat) {A : Type} (e : exn) : spends n (@raise A e).
Proof. intros w. cbn. lia. Qed.

Lemma spends_diverge (n : nat) {A : Type} : spends n (@diverge A).
Proof. intros w. cbn. lia. Qed.

Lemma spends_lift (n : nat) {A : Type} (r : result A) : spends n (lift r).
Proof. intros w. unfold lift. cbn. lia. Qed.

Lemma spends_more (n n' : nat) {A : Type} (m : M A) :
  (n <= n')%nat -> spends n m -> spends n' m.
Proof. intros Hle Hm w. specialize (Hm w). lia. Qed.

Lemma spends_bind (a b : nat) {A B : Type} (m : M A) (f : A -> M B) :
  spends a m -> (forall x, spends b (f x)) -> spends (a + b) (bind m f).
Proof.
  intros Hm Hf w. unfold bind. specialize (Hm w).
  destruct (m w) as [[x|e|] w1]; cbn [snd] in *; try lia.
  specialize (Hf x w1). lia.
Qed.

Lemma bind_returns {A B : Type} (m : M A) (f : A -> M B) (w w1 : world)
      (a : A) :
  m w = (Ok a, w1) -> bind m f w = f a w1.
Proof. intros H. unfold bind. now rewrite H. Qed.

Lemma spends_get (youtube : request -> answer body) (k p : string)
      (ps : list (string * param)) :
  spends (if String.eqb p "search" then 1 else 0) (_get youtube k p ps).
Proof.
  intros w. rewrite _get_eq. cbn [snd]. rewrite searches_log.
  unfold is_search, with_key. cbn [path]. lia.
Qed.

Create HintDb spends.

#[local] Hint Resolve spends_ret spends_raise spends_diverge spends_lift
  : spends.

Section SearchBudget.

Variable youtube : request -> answer body.
Variable youtube_search : request -> answer search_body.
Variable api_key : string.
Variable date_parse : string -> option pydatetime.
Variable py_int_str : string -> option Z.
Variable py_int_float_str : string -> option Z.

Lemma spends_search (q : string) :
  spends 1 (search_channel_id youtube api_key q).
Proof.
  unfold search_channel_id.
  apply (spends_bind 1 0); [apply (spends_get youtube api_key "search")|].
  intros b. destruct (items b); auto with spends.
Qed.

Lemma resolve_passes (identifier : string) (w : world) :
  is_channel_id identifier = true ->
  resolve_channel_id youtube api_key identifier w = (Ok identifier, w).
Proof.
  unfold is_channel_id, resolve_channel_id. intros H. now rewrite H.
Qed.

(** After [n] earlier searches, resolving costs one more, or none for a
    channel id. *)
Lemma spends_resolve (identifier : string) :
  spends (if is_channel_id identifier then 0 else 1)
         (resolve_channel_id youtube api_key identifier).
Proof.
  destruct (is_channel_id identifier) eqn:Hid.
  - intros w. rewrite (resolve_passes identifier w Hid). cbn. lia.
  - unfold resolve_channel_id. unfold is_channel_id in Hid. rewrite Hid.
    repeat match goal with
           | |- spends _ (if ?c then _ else _) => destruct c
           end; auto using spends_search with spends.
Qed.

Lemma spends_channel_info (channel_id : string) :
  spends (if is_channel_id channel_id then 0 else 1)
         (fetch_channel_info youtube api_key channel_id).
Proof.
  unfold fetch_channel_info.
  replace (if is_channel_id channel_id then 0%nat else 1%nat)
    with ((if is_channel_id channel_id then 0 else 1) + (0 + 0))%nat by lia.
  apply spends_bind; [apply spends_resolve|]. intros c.
  apply spends_bind; [apply (spends_get youtube api_key "channels")|].
  intros b. destruct (items b); auto with spends.
Qed.

Lemma spends_fetch_pages (fuel : nat) (pl : string) (m : Z) :
  forall videos tok,
    spends 0 (fetch_pages youtube api_key fuel pl m videos tok).
Proof.
  induction fuel as [|fuel IH]; intros videos tok; cbn [fetch_pages];
    destruct (Z.of_nat (length videos) <? m); auto with spends.
  apply (spends_bind 0 0);
    [apply (spends_get youtube api_key "playlistItems")|].
  intros data. apply (spends_bind 0 0); [auto with spends|]. intros videos'.
  destruct (truthy (nextPageToken data)); auto with spends.
Qed.

Lemma spends_fetch_videos (fuel : nat) (channel_id : string) (m : Z) :
  spends (if is_channel_id channel_id then 0 else 1)
         (fetch_videos youtube api_key fuel channel_id m).
Proof.
  unfold fetch_videos.
  replace (if is_channel_id channel_id then 0%nat else 1%nat)
    with ((if is_channel_id channel_id then 0 else 1) + (0 + 0))%nat by lia.
  apply spends_bind; [apply spends_resolve|]. intros c.
  apply spends_bind; [apply (spends_get youtube api_key "channels")|].
  intros ch. destruct (items ch) as [|it rest]; [auto with spends|].
  apply (spends_bind 0 0); [auto with spends|]. intros pl.
  apply (spends_bind 0 0); [apply spends_fetch_pages|]. intros videos.
  destruct (truthy _); [|auto with spends].
  apply (spends_bind 0 0); [apply (spends_get youtube api_key "videos")|].
  intros d. apply (spends_bind 0 0); auto with spends.
Qed.

Lemma spends_search_channels (q : string) (m : Z) :
  spends 1 (search_youtube_channels youtube api_key q m).
Proof.
  unfold search_youtube_channels.
  apply (spends_bind 1 0); [apply (spends_get youtube api_key "search")|].
  auto with spends.
Qed.

Lemma spends_info_and_videos (fuel : nat) (ch : string) (n : Z) :
  spends ((if is_channel_id ch then 0 else 1)
          + ((if is_channel_id ch then 0 else 1) + 0))
    (info <- fetch_channel_info youtube api_key ch ;;
     videos <- fetch_videos youtube api_key fuel ch n ;;
     ret {| in_channel := info; in_videos := videos |})%monad.
Proof.
  apply spends_bind; [apply spends_channel_info|]. intros info.
  apply spends_bind; [apply spends_fetch_videos|]. intros videos.
  auto with spends.
Qed.

Lemma spends_get_search (p : string) (ps : list (string * param)) :
  spends (if String.eqb p "search" then 1 else 0)
         (_get_search youtube_search api_key p ps).
Proof.
  intros w. unfold _get_search.
  assert (H : snd (match youtube_search (with_key api_key p ps) with
                   | Answer b => (Ok b, log_request (with_key api_key p ps) w)
                   | BadStatus st tx =>
                       (Raise (HTTPError st tx),
                        log_request (with_key api_key p ps) w)
                   | NoAnswer msg =>
                       (Raise (ConnectionError msg),
                        log_request (with_key api_key p ps) w)
                   end) = log_request (with_key api_key p ps) w)
    by (destruct (youtube_search _); reflexivity).
  rewrite H, searches_log. unfold is_search, with_key. cbn [path]. lia.
Qed.

Lemma spends_channel_videos (channel_id term : string) (m : Z) :
  spends (if is_channel_id channel_id then 1 else 2)
         (search_youtube_channel_videos youtube youtube_search api_key
                                        channel_id term m).
Proof.
  unfold search_youtube_channel_videos.
  replace (if is_channel_id channel_id then 1%nat else 2%nat)
    with ((if is_channel_id channel_id then 0 else 1) + (1 + (0 + 0)))%nat
    by (destruct (is_channel_id channel_id); lia).
  apply spends_bind; [apply spends_resolve|]. intros c.
  apply spends_bind; [apply (spends_get_search "search")|]. intros data.
  apply spends_bind; [auto with spends|].
  intros [|o out]; [auto with spends|].
  apply (spends_bind 0 0); [apply (spends_get youtube api_key "videos")|].
  intros d. apply (spends_bind 0 0); auto with spends.
Qed.

(** X21. The search endpoint is used sparingly, method by method.
    [resolve_channel_id], [fetch_channel_info], [fetch_videos],
    [fetch_video_statistics] and the calculator send at most one search
    request, and none at all when the identifier is a channel id;
    [fetch_video_details] sends none; [search_youtube_channel_videos] sends
    its own search besides the resolution, so at most two, and at most one
    for a channel id; the two [introspect] methods, which resolve their
    channel again in each of the two methods they call, send at most
    three. *)
Theorem client_search_budget :
  (forall identifier,
      spends (if is_channel_id identifier then 0 else 1)
             (resolve_channel_id youtube api_key identifier)) /\
  (forall channel_id,
      spends (if is_channel_id channel_id then 0 else 1)
             (fetch_channel_info youtube api_key channel_id)) /\
  (forall fuel channel_id m,
      spends (if is_channel_id channel_id then 0 else 1)
             (fetch_videos youtube api_key fuel channel_id m)) /\
  (forall fuel now channel_id m months d,
      spends (if is_channel_id channel_id then 0 else 1)
             (fetch_video_statistics youtube api_key date_parse fuel now
                                     channel_id m months d)) /\
  (forall fuel now identifier min_minutes n,
      spends (if is_channel_id identifier then 0 else 1)
             (avg_views_last_30d youtube api_key date_parse py_int_str
                                 py_int_float_str fuel now identifier
                                 min_minutes n)) /\
  (forall video_id,
      spends 0 (fetch_video_details youtube api_key video_id)) /\
  (forall channel_id term m,
      spends (if is_channel_id channel_id then 1 else 2)
             (search_youtube_channel_videos youtube youtube_search api_key
                                            channel_id term m)) /\
  (forall fuel identifier n,
      spends (if is_channel_id identifier then 0 else 3)
             (introspect_channel youtube api_key fuel identifier n)) /\
  (forall fuel q n,
      spends 3 (search_and_introspect_channel youtube api_key fuel q n)).
Proof.
  split; [exact spends_resolve|].
  split; [exact spends_channel_info|].
  split; [exact spends_fetch_videos|].
  split.
  { intros fuel now channel_id m months d. unfold fetch_video_statistics.
    replace (if is_channel_id channel_id then 0%nat else 1%nat)
      with ((if is_channel_id channel_id then 0 else 1) + 0)%nat by lia.
    apply spends_bind; [apply spends_fetch_videos|]. auto with spends. }
  split.
  { intros fuel now identifier min_minutes n. unfold avg_views_last_30d.
    replace (if is_channel_id identifier then 0%nat else 1%nat)
      with ((if is_channel_id identifier then 0 else 1) + 0)%nat by lia.
    apply spends_bind; [apply spends_fetch_videos|]. auto with spends. }
  split.
  { intros video_id. unfold fetch_video_details.
    apply (spends_bind 0 0); [apply (spends_get youtube api_key "videos")|].
    intros b. destruct (items b); auto with spends. }
  split; [exact spends_channel_videos|].
  split.
  { intros fuel identifier n w. unfold introspect_channel.
    pose proof (spends_resolve identifier w) as Hr.
    destruct (is_channel_id identifier) eqn:Hid.
    - rewrite (bind_returns _ _ w w identifier
                 (resolve_passes identifier w Hid)).
      pose proof (spends_info_and_videos fuel identifier n w) as Hs.
      rewrite Hid in Hs. exact Hs.
    - destruct (resolve_channel_id youtube api_key identifier w)
        as [[ch|e|] w1] eqn:Hres; cbn [snd] in Hr.
      + rewrite (bind_returns _ _ w w1 ch Hres).
        pose proof (spends_info_and_videos fuel ch n w1) as Hs.
        destruct (is_channel_id ch); lia.
      + unfold bind. rewrite Hres. cbn [snd]. lia.
      + unfold bind. rewrite Hres. cbn [snd]. lia. }
  intros fuel q n. unfold search_and_introspect_channel.
  apply (spends_bind 1 2); [apply spends_search_channels|].
  intros [|ch rest]; [auto with spends|].
  eapply spends_more; [|apply spends_info_and_videos].
  destruct (is_channel_id (sm_id ch)); lia.
Qed.

(** X22. When the identifier resolves to a channel id, [introspect_channel]
    sends no search beyond the one of that resolution: the two methods it
    then calls take the id as it is. *)
Theorem introspect_searches_once
        (fuel : nat) (identifier : string) (n : Z) (w w1 : world)
        (ch : string) :
  resolve_channel_id youtube api_key identifier w = (Ok ch, w1) ->
  is_channel_id ch = true ->
  searches (snd (introspect_channel youtube api_key fuel identifier n w))
  = searches w1 /\
  (searches w1 <= searches w + 1)%nat.
Proof.
  intros Hres Hid.
  pose proof (spends_info_and_videos fuel ch n) as Hs. rewrite Hid in Hs.
  split.
  - unfold introspect_channel. rewrite (bind_returns _ _ w w1 ch Hres).
    specialize (Hs w1). lia.
  - pose proof (spends_resolve identifier w) as Hr. rewrite Hres in Hr.
    cbn [snd] in Hr. destruct (is_channel_id identifier); lia.
Qed.

(** X23. When the first channel its search finds has a channel id,
    [search_and_introspect_channel] sends exactly one search request: the
    info and the videos are fetched with that id as it is. *)
Theorem search_and_introspect_searches_once
        (fuel : nat) (q : string) (n : Z) (w w1 : world)
        (found : channel_summary) (rest : list channel_summary) :
  search_youtube_channels youtube api_key q 1 w = (Ok (found :: rest), w1) ->
  is_channel_id (sm_id found) = true ->
  searches (snd (search_and_introspect_channel youtube api_key fuel q n w))
  = (searches w + 1)%nat.
Proof.
  intros Hq Hid.
  pose proof (spends_info_and_videos fuel (sm_id found) n w1) as Hs.
  rewrite Hid in Hs.
  unfold search_and_introspect_channel.
  rewrite (bind_returns _ _ w w1 (found :: rest) Hq).
  assert (Hw : searches w1 = (searches w + 1)%nat).
  { unfold search_youtube_channels, bind in Hq. rewrite _get_eq in Hq.
    destruct (get_outcome _) as [b| |]; try discriminate.
    unfold lift in Hq. inversion Hq as [[Hb Hw]].
    rewrite searches_log. reflexivity. }
  lia.
Qed.

End SearchBudget.

Lemma introspect_searches_once_witness :
  searches (snd (introspect_channel finding_youtube "k" 6 "@sample" 5
                                    empty_world))
  = 1%nat.
Proof.
  destruct (introspect_searches_once
              finding_youtube "k" 6%nat "@sample" 5 empty_world
              (log_request (search_request "k" "@sample") empty_world)
              SAMPLE_CHANNEL eq_refl eq_refl) as [H _].
  rewrite H. reflexivity.
Defined.

Lemma search_and_introspect_searches_once_witness :
  searches (snd (search_and_introspect_channel finding_youtube "k" 6
                                               "sample" 5 empty_world))
  = 1%nat.
Proof.
  exact (search_and_introspect_searches_once
           finding_youtube "k" 6%nat "sample" 5 empty_world
           (log_request
              (with_key "k" "search"
                 [("part", PStr "snippet"); ("type", PStr "channel");
                  ("q", PStr "sample"); ("maxResults", PInt 1)])
              empty_world)
           {| sm_id := SAMPLE_CHANNEL; sm_title := "Sample";
              sm_description := None; sm_thumbnails := None |} []
           eq_refl eq_refl).
Defined.
